(** * Line-delimited JSON-RPC hosts and relay: a shallow embedding

    The development embeds the three Python programs of the repository

      - [src/test/mock_mcp_server.py]   (class MockMCPServer),
      - [src/test/http_mcp_server.py]   (class HttpMCPServer),
      - [src/docker/mcp-tools-client.py] (class MCPToolsClient),

    together with the part of the Python run time they rely on (dictionaries,
    [str.strip], string formatting, the [json] codec), and states the
    properties of the protocol specification over these definitions.

    Modelling conventions.
      - A Python [str] is a [string]; each [ascii] stands for one code point
        below 256.  Text that needs a larger code point is outside the
        embedding.
      - A JSON number is a Python [int] (a [Z]).  Number literals with a
        fraction or an exponent, and the constants NaN and Infinity, decode
        to Python floats, which the embedding does not represent: on JSON
        text that holds one the decoder answers [Unmodelled], and a run
        over such a line has no model ([None]).  Text that is not JSON
        text raises [JSONDecodeError] whether it holds one or not.
      - A Python [dict] is an association list in insertion order.
      - An exception is a value of [exc]; what [str(e)] prints is [exn_str].
      - The clock, the random generator, the network and the child process
        are inputs of the step functions.
      - A call that never returns has no result: the relay has none,
        [None], where its [readline] waits for a child that prints
        nothing.
      - Logging goes to stderr and is left out, except where formatting the
        logged message can raise.
      - Resource limits of the interpreter (recursion depth, the digit limit
        of [int]) are not modelled. *)

From Stdlib Require Import String Ascii List ZArith NArith Bool Lia.
From Stdlib Require Import Decimal DecimalString DecimalZ DecimalPos DecimalFacts.
Import ListNotations.
Open Scope string_scope.

(* ================================================================== *)
(** * Python values and builtins *)
(* ================================================================== *)

Module Py.

#[warnings="-register-all"]
Inductive pyval : Type :=
| PyNone
| PyBool (b : bool)
| PyInt (n : Z)
| PyStr (s : string)
| PyList (l : list pyval)
| PyDict (d : list (string * pyval)).

(** Exceptions raised by the embedded code, with the data that their
    message is printed from. *)
Inductive exn : Type :=
| AttributeError (type_name attr : string)
| TypeError (msg : string).

Inductive exc (A : Type) : Type :=
| Return (a : A)
| Raise (e : exn).
Arguments Return {A} a.
Arguments Raise {A} e.

Definition bind {A B} (m : exc A) (k : A -> exc B) : exc B :=
  match m with
  | Return a => k a
  | Raise e => Raise e
  end.

Declare Scope exc_scope.
Delimit Scope exc_scope with exc.
Notation "x <- m ;; k" := (bind m (fun x => k))
  (at level 61, m at next level, right associativity) : exc_scope.

(** The double quote and the apostrophe, as characters and as strings. *)
Definition DQ : ascii := "034"%char.
Definition SQ : ascii := "039"%char.
Definition BSL : ascii := "092"%char.
Definition dq : string := String DQ EmptyString.
Definition sq : string := String SQ EmptyString.

(** [type(v).__name__] *)
Definition type_name (v : pyval) : string :=
  match v with
  | PyNone => "NoneType"
  | PyBool _ => "bool"
  | PyInt _ => "int"
  | PyStr _ => "str"
  | PyList _ => "list"
  | PyDict _ => "dict"
  end.

(** [str(e)] for the exceptions above. *)
Definition exn_str (e : exn) : string :=
  match e with
  | AttributeError ty attr =>
      sq ++ ty ++ sq ++ " object has no attribute " ++ sq ++ attr ++ sq
  | TypeError msg => msg
  end.

(** ** Integers *)

(** [str(n)] for an [int]: decimal digits, a minus sign when negative. *)
Definition str_of_int (n : Z) : string :=
  NilZero.string_of_int (Z.to_int n).

Definition hex_digit (n : N) : ascii :=
  match n with
  | 0 => "0" | 1 => "1" | 2 => "2" | 3 => "3" | 4 => "4" | 5 => "5"
  | 6 => "6" | 7 => "7" | 8 => "8" | 9 => "9" | 10 => "a" | 11 => "b"
  | 12 => "c" | 13 => "d" | 14 => "e" | _ => "f"
  end%N%char.

(** Two lower-case hexadecimal digits of a code point below 256. *)
Definition hex2 (c : ascii) : string :=
  let n := N_of_ascii c in
  String (hex_digit (n / 16)) (String (hex_digit (n mod 16)) EmptyString).

(** ** Strings *)

(** [c.isspace()] on the code points below 256: the characters that
    [str.strip()] removes. *)
Definition isspace (c : ascii) : bool :=
  let n := N_of_ascii c in
  ((9 <=? n) && (n <=? 13) || (28 <=? n) && (n <=? 32)
   || (n =? 133) || (n =? 160))%N.

Fixpoint lstrip (s : string) : string :=
  match s with
  | EmptyString => EmptyString
  | String c r => if isspace c then lstrip r else s
  end.

Fixpoint rstrip (s : string) : string :=
  match s with
  | EmptyString => EmptyString
  | String c r =>
      match rstrip r with
      | EmptyString => if isspace c then EmptyString else String c EmptyString
      | r' => String c r'
      end
  end.

(** [s.strip()] *)
Definition strip (s : string) : string := rstrip (lstrip s).

Definition is_empty (s : string) : bool :=
  match s with EmptyString => true | _ => false end.

Fixpoint contains_char (c : ascii) (s : string) : bool :=
  match s with
  | EmptyString => false
  | String x r => Ascii.eqb x c || contains_char c r
  end.

(** [s.startswith(p)] *)
Fixpoint startswith (p s : string) : bool :=
  match p with
  | EmptyString => true
  | String a p' =>
      match s with
      | String b s' => Ascii.eqb a b && startswith p' s'
      | EmptyString => false
      end
  end.

(** [needle in hay] for two strings. *)
Fixpoint str_in (needle hay : string) : bool :=
  startswith needle hay ||
  match hay with
  | EmptyString => false
  | String _ r => str_in needle r
  end.

(** [s[:n]] *)
Fixpoint str_take (n : nat) (s : string) : string :=
  match n, s with
  | S k, String c r => String c (str_take k r)
  | _, _ => EmptyString
  end.

(** [s.upper()] on the ASCII letters.  The code points from 128 to 255 are
    left in place: Python maps them to other non-ASCII code points (or, for
    U+00DF, to the pair SS), so the result still compares with the ASCII
    keys UTC, EST, PST, CET and JST the way Python's does. *)
Definition upper_char (c : ascii) : ascii :=
  let n := N_of_ascii c in
  if ((97 <=? n) && (n <=? 122))%N then ascii_of_N (n - 32) else c.

Fixpoint upper (s : string) : string :=
  match s with
  | EmptyString => EmptyString
  | String c r => String (upper_char c) (upper r)
  end.

(** [repr(c)] inside a string literal delimited by [quote]. *)
Definition repr_char (quote c : ascii) : string :=
  let n := N_of_ascii c in
  if Ascii.eqb c quote || Ascii.eqb c BSL then String BSL (String c EmptyString)
  else if (n =? 9)%N then String BSL "t"
  else if (n =? 10)%N then String BSL "n"
  else if (n =? 13)%N then String BSL "r"
  else if ((n <? 32) || (n =? 127))%N then String BSL ("x" ++ hex2 c)
  else if ((128 <=? n) && (n <=? 160) || (n =? 173))%N
       then String BSL ("x" ++ hex2 c)
  else String c EmptyString.

Fixpoint repr_chars (quote : ascii) (s : string) : string :=
  match s with
  | EmptyString => EmptyString
  | String c r => repr_char quote c ++ repr_chars quote r
  end.

(** [repr(s)] for a string: apostrophes around it, unless it holds an
    apostrophe and no double quote. *)
Definition repr_str (s : string) : string :=
  let quote := if contains_char SQ s && negb (contains_char DQ s) then DQ else SQ in
  String quote (repr_chars quote s ++ String quote EmptyString).

(** [repr(v)] *)
Fixpoint repr (v : pyval) : string :=
  match v with
  | PyNone => "None"
  | PyBool true => "True"
  | PyBool false => "False"
  | PyInt n => str_of_int n
  | PyStr s => repr_str s
  | PyList l => "[" ++ String.concat ", " (map repr l) ++ "]"
  | PyDict d =>
      "{" ++ String.concat ", "
               (map (fun kv => repr_str (fst kv) ++ ": " ++ repr (snd kv)) d)
          ++ "}"
  end.

(** [str(v)], which is what an f-string field [{v}] prints. *)
Definition str (v : pyval) : string :=
  match v with
  | PyStr s => s
  | _ => repr v
  end.

(** ** Dictionaries *)

Fixpoint dict_get (d : list (string * pyval)) (k : string) : option pyval :=
  match d with
  | [] => None
  | (k', v) :: r => if String.eqb k' k then Some v else dict_get r k
  end.

(** [d[k] = v]: the value is replaced in place when the key is there, and
    the pair is appended otherwise. *)
Fixpoint dict_set (d : list (string * pyval)) (k : string) (v : pyval)
  : list (string * pyval) :=
  match d with
  | [] => [(k, v)]
  | (k', v') :: r =>
      if String.eqb k' k then (k', v) :: r else (k', v') :: dict_set r k v
  end.

(** [o.get(k, default)]: the method exists on dictionaries only. *)
Definition get (o : pyval) (k : string) (default : pyval) : exc pyval :=
  match o with
  | PyDict d =>
      Return (match dict_get d k with Some v => v | None => default end)
  | _ => Raise (AttributeError (type_name o) "get")
  end.

(** [a == s] for a string literal [s]: only a string equals a string. *)
Definition eq_str (a : pyval) (s : string) : bool :=
  match a with
  | PyStr x => String.eqb x s
  | _ => false
  end.

(** ** Addition *)

Definition as_int (v : pyval) : option Z :=
  match v with
  | PyInt n => Some n
  | PyBool b => Some (if b then 1 else 0)%Z
  | _ => None
  end.

(** [a + b] *)
Definition add (a b : pyval) : exc pyval :=
  match as_int a, as_int b with
  | Some x, Some y => Return (PyInt (x + y))
  | _, _ =>
      match a, b with
      | PyStr s, PyStr t => Return (PyStr (s ++ t))
      | PyStr _, _ =>
          Raise (TypeError ("can only concatenate str (not " ++ dq
                            ++ type_name b ++ dq ++ ") to str"))
      | PyList l, PyList m => Return (PyList (l ++ m))
      | PyList _, _ =>
          Raise (TypeError ("can only concatenate list (not " ++ dq
                            ++ type_name b ++ dq ++ ") to list"))
      | _, _ =>
          Raise (TypeError ("unsupported operand type(s) for +: " ++ sq
                            ++ type_name a ++ sq ++ " and " ++ sq
                            ++ type_name b ++ sq))
      end
  end.

(** A dictionary proper has no key twice, at any depth. *)
Fixpoint wf (v : pyval) : Prop :=
  match v with
  | PyList l => fold_right (fun x acc => wf x /\ acc) True l
  | PyDict d =>
      NoDup (map fst d) /\ fold_right (fun kv acc => wf (snd kv) /\ acc) True d
  | _ => True
  end.

End Py.

(* ================================================================== *)
(** * The [json] module: [json.dumps] and [json.loads] *)
(* ================================================================== *)

Module Json.
Import Py.

(** ** Encoding, with the default options of [json.dumps]:
    [ensure_ascii=True] and the separators [", "] and [": "]. *)

Definition escape_char (c : ascii) : string :=
  let n := N_of_ascii c in
  if Ascii.eqb c DQ then String BSL (String DQ EmptyString)
  else if Ascii.eqb c BSL then String BSL (String BSL EmptyString)
  else if (n =? 10)%N then String BSL "n"
  else if (n =? 13)%N then String BSL "r"
  else if (n =? 9)%N then String BSL "t"
  else if (n =? 8)%N then String BSL "b"
  else if (n =? 12)%N then String BSL "f"
  else if ((n <? 32) || (126 <? n))%N then String BSL ("u00" ++ hex2 c)
  else String c EmptyString.

Fixpoint escape (s : string) : string :=
  match s with
  | EmptyString => EmptyString
  | String c r => escape_char c ++ escape r
  end.

Definition encode_basestring_ascii (s : string) : string :=
  String DQ (escape s ++ dq).

Fixpoint dumps (v : pyval) : string :=
  match v with
  | PyNone => "null"
  | PyBool true => "true"
  | PyBool false => "false"
  | PyInt n => str_of_int n
  | PyStr s => encode_basestring_ascii s
  | PyList l => "[" ++ String.concat ", " (map dumps l) ++ "]"
  | PyDict d =>
      "{" ++ String.concat ", "
               (map (fun kv => encode_basestring_ascii (fst kv) ++ ": "
                               ++ dumps (snd kv)) d)
          ++ "}"
  end.

(** ** Decoding *)

(** Outcome of a scanner: a value and the text after it, a decode error,
    text outside the embedding, or recursion budget exhausted. *)
Inductive res (A : Type) : Type :=
| Ok (a : A) (rest : string)
| Err
| Unsup
| Fuel.
Arguments Ok {A} a rest.
Arguments Err {A}.
Arguments Unsup {A}.
Arguments Fuel {A}.

(** JSON whitespace: space, tab, line feed, carriage return. *)
Definition is_ws (c : ascii) : bool :=
  let n := N_of_ascii c in
  ((n =? 32) || (n =? 9) || (n =? 10) || (n =? 13))%N.

Fixpoint skip_ws (s : string) : string :=
  match s with
  | EmptyString => EmptyString
  | String c r => if is_ws c then skip_ws r else s
  end.

Fixpoint str_drop (n : nat) (s : string) : string :=
  match n, s with
  | S k, String _ r => str_drop k r
  | _, _ => s
  end.

Definition hex_val (c : ascii) : option N :=
  let n := N_of_ascii c in
  if ((48 <=? n) && (n <=? 57))%N then Some (n - 48)%N
  else if ((97 <=? n) && (n <=? 102))%N then Some (n - 87)%N
  else if ((65 <=? n) && (n <=? 70))%N then Some (n - 55)%N
  else None.

Definition hex4 (a b c d : ascii) : option N :=
  match hex_val a, hex_val b, hex_val c, hex_val d with
  | Some x, Some y, Some z, Some w => Some (((x * 16 + y) * 16 + z) * 16 + w)%N
  | _, _, _, _ => None
  end.

(** The characters that may follow a backslash, [u] apart. *)
Definition backslash (c : ascii) : option ascii :=
  let n := N_of_ascii c in
  if Ascii.eqb c DQ then Some DQ
  else if Ascii.eqb c BSL then Some BSL
  else if Ascii.eqb c "/" then Some "/"%char
  else if Ascii.eqb c "b" then Some "008"%char
  else if Ascii.eqb c "f" then Some "012"%char
  else if Ascii.eqb c "n" then Some "010"%char
  else if Ascii.eqb c "r" then Some "013"%char
  else if Ascii.eqb c "t" then Some "009"%char
  else None.

Definition push (c : ascii) (r : res string) : res string :=
  match r with
  | Ok s rest => Ok (String c s) rest
  | Err => Err
  | Unsup => Unsup
  | Fuel => Fuel
  end.

(** The body of a string literal, from just after its opening quote, in
    strict mode: a raw control character is an error.  An escape that
    denotes a code point above 255 leaves the embedding. *)
Fixpoint scanstring (s : string) : res string :=
  match s with
  | EmptyString => Err
  | String c r =>
      if Ascii.eqb c DQ then Ok EmptyString r
      else if Ascii.eqb c BSL then
        match r with
        | EmptyString => Err
        | String e r1 =>
            if Ascii.eqb e "u" then
              match r1 with
              | String h1 (String h2 (String h3 (String h4 r2))) =>
                  match hex4 h1 h2 h3 h4 with
                  | Some n =>
                      if (n <? 256)%N then push (ascii_of_N n) (scanstring r2)
                      else Unsup
                  | None => Err
                  end
              | _ => Err
              end
            else
              match backslash e with
              | Some ch => push ch (scanstring r1)
              | None => Err
              end
        end
      else if (N_of_ascii c <? 32)%N then Err
      else push c (scanstring r)
  end.

Definition digit (c : ascii) : option (uint -> uint) :=
  let n := N_of_ascii c in
  if (n =? 48)%N then Some D0 else if (n =? 49)%N then Some D1
  else if (n =? 50)%N then Some D2 else if (n =? 51)%N then Some D3
  else if (n =? 52)%N then Some D4 else if (n =? 53)%N then Some D5
  else if (n =? 54)%N then Some D6 else if (n =? 55)%N then Some D7
  else if (n =? 56)%N then Some D8 else if (n =? 57)%N then Some D9
  else None.

Definition is_digit (c : ascii) : bool :=
  match digit c with Some _ => true | None => false end.

(** The longest run of digits at the head of [s]. *)
Fixpoint scan_digits (s : string) : uint * string :=
  match s with
  | EmptyString => (Nil, s)
  | String c r =>
      match digit c with
      | Some d => let (u, r') := scan_digits r in (d u, r')
      | None => (Nil, s)
      end
  end.

(** The integer part of a number: a lone zero, or a run of digits that
    starts with a digit other than zero. *)
Definition scan_int_part (s : string) : option (uint * string) :=
  match s with
  | EmptyString => None
  | String c r =>
      if Ascii.eqb c "0" then Some (D0 Nil, r)
      else if is_digit c then Some (scan_digits s)
      else None
  end.

(** Whether a fraction or an exponent follows the integer part, which
    makes the literal a float. *)
Definition float_follows (r : string) : bool :=
  match r with
  | String c r1 =>
      if Ascii.eqb c "." then
        match r1 with String d _ => is_digit d | EmptyString => false end
      else if Ascii.eqb c "e" || Ascii.eqb c "E" then
        match r1 with
        | String d r2 =>
            if Ascii.eqb d "+" || Ascii.eqb d "-" then
              match r2 with String x _ => is_digit x | EmptyString => false end
            else is_digit d
        | EmptyString => false
        end
      else false
  | EmptyString => false
  end.

(** A literal name or a number. *)
Definition scan_atom (s : string) : res pyval :=
  if startswith "null" s then Ok PyNone (str_drop 4 s)
  else if startswith "true" s then Ok (PyBool true) (str_drop 4 s)
  else if startswith "false" s then Ok (PyBool false) (str_drop 5 s)
  else
    let '(neg, body) :=
      match s with
      | String c r => if Ascii.eqb c "-" then (true, r) else (false, s)
      | EmptyString => (false, s)
      end in
    match scan_int_part body with
    | Some (u, r) =>
        if float_follows r then Unsup
        else Ok (PyInt (if neg then - Z.of_uint u else Z.of_uint u)) r
    | None =>
        if startswith "NaN" s || startswith "Infinity" s
           || startswith "-Infinity" s
        then Unsup else Err
    end.

(** The scanner proper.  [parse_items] reads the elements of an array from
    the start of an element; [parse_members] reads the members of an object
    from just after the opening quote of a key.  A key met again keeps its
    place and takes the later value. *)
Fixpoint scan_once (fuel : nat) (s : string) {struct fuel} : res pyval :=
  match fuel with
  | O => Fuel
  | S fuel' =>
      match s with
      | EmptyString => Err
      | String c r =>
          if Ascii.eqb c DQ then
            match scanstring r with
            | Ok k r' => Ok (PyStr k) r'
            | Err => Err
            | Unsup => Unsup
            | Fuel => Fuel
            end
          else if Ascii.eqb c "{" then
            match skip_ws r with
            | String c1 r1 =>
                if Ascii.eqb c1 DQ then parse_members fuel' [] r1
                else if Ascii.eqb c1 "}" then Ok (PyDict []) r1
                else Err
            | EmptyString => Err
            end
          else if Ascii.eqb c "[" then
            match skip_ws r with
            | String c1 r1 =>
                if Ascii.eqb c1 "]" then Ok (PyList []) r1
                else parse_items fuel' [] (String c1 r1)
            | EmptyString => Err
            end
          else scan_atom s
      end
  end

with parse_items (fuel : nat) (acc : list pyval) (s : string) {struct fuel}
  : res pyval :=
  match fuel with
  | O => Fuel
  | S fuel' =>
      match scan_once fuel' s with
      | Ok v r =>
          match skip_ws r with
          | String c r1 =>
              if Ascii.eqb c "]" then Ok (PyList (acc ++ [v])) r1
              else if Ascii.eqb c "," then
                parse_items fuel' (acc ++ [v]) (skip_ws r1)
              else Err
          | EmptyString => Err
          end
      | Err => Err
      | Unsup => Unsup
      | Fuel => Fuel
      end
  end

with parse_members (fuel : nat) (acc : list (string * pyval)) (s : string)
  {struct fuel} : res pyval :=
  match fuel with
  | O => Fuel
  | S fuel' =>
      match scanstring s with
      | Ok k r =>
          match skip_ws r with
          | String c r1 =>
              if Ascii.eqb c ":" then
                match scan_once fuel' (skip_ws r1) with
                | Ok v r2 =>
                    let acc' := dict_set acc k v in
                    match skip_ws r2 with
                    | String c2 r3 =>
                        if Ascii.eqb c2 "}" then Ok (PyDict acc') r3
                        else if Ascii.eqb c2 "," then
                          match skip_ws r3 with
                          | String c3 r4 =>
                              if Ascii.eqb c3 DQ
                              then parse_members fuel' acc' r4
                              else Err
                          | EmptyString => Err
                          end
                        else Err
                    | EmptyString => Err
                    end
                | Err => Err
                | Unsup => Unsup
                | Fuel => Fuel
                end
              else Err
          | EmptyString => Err
          end
      | Err => Err
      | Unsup => Unsup
      | Fuel => Fuel
      end
  end.

(** ** The grammar alone

    Where the scanner meets a value that the embedding does not represent,
    the text is still JSON text or not.  The functions below read the
    same grammar without building values, floats and all escapes
    included, and tell which. *)

(** The body of a string literal, from just after its opening quote: what
    follows its closing quote. *)
Fixpoint skip_string (s : string) : option string :=
  match s with
  | EmptyString => None
  | String c r =>
      if Ascii.eqb c DQ then Some r
      else if Ascii.eqb c BSL then
        match r with
        | EmptyString => None
        | String e r1 =>
            if Ascii.eqb e "u" then
              match r1 with
              | String h1 (String h2 (String h3 (String h4 r2))) =>
                  match hex4 h1 h2 h3 h4 with
                  | Some _ => skip_string r2
                  | None => None
                  end
              | _ => None
              end
            else
              match backslash e with
              | Some _ => skip_string r1
              | None => None
              end
        end
      else if (N_of_ascii c <? 32)%N then None
      else skip_string r
  end.

(** A fraction after the integer part of a number, when there is one: a
    dot and digits. *)
Definition skip_frac (r : string) : string :=
  match r with
  | String c (String d r1) =>
      if Ascii.eqb c "." && is_digit d then snd (scan_digits r1) else r
  | _ => r
  end.

(** An exponent, when there is one: the letter, a sign or none, and
    digits. *)
Definition skip_exp (r : string) : string :=
  match r with
  | String c r1 =>
      if Ascii.eqb c "e" || Ascii.eqb c "E" then
        match r1 with
        | String d r2 =>
            if Ascii.eqb d "+" || Ascii.eqb d "-" then
              match r2 with
              | String x r3 => if is_digit x then snd (scan_digits r3) else r
              | EmptyString => r
              end
            else if is_digit d then snd (scan_digits r2) else r
        | EmptyString => r
        end
      else r
  | EmptyString => r
  end.

(** A literal name or a number, floats and the constants NaN and Infinity
    included. *)
Definition skip_atom (s : string) : res unit :=
  if startswith "null" s then Ok tt (str_drop 4 s)
  else if startswith "true" s then Ok tt (str_drop 4 s)
  else if startswith "false" s then Ok tt (str_drop 5 s)
  else
    let body :=
      match s with
      | String c r => if Ascii.eqb c "-" then r else s
      | EmptyString => s
      end in
    match scan_int_part body with
    | Some (_, r) => Ok tt (skip_exp (skip_frac r))
    | None =>
        if startswith "NaN" s then Ok tt (str_drop 3 s)
        else if startswith "Infinity" s then Ok tt (str_drop 8 s)
        else if startswith "-Infinity" s then Ok tt (str_drop 9 s)
        else Err
    end.

Fixpoint skip_once (fuel : nat) (s : string) {struct fuel} : res unit :=
  match fuel with
  | O => Fuel
  | S fuel' =>
      match s with
      | EmptyString => Err
      | String c r =>
          if Ascii.eqb c DQ then
            match skip_string r with
            | Some r' => Ok tt r'
            | None => Err
            end
          else if Ascii.eqb c "{" then
            match skip_ws r with
            | String c1 r1 =>
                if Ascii.eqb c1 DQ then skip_members fuel' r1
                else if Ascii.eqb c1 "}" then Ok tt r1
                else Err
            | EmptyString => Err
            end
          else if Ascii.eqb c "[" then
            match skip_ws r with
            | String c1 r1 =>
                if Ascii.eqb c1 "]" then Ok tt r1
                else skip_items fuel' (String c1 r1)
            | EmptyString => Err
            end
          else skip_atom s
      end
  end

with skip_items (fuel : nat) (s : string) {struct fuel} : res unit :=
  match fuel with
  | O => Fuel
  | S fuel' =>
      match skip_once fuel' s with
      | Ok _ r =>
          match skip_ws r with
          | String c r1 =>
              if Ascii.eqb c "]" then Ok tt r1
              else if Ascii.eqb c "," then skip_items fuel' (skip_ws r1)
              else Err
          | EmptyString => Err
          end
      | Err => Err
      | Unsup => Unsup
      | Fuel => Fuel
      end
  end

with skip_members (fuel : nat) (s : string) {struct fuel} : res unit :=
  match fuel with
  | O => Fuel
  | S fuel' =>
      match skip_string s with
      | Some r =>
          match skip_ws r with
          | String c r1 =>
              if Ascii.eqb c ":" then
                match skip_once fuel' (skip_ws r1) with
                | Ok _ r2 =>
                    match skip_ws r2 with
                    | String c2 r3 =>
                        if Ascii.eqb c2 "}" then Ok tt r3
                        else if Ascii.eqb c2 "," then
                          match skip_ws r3 with
                          | String c3 r4 =>
                              if Ascii.eqb c3 DQ then skip_members fuel' r4
                              else Err
                          | EmptyString => Err
                          end
                        else Err
                    | EmptyString => Err
                    end
                | Err => Err
                | Unsup => Unsup
                | Fuel => Fuel
                end
              else Err
          | EmptyString => Err
          end
      | None => Err
      end
  end.

(** What [json.loads] gives: a value, the exception [JSONDecodeError], or
    nothing the embedding can express. *)
Inductive decoded : Type :=
| Decoded (v : pyval)
| JSONDecodeError
| Unmodelled.

(** [json.loads(s)]: one value, whitespace allowed around it, nothing
    else.  The budget suffices for every text (lemma [loads_fuel]).  Text
    with a value that the embedding does not represent is [Unmodelled]
    when it is JSON text, and raises like any other text when it is
    not. *)
Definition loads (s : string) : decoded :=
  match scan_once (S (2 * String.length s)) (skip_ws s) with
  | Ok v r => if is_empty (skip_ws r) then Decoded v else JSONDecodeError
  | Err => JSONDecodeError
  | Unsup =>
      match skip_once (S (2 * String.length s)) (skip_ws s) with
      | Ok _ r => if is_empty (skip_ws r) then Unmodelled else JSONDecodeError
      | Err => JSONDecodeError
      | _ => Unmodelled
      end
  | Fuel => Unmodelled
  end.

(** Writing JSON text in examples: [js] turns every apostrophe of its
    argument into a double quote. *)
Fixpoint js (s : string) : string :=
  match s with
  | EmptyString => EmptyString
  | String c r => String (if Ascii.eqb c SQ then DQ else c) (js r)
  end.

End Json.

(** [print(s, flush=True)]: the text and a line feed, written at once. *)
Definition newline : string := String "010"%char EmptyString.
Definition print (s : string) : string := s ++ newline.

(* ================================================================== *)
(** * [src/test/mock_mcp_server.py] *)
(* ================================================================== *)

Module MockMCPServer.
Import Py Json.
Local Open Scope exc_scope.

(** The attributes of an instance. *)
Record t : Type := mk {
  initialized : bool;
  tools : list pyval
}.

(** What a request observes of the outside world:
    [datetime.now().isoformat()]. *)
Record env : Type := mk_env {
  now_isoformat : string
}.

(** [__init__] *)
Definition init : t :=
  {| initialized := false;
     tools :=
       [ PyDict
           [("name", PyStr "echo");
            ("description", PyStr "Echoes back the input");
            ("inputSchema",
              PyDict
                [("type", PyStr "object");
                 ("properties",
                   PyDict [("message", PyDict [("type", PyStr "string")])]);
                 ("required", PyList [PyStr "message"])])];
         PyDict
           [("name", PyStr "add");
            ("description", PyStr "Adds two numbers");
            ("inputSchema",
              PyDict
                [("type", PyStr "object");
                 ("properties",
                   PyDict [("a", PyDict [("type", PyStr "number")]);
                           ("b", PyDict [("type", PyStr "number")])]);
                 ("required", PyList [PyStr "a"; PyStr "b"])])];
         PyDict
           [("name", PyStr "get_time");
            ("description", PyStr "Gets the current time");
            ("inputSchema",
              PyDict
                [("type", PyStr "object");
                 ("properties", PyDict [])])] ] |}.

Definition error_response (request_id : pyval) (code : Z) (message : string)
  : pyval :=
  PyDict
    [("jsonrpc", PyStr "2.0");
     ("id", request_id);
     ("error", PyDict [("code", PyInt code); ("message", PyStr message)])].

(** The parameters are formatted for the log, which reads [client_info]
    from them. *)
Definition handle_initialize (request_id params : pyval) : exc pyval :=
  _ <- get params "client_info" (PyDict []) ;;
  Return
    (PyDict
       [("jsonrpc", PyStr "2.0");
        ("id", request_id);
        ("result",
          PyDict
            [("protocolVersion", PyStr "2024-11-05");
             ("serverInfo",
               PyDict [("name", PyStr "mock-mcp-server");
                       ("version", PyStr "1.0.0")]);
             ("capabilities",
               PyDict [("tools", PyDict [("listChanged", PyBool true)])])])]).

Definition handle_tools_list (self : t) (request_id params : pyval) : pyval :=
  PyDict
    [("jsonrpc", PyStr "2.0");
     ("id", request_id);
     ("result", PyDict [("tools", PyList (tools self))])].

(** The [result] of the three tools: one text item, [is_error] false. *)
Definition text_result (text : string) : pyval :=
  PyDict
    [("content", PyList [PyDict [("type", PyStr "text"); ("text", PyStr text)]]);
     ("is_error", PyBool false)].

Definition handle_tool_call (w : env) (request_id params : pyval) : exc pyval :=
  tool_name <- get params "name" PyNone ;;
  arguments <- get params "arguments" (PyDict []) ;;
  result <-
    (if eq_str tool_name "echo" then
       message <- get arguments "message" (PyStr "") ;;
       Return (inl (text_result ("Echo: " ++ str message)))
     else if eq_str tool_name "add" then
       a <- get arguments "a" (PyInt 0) ;;
       b <- get arguments "b" (PyInt 0) ;;
       sum <- add a b ;;
       Return (inl (text_result ("Result: " ++ str sum)))
     else if eq_str tool_name "get_time" then
       Return (inl (text_result ("Current time: " ++ now_isoformat w)))
     else
       Return (inr (error_response request_id (-32602)
                      ("Unknown tool: " ++ str tool_name)))) ;;
  match result with
  | inl result =>
      Return (PyDict [("jsonrpc", PyStr "2.0"); ("id", request_id);
                      ("result", result)])
  | inr early => Return early
  end.

(** The new state of the instance and the response, [None] when there is
    none to send. *)
Definition handle_request (self : t) (w : env) (request : pyval)
  : exc (t * option pyval) :=
  method <- get request "method" PyNone ;;
  params <- get request "params" (PyDict []) ;;
  request_id <- get request "id" PyNone ;;
  if eq_str method "initialize" then
    r <- handle_initialize request_id params ;; Return (self, Some r)
  else if eq_str method "initialized" then
    Return ({| initialized := true; tools := tools self |}, None)
  else if eq_str method "tools/list" then
    Return (self, Some (handle_tools_list self request_id params))
  else if eq_str method "tools/call" then
    r <- handle_tool_call w request_id params ;; Return (self, Some r)
  else
    Return (self, Some (error_response request_id (-32601)
                          ("Method not found: " ++ str method))).

(** One turn of the loop of [run]: the new state and what is written to
    stdout. *)
Definition run_line (self : t) (w : env) (line : string)
  : option (t * list string) :=
  let line := strip line in
  if is_empty line then Some (self, [])
  else
    match loads line with
    | Decoded request =>
        match handle_request self w request with
        | Return (self', Some response) =>
            Some (self', [print (dumps response)])
        | Return (self', None) => Some (self', [])
        | Raise e =>
            Some (self, [print (dumps (error_response PyNone (-32603)
                                          (exn_str e)))])
        end
    | JSONDecodeError =>
        Some (self, [print (dumps (error_response PyNone (-32700)
                                      "Parse error"))])
    | Unmodelled => None
    end.

(** [run] over the lines of stdin, each with what the outside world shows
    while it is handled. *)
Fixpoint run (self : t) (stdin : list (env * string))
  : option (t * list string) :=
  match stdin with
  | [] => Some (self, [])
  | (w, line) :: rest =>
      match run_line self w line with
      | Some (self', out) =>
          match run self' rest with
          | Some (self'', out') => Some (self'', (out ++ out')%list)
          | None => None
          end
      | None => None
      end
  end.

End MockMCPServer.

(* ================================================================== *)
(** * [src/test/http_mcp_server.py] *)
(* ================================================================== *)

Module HttpMCPServer.
Import Py Json.
Local Open Scope exc_scope.

Record t : Type := mk {
  initialized : bool;
  tools : list pyval
}.

(** What a request observes of the outside world.  The library calls whose
    result the embedding does not compute are answered here; each is taken
    to return (a call that never returns has no model), and [inr msg] is
    an exception whose [str] is [msg].
      - [netloc url]: [urlparse(url).netloc], up to the end of the test
        against the safe domains;
      - [urlopen url]: status and decoded body of the HTTP exchange;
      - [randint], [choice]: the draws of [random.randint(10, 30)] and of
        [random.choice] (an index into the four conditions);
      - [strftime h]: the UTC clock moved by [h] hours, formatted;
      - [eval_expr e]: [str] of the value of the parsed expression. *)
Record env : Type := mk_env {
  netloc : pyval -> string + string;
  urlopen : pyval -> (Z * string) + string;
  randint : Z;
  choice : nat;
  strftime : Z -> string;
  eval_expr : pyval -> string + string
}.

Definition schema (properties : list (string * pyval)) (required : list pyval)
  : pyval :=
  PyDict [("type", PyStr "object"); ("properties", PyDict properties);
          ("required", PyList required)].

Definition property (type description : string) : pyval :=
  PyDict [("type", PyStr type); ("description", PyStr description)].

(** [__init__] *)
Definition init : t :=
  {| initialized := false;
     tools :=
       [ PyDict
           [("name", PyStr "fetch_url");
            ("description", PyStr "Fetch content from a URL");
            ("input_schema",
              schema [("url", property "string" "The URL to fetch")]
                     [PyStr "url"])];
         PyDict
           [("name", PyStr "check_weather");
            ("description", PyStr "Get current weather (mock data)");
            ("input_schema",
              schema [("city", property "string" "City name")]
                     [PyStr "city"])];
         PyDict
           [("name", PyStr "get_time");
            ("description", PyStr "Get current time in various timezones");
            ("input_schema",
              PyDict
                [("type", PyStr "object");
                 ("properties",
                   PyDict [("timezone",
                             property "string"
                               "Timezone (e.g., UTC, EST, PST)")])])];
         PyDict
           [("name", PyStr "calculate");
            ("description", PyStr "Perform basic calculations");
            ("input_schema",
              schema [("expression",
                        property "string" "Math expression to evaluate")]
                     [PyStr "expression"])] ] |}.

Definition error_response (request_id : pyval) (code : Z) (message : string)
  : pyval :=
  PyDict
    [("jsonrpc", PyStr "2.0");
     ("id", request_id);
     ("error", PyDict [("code", PyInt code); ("message", PyStr message)])].

Definition handle_initialize (request_id params : pyval) : exc pyval :=
  _ <- get params "client_info" (PyDict []) ;;
  Return
    (PyDict
       [("jsonrpc", PyStr "2.0");
        ("id", request_id);
        ("result",
          PyDict
            [("protocol_version", PyStr "2024-11-05");
             ("server_info",
               PyDict [("name", PyStr "http-mcp-server");
                       ("version", PyStr "1.0.0")]);
             ("capabilities",
               PyDict [("tools", PyDict [("list_changed", PyBool true)])])])]).

Definition handle_tools_list (self : t) (request_id : pyval) : pyval :=
  PyDict
    [("jsonrpc", PyStr "2.0");
     ("id", request_id);
     ("result", PyDict [("tools", PyList (tools self))])].

(** The uniform result of a tool: one text item and the flag. *)
Definition tool_result (text : string) (is_error : bool) : pyval :=
  PyDict
    [("content", PyList [PyDict [("type", PyStr "text"); ("text", PyStr text)]]);
     ("is_error", PyBool is_error)].

Definition safe_domains : list string :=
  ["httpbin.org"; "jsonplaceholder.typicode.com"; "api.github.com"].

(** Reading [url] is outside the [try]; all that follows is inside it. *)
Definition fetch_url (w : env) (args : pyval) : exc pyval :=
  url <- get args "url" (PyStr "") ;;
  Return
    match netloc w url with
    | inr e => tool_result ("Error fetching URL: " ++ e) true
    | inl host =>
        if negb (existsb (fun domain => str_in domain host) safe_domains) then
          tool_result ("Error: URL domain " ++ sq ++ host ++ sq
                       ++ " not in safe list for testing") true
        else
          match urlopen w url with
          | inr e => tool_result ("Error fetching URL: " ++ e) true
          | inl (status, content) =>
              tool_result ("Status: " ++ str_of_int status ++ newline
                           ++ "Content (first 500 chars):" ++ newline
                           ++ str_take 500 content) false
          end
    end.

Definition conditions : list string :=
  ["Sunny"; "Cloudy"; "Rainy"; "Partly Cloudy"].

(** The two code points between the temperature and the letter C are
    U+00C2 and U+00B0, as the source file has them. *)
Definition degrees : string :=
  String "194"%char (String "176"%char "C").

Definition check_weather (w : env) (args : pyval) : exc pyval :=
  city <- get args "city" (PyStr "Unknown") ;;
  Return
    (tool_result ("Weather in " ++ str city ++ ": " ++ str_of_int (randint w)
                  ++ degrees ++ ", "
                  ++ nth (Nat.modulo (choice w) 4) conditions EmptyString)
                 false).

Definition offsets : list (string * Z) :=
  [("UTC", 0); ("EST", -5); ("PST", -8); ("CET", 1); ("JST", 9)]%Z.

Fixpoint offsets_get (d : list (string * Z)) (k : string) (default : Z) : Z :=
  match d with
  | [] => default
  | (k', v) :: r => if String.eqb k' k then v else offsets_get r k default
  end.

(** [timezone.upper()]: the method exists on strings only. *)
Definition call_upper (v : pyval) : exc string :=
  match v with
  | PyStr s => Return (upper s)
  | _ => Raise (AttributeError (type_name v) "upper")
  end.

(** No statement of [get_time] is inside a [try]. *)
Definition get_time (w : env) (args : pyval) : exc pyval :=
  timezone <- get args "timezone" (PyStr "UTC") ;;
  key <- call_upper timezone ;;
  let offset_hours := offsets_get offsets key 0 in
  Return
    (tool_result ("Current time in " ++ str timezone ++ ": "
                  ++ strftime w offset_hours) false).

(** Reading [expression] is outside the [try]; all that follows is inside
    it. *)
Definition calculate (w : env) (args : pyval) : exc pyval :=
  expression <- get args "expression" (PyStr "") ;;
  Return
    match eval_expr w expression with
    | inl result => tool_result (str expression ++ " = " ++ result) false
    | inr e => tool_result ("Error evaluating expression: " ++ e) true
    end.

Definition handle_tool_call (w : env) (request_id params : pyval) : exc pyval :=
  tool_name <- get params "name" PyNone ;;
  arguments <- get params "arguments" (PyDict []) ;;
  result <-
    (if eq_str tool_name "fetch_url" then
       r <- fetch_url w arguments ;; Return (inl r)
     else if eq_str tool_name "check_weather" then
       r <- check_weather w arguments ;; Return (inl r)
     else if eq_str tool_name "get_time" then
       r <- get_time w arguments ;; Return (inl r)
     else if eq_str tool_name "calculate" then
       r <- calculate w arguments ;; Return (inl r)
     else
       Return (inr (error_response request_id (-32602)
                      ("Unknown tool: " ++ str tool_name)))) ;;
  match result with
  | inl result =>
      Return (PyDict [("jsonrpc", PyStr "2.0"); ("id", request_id);
                      ("result", result)])
  | inr early => Return early
  end.

Definition handle_request (self : t) (w : env) (request : pyval)
  : exc (t * option pyval) :=
  method <- get request "method" PyNone ;;
  params <- get request "params" (PyDict []) ;;
  request_id <- get request "id" PyNone ;;
  if eq_str method "initialize" then
    r <- handle_initialize request_id params ;; Return (self, Some r)
  else if eq_str method "initialized" then
    Return ({| initialized := true; tools := tools self |}, None)
  else if eq_str method "tools/list" then
    Return (self, Some (handle_tools_list self request_id))
  else if eq_str method "tools/call" then
    r <- handle_tool_call w request_id params ;; Return (self, Some r)
  else
    Return (self, Some (error_response request_id (-32601)
                          ("Method not found: " ++ str method))).

Definition run_line (self : t) (w : env) (line : string)
  : option (t * list string) :=
  let line := strip line in
  if is_empty line then Some (self, [])
  else
    match loads line with
    | Decoded request =>
        match handle_request self w request with
        | Return (self', Some response) =>
            Some (self', [print (dumps response)])
        | Return (self', None) => Some (self', [])
        | Raise e =>
            Some (self, [print (dumps (error_response PyNone (-32603)
                                          (exn_str e)))])
        end
    | JSONDecodeError =>
        Some (self, [print (dumps (error_response PyNone (-32700)
                                      "Parse error"))])
    | Unmodelled => None
    end.

Fixpoint run (self : t) (stdin : list (env * string))
  : option (t * list string) :=
  match stdin with
  | [] => Some (self, [])
  | (w, line) :: rest =>
      match run_line self w line with
      | Some (self', out) =>
          match run self' rest with
          | Some (self'', out') => Some (self'', (out ++ out')%list)
          | None => None
          end
      | None => None
      end
  end.

End HttpMCPServer.

(* ================================================================== *)
(** * [src/docker/mcp-tools-client.py] *)
(* ================================================================== *)

Module MCPToolsClient.
Import Py Json.
Local Open Scope exc_scope.

(** What one [readline] on the child's stdout gives when it returns: a
    line, line feed included; an exception; or the empty string, at the
    end of a stream that the child has closed. *)
Inductive read_event : Type :=
| Line (s : string)
| ReadError
| EndOfStream.

(** The child process as the relay sees it, through its pipes.
      - [stdin_data]: the text written to the child's stdin and flushed,
        oldest first;
      - [stdout_data]: what the successive [readline] calls will give.
        The end of the stream stays where it is: every [readline] after
        it gives the empty string again.  Once the list is exhausted the
        child prints nothing more and keeps its stdout open, as a host
        that waits for its next request does: [readline] then waits for
        ever and the call never returns;
      - [broken]: writing to the child's stdin raises;
      - [terminated]: [terminate()] and [wait()] were called. *)
Record Popen : Type := mk_popen {
  stdin_data : list string;
  stdout_data : list read_event;
  broken : bool;
  terminated : bool
}.

Record t : Type := mk {
  initialized : bool;
  server_process : option Popen
}.

(** [__init__] *)
Definition init : t := {| initialized := false; server_process := None |}.

(** [spawn] is what [subprocess.Popen] would give when called now, [None]
    when it raises. *)
Definition start_server (self : t) (spawn : option Popen) : t * bool :=
  match spawn with
  | Some p =>
      ({| initialized := initialized self; server_process := Some p |}, true)
  | None => (self, false)
  end.

(** The result is [None] when the call never returns: the request is
    written, and [readline] waits for a child that prints nothing. *)
Definition send_to_server (self : t) (message : string)
  : option (t * option string) :=
  match server_process self with
  | None => Some (self, None)
  | Some p =>
      if broken p then Some (self, None)
      else
        let written := (stdin_data p ++ [(message ++ newline)%string])%list in
        let after (rest : list read_event) : t :=
          {| initialized := initialized self;
             server_process :=
               Some {| stdin_data := written; stdout_data := rest;
                       broken := broken p; terminated := terminated p |} |} in
        match stdout_data p with
        | Line response :: rest =>
            Some (after rest,
                  if is_empty response then None else Some (strip response))
        | ReadError :: rest => Some (after rest, None)
        | EndOfStream :: rest => Some (after (EndOfStream :: rest), None)
        | [] => None
        end
  end.

Definition error_response (request_id : pyval) (code : Z) (message : string)
  : string :=
  dumps
    (PyDict
       [("jsonrpc", PyStr "2.0");
        ("id", request_id);
        ("error", PyDict [("code", PyInt code); ("message", PyStr message)])]).

(** The body of the [try] of [handle_request], after the line is decoded.
    The method is read for the log first: this is the one statement that
    can raise, on a request that is not a dictionary, and it comes before
    any change of state.  The value is [None] when [send_to_server] never
    returns. *)
Definition forward (self : t) (spawn : option Popen)
    (request_line : string) (request : pyval) : exc (option (t * string)) :=
  _ <- get request "method" PyNone ;;
  let '(self1, started) :=
    match server_process self with
    | Some _ => (self, true)
    | None => start_server self spawn
    end in
  if negb started then
    request_id <- get request "id" PyNone ;;
    Return (Some (self1, error_response request_id (-32603)
                           "Failed to start MCP server"))
  else
    match send_to_server self1 request_line with
    | None => Return None
    | Some (self2, response_line) =>
        let no_response :=
          request_id <- get request "id" PyNone ;;
          Return (Some (self2, error_response request_id (-32603)
                                 "No response from server")) in
        match response_line with
        | Some l => if is_empty l then no_response else Return (Some (self2, l))
        | None => no_response
        end
    end.

(** There is no result, [None], when the call never returns, and when
    the line is outside the embedding. *)
Definition handle_request (self : t) (spawn : option Popen)
    (request_line : string) : option (t * string) :=
  match loads request_line with
  | Decoded request =>
      match forward self spawn request_line request with
      | Return r => r
      | Raise e => Some (self, error_response PyNone (-32603) (exn_str e))
      end
  | JSONDecodeError => Some (self, error_response PyNone (-32700) "Parse error")
  | Unmodelled => None
  end.

(** One turn of the loop of [run]; it has no result where
    [handle_request] has none. *)
Definition run_line (self : t) (spawn : option Popen) (line : string)
  : option (t * list string) :=
  let line := strip line in
  if is_empty line then Some (self, [])
  else
    match handle_request self spawn line with
    | Some (self', response) =>
        Some (self', if is_empty response then [] else [print response])
    | None => None
    end.

(** The loop has no result once a turn has none: the relay reads no
    further line of input. *)
Fixpoint run_loop (self : t) (stdin : list (option Popen * string))
  : option (t * list string) :=
  match stdin with
  | [] => Some (self, [])
  | (spawn, line) :: rest =>
      match run_line self spawn line with
      | Some (self', out) =>
          match run_loop self' rest with
          | Some (self'', out') => Some (self'', (out ++ out')%list)
          | None => None
          end
      | None => None
      end
  end.

(** The [finally] clause: the child, when there is one, is terminated and
    waited for. *)
Definition shutdown (self : t) : t :=
  match server_process self with
  | Some p =>
      {| initialized := initialized self;
         server_process :=
           Some {| stdin_data := stdin_data p; stdout_data := stdout_data p;
                   broken := broken p; terminated := true |} |}
  | None => self
  end.

Definition run (self : t) (stdin : list (option Popen * string))
  : option (t * list string) :=
  match run_loop self stdin with
  | Some (self', out) => Some (shutdown self', out)
  | None => None
  end.

End MCPToolsClient.

(* ================================================================== *)
(** * Vocabulary of the properties *)
(* ================================================================== *)

Import Py Json.

(** [d.get(k)], with [None] for a missing key. *)
Definition field (d : list (string * pyval)) (k : string) : pyval :=
  match dict_get d k with
  | Some v => v
  | None => PyNone
  end.

(** The error envelope and the result of a tool as the protocol words
    them, written out in full: what the code builds is compared with
    these. *)
Definition error_envelope (request_id : pyval) (code : Z) (message : string)
  : pyval :=
  PyDict
    [("jsonrpc", PyStr "2.0");
     ("id", request_id);
     ("error", PyDict [("code", PyInt code); ("message", PyStr message)])].

Definition tool_output (text : string) (is_error : bool) : pyval :=
  PyDict
    [("content", PyList [PyDict [("type", PyStr "text"); ("text", PyStr text)]]);
     ("is_error", PyBool is_error)].

(** The operations that the two hosts know. *)
Definition known_methods : list string :=
  ["initialize"; "initialized"; "tools/list"; "tools/call"].

Definition known_method (m : string) : bool :=
  existsb (String.eqb m) known_methods.

(** The names under which a list of descriptors registers its tools. *)
Definition tool_names (descriptors : list pyval) : list string :=
  flat_map (fun t =>
              match t with
              | PyDict d =>
                  match dict_get d "name" with
                  | Some (PyStr n) => [n]
                  | _ => []
                  end
              | _ => []
              end) descriptors.

(** Whether the value sent as [params.name] is one of these names. *)
Definition registered (descriptors : list pyval) (tool_name : pyval) : bool :=
  existsb (eq_str tool_name) (tool_names descriptors).

(** Whether a line of input is an envelope whose method is the
    handshake-complete one. *)
Definition handshake_complete (line : string) : bool :=
  match loads (strip line) with
  | Decoded (PyDict d) => eq_str (field d "method") "initialized"
  | _ => false
  end.

(** A line is within the embedding when decoding it, trimmed, gives a value
    or fails; a run over such lines has a model. *)
Definition modelled (line : string) : Prop :=
  loads (strip line) <> Unmodelled.

(** A line is blank when trimming leaves nothing of it. *)
Definition blank (line : string) : bool := is_empty (strip line).

(** Output put in front of what the rest of a run gives. *)
Definition followed_by {S : Type} (out : list string)
    (rest : option (S * list string)) : option (S * list string) :=
  match rest with
  | Some (s, out') => Some (s, (out ++ out')%list)
  | None => None
  end.

(** A clock reading and a world for the closed examples. *)
Definition noon : MockMCPServer.env :=
  MockMCPServer.mk_env "2024-01-01T12:00:00".

Definition offline : HttpMCPServer.env :=
  HttpMCPServer.mk_env
    (fun _ => inr "offline") (fun _ => inr "offline") 20 0
    (fun _ => "2024-01-01 12:00:00") (fun _ => inr "offline").

(** The envelopes of the closed examples. *)
Definition list_without_id : string :=
  js "{'jsonrpc': '2.0', 'method': 'tools/list'}".

Definition get_time_numeric_zone : string :=
  js "{'jsonrpc': '2.0', 'id': 1, 'method': 'tools/call', 'params': {'name': 'get_time', 'arguments': {'timezone': 5}}}".

Definition unknown_method_request : string :=
  js "{'jsonrpc': '2.0', 'id': 7, 'method': 'resources/list'}".

Definition unknown_tool_request : string :=
  js "{'jsonrpc': '2.0', 'id': 8, 'method': 'tools/call', 'params': {'name': 'multiply', 'arguments': {'a': 2, 'b': 3}}}".

Definition initialized_notification : string :=
  js "{'jsonrpc': '2.0', 'method': 'initialized'}".

(** The two lines of the relay scenario of the specification, and a
    request with id 5. *)
Definition tools_request : string :=
  js "{'jsonrpc':'2.0','id':1,'method':'tools/list','params':{}}".

Definition tools_reply : string :=
  js "{'jsonrpc':'2.0','id':1,'result':{'tools':[]}}".

Definition request_five : string :=
  js "{'jsonrpc':'2.0','id':5,'method':'tools/list','params':{}}".

(** The process that the relay talks to while it handles a request: the
    one it has, else the one it can start. *)
Definition child_of (self : MCPToolsClient.t)
    (spawn : option MCPToolsClient.Popen) : option MCPToolsClient.Popen :=
  match MCPToolsClient.server_process self with
  | Some p => Some p
  | None => spawn
  end.

(** Whether the child takes the request and has a reply line that is not
    blank. *)
Definition replies (p : MCPToolsClient.Popen) : bool :=
  negb (MCPToolsClient.broken p)
  && match MCPToolsClient.stdout_data p with
     | MCPToolsClient.Line l :: _ => negb (is_empty (strip l))
     | _ => false
     end.

(** Whether the child keeps the relay waiting for ever: it takes the
    request, prints nothing and keeps its output open. *)
Definition silent (p : MCPToolsClient.Popen) : bool :=
  negb (MCPToolsClient.broken p)
  && match MCPToolsClient.stdout_data p with
     | [] => true
     | _ => false
     end.

(** A relay whose child is running and will answer with the given lines. *)
Definition running (lines : list string) : MCPToolsClient.t :=
  {| MCPToolsClient.initialized := false;
     MCPToolsClient.server_process :=
       Some {| MCPToolsClient.stdin_data := [];
               MCPToolsClient.stdout_data := map MCPToolsClient.Line lines;
               MCPToolsClient.broken := false;
               MCPToolsClient.terminated := false |} |}.

(** One envelope of each variant: a request, a notification, a success
    response and an error response. *)
Definition envelope_variants : pyval :=
  PyList
    [ PyDict [("jsonrpc", PyStr "2.0"); ("id", PyInt 1);
              ("method", PyStr "tools/call");
              ("params",
                PyDict [("name", PyStr "add");
                        ("arguments",
                          PyDict [("a", PyInt 2); ("b", PyInt 3)])])];
      PyDict [("jsonrpc", PyStr "2.0"); ("method", PyStr "initialized")];
      MockMCPServer.handle_tools_list MockMCPServer.init (PyInt 1) (PyDict []);
      MockMCPServer.error_response PyNone (-32700) "Parse error" ].

(** A tool call whose [params] is null. *)
Definition null_params_request : string :=
  js "{'jsonrpc': '2.0', 'id': 8, 'method': 'tools/call', 'params': null}".

(** A session in which the handshake is completed twice. *)
Definition handshake_session : list (MockMCPServer.env * string) :=
  [(noon, tools_request); (noon, initialized_notification);
   (noon, initialized_notification); (noon, list_without_id)].

(** ** Vocabulary of the further properties *)

(** [p.get("arguments", {})] and [a.get(k, default)] on the association
    list of a dictionary. *)
Definition arguments_of (p : list (string * pyval)) : pyval :=
  match dict_get p "arguments" with
  | Some v => v
  | None => PyDict []
  end.

Definition get_or (a : list (string * pyval)) (k : string) (default : pyval)
  : pyval :=
  match dict_get a k with
  | Some v => v
  | None => default
  end.

(** The success envelope, as the hosts build it. *)
Definition success_response (request_id result : pyval) : pyval :=
  PyDict [("jsonrpc", PyStr "2.0"); ("id", request_id); ("result", result)].

(** A tool call: the line decodes to an object whose method is
    [tools/call], whose [params] is the object [p] naming the tool, and
    whose [arguments], when there are any, is the object [a]. *)
Definition calls (line : string) (d p a : list (string * pyval))
    (tool : string) : Prop :=
  loads (strip line) = Decoded (PyDict d)
  /\ dict_get d "method" = Some (PyStr "tools/call")
  /\ dict_get d "params" = Some (PyDict p)
  /\ dict_get p "name" = Some (PyStr tool)
  /\ arguments_of p = PyDict a.

(** A response to the request id [request_id]: the success envelope with
    some result, or the error envelope with some code and message. *)
Definition response_for (request_id r : pyval) : Prop :=
  (exists result, r = success_response request_id result)
  \/ (exists code message, r = error_envelope request_id code message).

(** The envelope that the loop of [run] writes when handling raises. *)
Definition internal_error (r : pyval) : Prop :=
  exists message, r = error_envelope PyNone (-32603) message.

(** A chunk of output that carries the value [r]: its encoding printed, on
    one line, read back as [r] by a peer that trims and decodes it. *)
Definition carries (chunk : string) (r : pyval) : Prop :=
  chunk = print (dumps r)
  /\ contains_char "010" (dumps r) = false
  /\ loads (strip chunk) = Decoded r.

(** Whether a value is a dictionary. *)
Definition is_dict (v : pyval) : bool :=
  match v with
  | PyDict _ => true
  | _ => false
  end.

(** What [str(e)] is when [.get] is called on a value that has none. *)
Definition no_get (v : pyval) : string :=
  exn_str (AttributeError (type_name v) "get").

(** Whether every character of a text is whitespace for [strip]. *)
Fixpoint all_space (s : string) : bool :=
  match s with
  | EmptyString => true
  | String c r => isspace c && all_space r
  end.

(** Whether a line of input gets an answer from a host: it is not blank
    and is not a handshake-complete envelope. *)
Definition answered (line : string) : bool :=
  negb (blank line) && negb (handshake_complete line).

(** Whether the relay passes a line of input on to its child: the line,
    trimmed, decodes to an object. *)
Definition forwarded (line : string) : bool :=
  match loads (strip line) with
  | Decoded (PyDict _) => true
  | _ => false
  end.

(** What the relay writes to its child for a line of input. *)
Definition sent (line : string) : string := strip line ++ newline.

(** The child's stdout after [n] calls of [readline] that all return;
    there is none when one of them waits for ever. *)
Fixpoint after_reads (n : nat) (events : list MCPToolsClient.read_event)
  : option (list MCPToolsClient.read_event) :=
  match n with
  | O => Some events
  | S k =>
      match events with
      | [] => None
      | MCPToolsClient.EndOfStream :: _ => after_reads k events
      | _ :: rest => after_reads k rest
      end
  end.

(** A child that never keeps the relay waiting: writing to it raises, or
    its output comes to an end. *)
Definition never_waits (p : MCPToolsClient.Popen) : bool :=
  MCPToolsClient.broken p
  || existsb (fun e => match e with
                       | MCPToolsClient.EndOfStream => true
                       | _ => false
                       end) (MCPToolsClient.stdout_data p).

(** The lines of a stream, as the successive [readline] calls give them. *)
Definition lines_of (out : list string) : list MCPToolsClient.read_event :=
  map MCPToolsClient.Line out.

(** What the HTTP host, started afresh, prints when it is fed what the
    relay writes for the given lines: the relay's child is that host
    ([/app/http_mcp_server.py]). *)
Definition http_child_output (ws : list HttpMCPServer.env)
    (lines : list string) : list string :=
  match HttpMCPServer.run HttpMCPServer.init (combine ws (map sent lines)) with
  | Some (_, out) => out
  | None => []
  end.

(** The envelope of a tool call for the closed examples: its [params],
    the decoded request, and its line. *)
Definition tool_params (name : string) (arguments : pyval)
  : list (string * pyval) :=
  [("name", PyStr name); ("arguments", arguments)].

Definition tool_call (id : Z) (name : string) (arguments : pyval)
  : list (string * pyval) :=
  [("jsonrpc", PyStr "2.0"); ("id", PyInt id); ("method", PyStr "tools/call");
   ("params", PyDict (tool_params name arguments))].

Definition tool_call_line (id : Z) (name : string) (arguments : pyval)
  : string :=
  dumps (PyDict (tool_call id name arguments)).

(** Arguments of the closed examples. *)
Definition two_and_three : list (string * pyval) :=
  [("a", PyInt 2); ("b", PyInt 3)].

Definition text_and_three : list (string * pyval) :=
  [("a", PyStr "two"); ("b", PyInt 3)].

Definition hello : list (string * pyval) := [("message", PyStr "hello")].

Definition some_url : list (string * pyval) :=
  [("url", PyStr "http://files.example/readme")].

Definition look_alike_url : list (string * pyval) :=
  [("url", PyStr "http://not-httpbin.org.files.example/readme")].

Definition pacific : list (string * pyval) := [("timezone", PyStr "pst")].

(** A world in which every URL has the given network location and every
    exchange gives status 200 and the body [ok]. *)
Definition online (host : string) : HttpMCPServer.env :=
  HttpMCPServer.mk_env
    (fun _ => inl host) (fun _ => inl (200%Z, "ok")) 20 0
    (fun _ => "2024-01-01 12:00:00") (fun _ => inl "4").

(** A tools/call request whose [params] is a list. *)
Definition params_list_request : string :=
  js "{'jsonrpc': '2.0', 'id': 9, 'method': 'tools/call', 'params': [1]}".

(** Two requests that the HTTP host answers. *)
Definition two_requests : list string :=
  [tools_request;
   tool_call_line 2 "calculate" (PyDict [("expression", PyStr "2+2")])].

(** A child just started, which will print the given lines and then wait
    for its next request; and one that prints them and exits. *)
Definition fresh_child (out : list string) : MCPToolsClient.Popen :=
  {| MCPToolsClient.stdin_data := [];
     MCPToolsClient.stdout_data := lines_of out;
     MCPToolsClient.broken := false;
     MCPToolsClient.terminated := false |}.

Definition short_lived_child (out : list string) : MCPToolsClient.Popen :=
  {| MCPToolsClient.stdin_data := [];
     MCPToolsClient.stdout_data :=
       (lines_of out ++ [MCPToolsClient.EndOfStream])%list;
     MCPToolsClient.broken := false;
     MCPToolsClient.terminated := false |}.

(** Input of the relay: the spawn fails at the first request and succeeds
    at the next one, after a blank line. *)
Definition late_start : list (option MCPToolsClient.Popen * string) :=
  [(None, tools_request); (None, "   ");
   (Some (short_lived_child [tools_reply ++ newline]), request_five)].

(** Input of the relay: two requests with a line that is not JSON between
    them. *)
Definition relayed_session : list (option MCPToolsClient.Popen * string) :=
  [(None, tools_request); (None, "not json"); (None, " " ++ request_five)].

(** An [initialize] request that asks for another version of the
    protocol. *)
Definition initialize_request : string :=
  js "{'jsonrpc': '2.0', 'id': 1, 'method': 'initialize', 'params': {'protocolVersion': '2025-06-18', 'client_info': {'name': 'replicante'}}}".

(** ** Vocabulary of the codec lemmas *)

(** A text that may follow a value: nothing, or one of the three
    delimiters. *)
Definition delimited (rest : string) : Prop :=
  match rest with
  | EmptyString => True
  | String c _ => c = ","%char \/ c = "]"%char \/ c = "}"%char
  end.

(** The first character of an encoded value is no whitespace and does not
    close an array. *)
Definition opens_value (c : ascii) : Prop :=
  is_ws c = false /\ Ascii.eqb c "]" = false.

(** The first character of an encoded number or literal name opens
    neither a string, nor an object, nor an array. *)
Definition opens_atom (c : ascii) : Prop :=
  Ascii.eqb c DQ = false /\ Ascii.eqb c "{" = false /\ Ascii.eqb c "[" = false.

(** The scanner reads back the encoding of [v], whatever delimited text
    follows it, once its budget exceeds twice the length of the text. *)
Definition decodes (v : pyval) : Prop :=
  wf v ->
  forall fuel rest,
    delimited rest ->
    2 * String.length (dumps v ++ rest) < fuel ->
    scan_once fuel (dumps v ++ rest) = Ok v rest.

(** The text between the brackets of an encoded list, and between the
    braces of an encoded dictionary. *)
Definition items_text (l : list pyval) : string :=
  String.concat ", " (map dumps l).

Definition member_text (kv : string * pyval) : string :=
  encode_basestring_ascii (fst kv) ++ ": " ++ dumps (snd kv).

Definition members_text (d : list (string * pyval)) : string :=
  String.concat ", " (map member_text d).

(** What a scanner may answer on [s] when its budget suffices: never
    [Fuel], and a value only with a strictly shorter rest and no key twice
    in any of its dictionaries. *)
Definition sound {A : Type} (good : A -> Prop) (s : string) (x : res A) : Prop :=
  match x with
  | Ok a r => String.length r < String.length s /\ good a
  | Fuel => False
  | _ => True
  end.

(** The grammar read alone agrees with the scanner wherever the scanner
    decides. *)
Definition agree {A : Type} (x : res A) (y : res unit) : Prop :=
  match x with
  | Ok _ r => y = Ok tt r
  | Err => y = Err
  | Unsup => True
  | Fuel => True
  end.

(* ================================================================== *)
(** * The codec *)
(* ================================================================== *)

Lemma length_app :
  forall a b, String.length (a ++ b) = String.length a + String.length b.
Proof. induction a as [|c a IH]; intro b; cbn; [reflexivity | now rewrite IH]. Qed.

Lemma app_assoc_str : forall a b c : string, (a ++ b) ++ c = a ++ b ++ c.
Proof. induction a as [|x a IH]; intros b c; cbn; [reflexivity | now rewrite IH]. Qed.

(** Induction over values, with the hypothesis on every element of a list
    and on every value of a dictionary. *)
Lemma pyval_induction :
  forall P : pyval -> Prop,
    P PyNone ->
    (forall b, P (PyBool b)) ->
    (forall n, P (PyInt n)) ->
    (forall s, P (PyStr s)) ->
    (forall l, Forall P l -> P (PyList l)) ->
    (forall d, Forall (fun kv => P (snd kv)) d -> P (PyDict d)) ->
    forall v, P v.
Proof.
  intros P Hnone Hbool Hint Hstr Hlist Hdict.
  fix IH 1. intros [| b | n | s | l | d].
  - exact Hnone.
  - apply Hbool.
  - apply Hint.
  - apply Hstr.
  - apply Hlist. induction l as [|x l IHl]; constructor; [apply IH | exact IHl].
  - apply Hdict. induction d as [|[k x] d IHd]; constructor;
      [apply IH | exact IHd].
Qed.

(** ** Strings *)

Lemma scanstring_escape_char :
  forall c tail, scanstring (escape_char c ++ tail) = push c (scanstring tail).
Proof.
  intros [[] [] [] [] [] [] [] []] tail; reflexivity.
Qed.

Lemma scanstring_escape :
  forall s rest, scanstring (escape s ++ dq ++ rest) = Ok s rest.
Proof.
  induction s as [|c s IH]; intro rest; [reflexivity|].
  cbn [escape]. rewrite app_assoc_str, scanstring_escape_char, IH.
  reflexivity.
Qed.

(** ** Integers *)

Lemma scan_digits_uint :
  forall u rest,
    match rest with
    | String c _ => is_digit c = false
    | EmptyString => True
    end ->
    scan_digits (NilEmpty.string_of_uint u ++ rest) = (u, rest).
Proof.
  induction u; intros rest H; cbn [NilEmpty.string_of_uint append];
    try (cbn; rewrite IHu by exact H; reflexivity).
  destruct rest as [|c r]; [reflexivity|]. cbn [scan_digits].
  unfold is_digit in H. destruct (digit c); [discriminate H | reflexivity].
Qed.

Lemma to_uint_head :
  forall p, match Pos.to_uint p with
            | Nil | D0 _ => False
            | _ => True
            end.
Proof.
  intro p.
  assert (Hn : unorm (Pos.to_uint p) = Pos.to_uint p).
  { rewrite <- (Unsigned.to_of (Pos.to_uint p)), Unsigned.of_to. reflexivity. }
  pose proof (Unsigned.to_uint_nonnil p) as Hnil.
  pose proof (Unsigned.to_uint_nonzero p) as Hz.
  destruct (Pos.to_uint p) as [|u| | | | | | | | |]; auto.
  unfold unorm in Hn. rewrite nzhead_D0 in Hn.
  destruct (nzhead u) eqn:E; try (now apply Hz);
    try (injection Hn as Hn; rewrite <- Hn in E; now apply nzhead_nonzero in E).
Qed.

Lemma delimited_not_digit :
  forall rest, delimited rest ->
    match rest with
    | String c _ => is_digit c = false
    | EmptyString => True
    end.
Proof.
  intros [|c r] H; [exact I|]. destruct H as [-> | [-> | ->]]; reflexivity.
Qed.

Lemma delimited_not_float :
  forall rest, delimited rest -> float_follows rest = false.
Proof.
  intros [|c r] H; [reflexivity|]. destruct H as [-> | [-> | ->]]; reflexivity.
Qed.

Lemma scan_atom_uint :
  forall u rest,
    match u with Nil | D0 _ => False | _ => True end ->
    delimited rest ->
    scan_atom (NilEmpty.string_of_uint u ++ rest)
    = Ok (PyInt (Z.of_uint u)) rest
    /\ scan_atom (String "-" (NilEmpty.string_of_uint u ++ rest))
       = Ok (PyInt (- Z.of_uint u)) rest.
Proof.
  intros u rest Hh Hd.
  pose proof (delimited_not_digit _ Hd) as Hnd.
  pose proof (delimited_not_float _ Hd) as Hnf.
  destruct u as [|u|u|u|u|u|u|u|u|u|u]; try contradiction;
    (split;
     (unfold scan_atom; cbn [NilEmpty.string_of_uint append];
      cbn -[Z.of_uint scan_digits float_follows];
      cbn [scan_digits]; cbn -[Z.of_uint scan_digits float_follows];
      rewrite (scan_digits_uint u rest Hnd), Hnf; reflexivity)).
Qed.

Lemma scan_atom_int :
  forall n rest, delimited rest ->
    scan_atom (str_of_int n ++ rest) = Ok (PyInt n) rest.
Proof.
  intros n rest Hd. unfold str_of_int.
  destruct n as [|p|p]; cbn [Z.to_int NilZero.string_of_int].
  - pose proof (delimited_not_float _ Hd) as Hnf.
    unfold scan_atom. cbn -[float_follows]. now rewrite Hnf.
  - pose proof (to_uint_head p) as Hh.
    destruct (scan_atom_uint _ rest Hh Hd) as [H _].
    replace (NilZero.string_of_uint (Pos.to_uint p))
      with (NilEmpty.string_of_uint (Pos.to_uint p))
      by (destruct (Pos.to_uint p); [contradiction | reflexivity ..]).
    rewrite H. unfold Z.of_uint. now rewrite Unsigned.of_to.
  - pose proof (to_uint_head p) as Hh.
    destruct (scan_atom_uint _ rest Hh Hd) as [_ H].
    replace (NilZero.string_of_uint (Pos.to_uint p))
      with (NilEmpty.string_of_uint (Pos.to_uint p))
      by (destruct (Pos.to_uint p); [contradiction | reflexivity ..]).
    cbn [append]. rewrite H. unfold Z.of_uint. now rewrite Unsigned.of_to.
Qed.

(** ** The first character of an encoded value *)

Lemma digit_opens :
  forall c, is_digit c = true -> opens_value c /\ opens_atom c.
Proof.
  intros [[] [] [] [] [] [] [] []] H; try discriminate H;
    repeat split; reflexivity.
Qed.

Lemma str_of_int_head :
  forall n rest, exists c r,
    str_of_int n ++ rest = String c r /\ opens_value c /\ opens_atom c.
Proof.
  intros n rest. unfold str_of_int.
  destruct n as [|p|p]; cbn [Z.to_int NilZero.string_of_int].
  - eexists _, _. split; [reflexivity|]. apply digit_opens. reflexivity.
  - pose proof (to_uint_head p) as Hh.
    destruct (Pos.to_uint p); try contradiction;
      (eexists _, _; split; [reflexivity|]; apply digit_opens; reflexivity).
  - eexists _, _. split; [reflexivity|]. repeat split; reflexivity.
Qed.

Lemma dumps_head :
  forall v rest, exists c r, dumps v ++ rest = String c r /\ opens_value c.
Proof.
  intros v rest. destruct v as [|[]|n|s|l|d];
    try (eexists _, _; split; [reflexivity|]; split; reflexivity).
  destruct (str_of_int_head n rest) as (c & r & E & H & _). eauto.
Qed.

Lemma skip_ws_dumps :
  forall v rest, skip_ws (dumps v ++ rest) = dumps v ++ rest.
Proof.
  intros v rest. destruct (dumps_head v rest) as (c & r & -> & Hw & _).
  cbn [skip_ws]. now rewrite Hw.
Qed.

Lemma scan_once_atom :
  forall fuel c r, opens_atom c ->
    scan_once (S fuel) (String c r) = scan_atom (String c r).
Proof.
  intros fuel c r (H1 & H2 & H3). cbn [scan_once]. now rewrite H1, H2, H3.
Qed.

(** ** Decoding what was encoded *)

Lemma dumps_list : forall l, dumps (PyList l) = "[" ++ items_text l ++ "]".
Proof. reflexivity. Qed.

Lemma dumps_dict : forall d, dumps (PyDict d) = "{" ++ members_text d ++ "}".
Proof. reflexivity. Qed.

Lemma items_text_cons :
  forall v l, l <> [] -> items_text (v :: l) = dumps v ++ ", " ++ items_text l.
Proof. intros v [|x l] H; [now elim H | reflexivity]. Qed.

Lemma members_text_cons :
  forall kv d, d <> [] ->
    members_text (kv :: d) = member_text kv ++ ", " ++ members_text d.
Proof. intros kv [|x d] H; [now elim H | reflexivity]. Qed.

Lemma skip_ws_items :
  forall l rest, l <> [] ->
    skip_ws (items_text l ++ rest) = items_text l ++ rest.
Proof.
  intros [|v [|v2 l]] rest H; [now elim H | apply skip_ws_dumps |].
  rewrite items_text_cons by discriminate. rewrite app_assoc_str.
  apply skip_ws_dumps.
Qed.

Lemma parse_items_text :
  forall l,
    Forall decodes l -> Forall wf l -> l <> [] ->
    forall acc fuel rest,
      delimited rest ->
      2 * String.length (items_text l ++ "]" ++ rest) + 1 < fuel ->
      parse_items fuel acc (items_text l ++ "]" ++ rest)
      = Ok (PyList (acc ++ l)) rest.
Proof.
  induction l as [|v l IH]; intros Hdec Hwf Hne acc fuel rest Hd Hf;
    [now elim Hne|].
  inversion Hdec as [|? ? Hv Hl]; subst. inversion Hwf as [|? ? Wv Wl]; subst.
  destruct fuel as [|fuel]; [lia|]. cbn [parse_items].
  destruct l as [|v2 l].
  - change (items_text [v]) with (dumps v) in *.
    rewrite (Hv Wv fuel ("]" ++ rest)); [reflexivity | cbn; auto | lia].
  - rewrite items_text_cons in * by discriminate.
    rewrite !app_assoc_str in *.
    rewrite (Hv Wv fuel (", " ++ items_text (v2 :: l) ++ "]" ++ rest));
      [ | cbn; auto | lia].
    change (parse_items fuel (acc ++ [v])
              (skip_ws (items_text (v2 :: l) ++ "]" ++ rest))
            = Ok (PyList (acc ++ v :: v2 :: l)) rest).
    rewrite skip_ws_items by discriminate.
    rewrite (IH Hl Wl ltac:(discriminate) (acc ++ [v])%list fuel rest Hd).
    + now rewrite <- app_assoc.
    + rewrite length_app in Hf. cbn [append String.length] in Hf |- *. lia.
Qed.

Lemma member_text_eq :
  forall k v tail,
    member_text (k, v) ++ tail
    = String DQ (escape k ++ dq ++ ": " ++ dumps v ++ tail).
Proof.
  intros k v tail. unfold member_text, encode_basestring_ascii. cbn [fst snd].
  cbn [append]. now rewrite !app_assoc_str.
Qed.

Lemma dict_set_fresh :
  forall acc k v, ~ In k (map fst acc) -> dict_set acc k v = (acc ++ [(k, v)])%list.
Proof.
  induction acc as [|[k' v'] acc IH]; intros k v H; [reflexivity|].
  cbn [dict_set]. cbn [map fst In] in H.
  destruct (String.eqb_spec k' k) as [E|E]; [tauto|].
  cbn [app]. now rewrite IH by tauto.
Qed.

Lemma skip_ws_space : forall s, skip_ws (String " " s) = skip_ws s.
Proof. reflexivity. Qed.

Lemma skip_ws_stop :
  forall c s, is_ws c = false -> skip_ws (String c s) = String c s.
Proof. intros c s H. cbn [skip_ws]. now rewrite H. Qed.

Lemma members_text_head :
  forall d rest, d <> [] ->
    exists tail, members_text d ++ rest = String DQ tail.
Proof.
  intros [|[k v] [|kv2 d]] rest H; [now elim H | |].
  - change (members_text [(k, v)]) with (member_text (k, v)).
    rewrite member_text_eq. eauto.
  - rewrite members_text_cons by discriminate.
    rewrite app_assoc_str, member_text_eq. eauto.
Qed.

Ltac lengths H :=
  unfold dq in H |- *;
  repeat first [ rewrite length_app in H
               | progress cbn [append String.length] in H ];
  repeat first [ rewrite length_app
               | progress cbn [append String.length] ].

Lemma parse_members_text :
  forall d,
    Forall (fun kv => decodes (snd kv)) d ->
    Forall (fun kv => wf (snd kv)) d ->
    d <> [] ->
    forall acc fuel rest,
      NoDup (map fst (acc ++ d)) ->
      delimited rest ->
      2 * String.length (members_text d ++ "}" ++ rest) + 1 < fuel ->
      parse_members fuel acc (str_drop 1 (members_text d ++ "}" ++ rest))
      = Ok (PyDict (acc ++ d)) rest.
Proof.
  induction d as [|[k v] d IH]; intros Hdec Hwf Hne acc fuel rest Hnd Hd Hf;
    [now elim Hne|].
  inversion Hdec as [|? ? Hv Hl]; subst. inversion Hwf as [|? ? Wv Wl]; subst.
  cbn [snd] in Hv, Wv.
  assert (Hfresh : ~ In k (map fst acc)).
  { rewrite map_app in Hnd. cbn [map fst] in Hnd.
    apply NoDup_remove_2 in Hnd. intro Hin. apply Hnd.
    apply in_or_app. now left. }
  destruct fuel as [|fuel]; [lia|].
  destruct d as [|kv2 d].
  - change (members_text [(k, v)]) with (member_text (k, v)) in *.
    rewrite member_text_eq in *. cbn [str_drop parse_members].
    rewrite scanstring_escape. cbn [append].
    rewrite skip_ws_stop by reflexivity.
    change (Ascii.eqb ":" ":") with true. cbv iota.
    rewrite skip_ws_space, skip_ws_dumps.
    rewrite (Hv Wv fuel (String "}" rest));
      [ | cbn; auto | lengths Hf; lia].
    rewrite skip_ws_stop by reflexivity.
    change (Ascii.eqb "}" "}") with true. cbv iota.
    now rewrite dict_set_fresh.
  - rewrite members_text_cons in * by discriminate.
    rewrite app_assoc_str in *. rewrite member_text_eq in *.
    cbn [str_drop parse_members].
    rewrite scanstring_escape. cbn [append].
    rewrite skip_ws_stop by reflexivity.
    change (Ascii.eqb ":" ":") with true. cbv iota.
    rewrite skip_ws_space, skip_ws_dumps.
    rewrite (Hv Wv fuel
               (String "," (String " " (members_text (kv2 :: d) ++ String "}" rest))));
      [ | cbn; auto | lengths Hf; lia].
    rewrite skip_ws_stop by reflexivity.
    change (Ascii.eqb "," "}") with false. cbv iota.
    change (Ascii.eqb "," ",") with true. cbv iota.
    rewrite skip_ws_space.
    rewrite dict_set_fresh by exact Hfresh.
    assert (Hn : NoDup (map fst ((acc ++ [(k, v)]) ++ kv2 :: d)))
      by now rewrite <- app_assoc.
    assert (Hb : 2 * String.length (members_text (kv2 :: d) ++ "}" ++ rest) + 1
                 < fuel).
    { lengths Hf. lia. }
    pose proof (IH Hl Wl ltac:(discriminate) (acc ++ [(k, v)])%list fuel rest
                  Hn Hd Hb) as Hrec.
    destruct (members_text_head (kv2 :: d) ("}" ++ rest) ltac:(discriminate))
      as [tail Ht].
    cbn [append] in Ht, Hrec |- *.
    rewrite Ht in *. cbn [str_drop] in Hrec.
    rewrite skip_ws_stop by reflexivity.
    rewrite Ascii.eqb_refl. rewrite Hrec. now rewrite <- app_assoc.
Qed.

Lemma wf_list : forall l, wf (PyList l) -> Forall wf l.
Proof.
  induction l as [|x l IH]; intro H; constructor; cbn in H; tauto.
Qed.

Lemma wf_dict :
  forall d, wf (PyDict d) ->
    NoDup (map fst d) /\ Forall (fun kv => wf (snd kv)) d.
Proof.
  intros d [Hn H]. split; [exact Hn|]. clear Hn.
  induction d as [|x d IH]; constructor; cbn in H; tauto.
Qed.

Lemma dumps_decodes : forall v, decodes v.
Proof.
  induction v as [| b | n | s | l IH | d IH] using pyval_induction;
    intros Hwf fuel rest Hd Hf; (destruct fuel as [|fuel]; [lia|]).
  - reflexivity.
  - destruct b; reflexivity.
  - destruct (str_of_int_head n rest) as (c & r & E & _ & Ha).
    cbn [dumps]. rewrite E, scan_once_atom by exact Ha. rewrite <- E.
    now apply scan_atom_int.
  - cbn [dumps scan_once]. unfold encode_basestring_ascii. cbn [append].
    rewrite Ascii.eqb_refl, app_assoc_str, scanstring_escape. reflexivity.
  - apply wf_list in Hwf. rewrite dumps_list in *. cbn [append] in *.
    rewrite app_assoc_str in *.
    destruct l as [|v l].
    + reflexivity.
    + cbn [scan_once]. change (Ascii.eqb "[" DQ) with false.
      change (Ascii.eqb "[" "{") with false.
      change (Ascii.eqb "[" "[") with true. cbv iota.
      rewrite skip_ws_items by discriminate.
      assert (Hb : 2 * String.length (items_text (v :: l) ++ "]" ++ rest) + 1
                   < fuel) by (lengths Hf; lia).
      pose proof (parse_items_text (v :: l) IH Hwf ltac:(discriminate) []
                    fuel rest Hd Hb) as Hp.
      change (([] ++ v :: l)%list) with (v :: l) in Hp. rewrite <- Hp.
      destruct (dumps_head v (match l with
                              | [] => EmptyString
                              | _ => ", " ++ items_text l
                              end ++ "]" ++ rest))
        as (c & r & E & _ & Hc).
      assert (E' : items_text (v :: l) ++ "]" ++ rest = String c r).
      { rewrite <- E. destruct l; [reflexivity|].
        rewrite items_text_cons by discriminate.
        now rewrite !app_assoc_str. }
      rewrite E'. now rewrite Hc.
  - apply wf_dict in Hwf. destruct Hwf as [Hn Hwf].
    rewrite dumps_dict in *. cbn [append] in *. rewrite app_assoc_str in *.
    destruct d as [|kv d].
    + reflexivity.
    + cbn [scan_once]. change (Ascii.eqb "{" DQ) with false.
      change (Ascii.eqb "{" "{") with true. cbv iota.
      assert (Hb : 2 * String.length (members_text (kv :: d) ++ "}" ++ rest) + 1
                   < fuel) by (lengths Hf; lia).
      pose proof (parse_members_text (kv :: d) IH Hwf ltac:(discriminate) []
                    fuel rest Hn Hd Hb) as Hp.
      change (([] ++ kv :: d)%list) with (kv :: d) in Hp. rewrite <- Hp.
      destruct (members_text_head (kv :: d) ("}" ++ rest) ltac:(discriminate))
        as [tail Ht].
      rewrite Ht. rewrite skip_ws_stop by reflexivity.
      now rewrite Ascii.eqb_refl.
Qed.

Lemma loads_dumps_plain :
  forall v, wf v -> loads (dumps v) = Decoded v.
Proof.
  intros v Hwf. unfold loads.
  pose proof (skip_ws_dumps v EmptyString) as Hs.
  pose proof (dumps_decodes v Hwf (S (2 * String.length (dumps v))) EmptyString I)
    as H.
  assert (E : dumps v ++ "" = dumps v).
  { clear. induction (dumps v) as [|c s IH]; cbn; [reflexivity | now rewrite IH]. }
  rewrite E in *. rewrite Hs, H by lia. reflexivity.
Qed.

(** ** One line, with nothing to trim *)

Lemma rstrip_app :
  forall a b, b <> EmptyString -> rstrip b = b -> rstrip (a ++ b) = a ++ b.
Proof.
  induction a as [|c a IH]; intros b Hne Hb; [exact Hb|].
  cbn [append rstrip]. rewrite IH by assumption.
  destruct (a ++ b) eqn:E; [|reflexivity].
  destruct a; cbn in E; [now elim Hne | discriminate E].
Qed.

Lemma rstrip_digits :
  forall u, rstrip (NilEmpty.string_of_uint u) = NilEmpty.string_of_uint u.
Proof.
  induction u; cbn [NilEmpty.string_of_uint rstrip]; try reflexivity;
    rewrite IHu; destruct (NilEmpty.string_of_uint u); reflexivity.
Qed.

Lemma rstrip_str_of_int : forall n, rstrip (str_of_int n) = str_of_int n.
Proof.
  intro n. unfold str_of_int.
  destruct n as [|p|p]; cbn [Z.to_int NilZero.string_of_int]; [reflexivity| |];
    pose proof (to_uint_head p) as Hh;
    (replace (NilZero.string_of_uint (Pos.to_uint p))
       with (NilEmpty.string_of_uint (Pos.to_uint p))
       by (destruct (Pos.to_uint p); [contradiction | reflexivity ..])).
  - apply rstrip_digits.
  - change (String "-" ?s) with ("-" ++ s).
    apply (rstrip_app "-"); [|apply rstrip_digits].
    destruct (Pos.to_uint p); try contradiction; discriminate.
Qed.

Lemma rstrip_dumps : forall v, rstrip (dumps v) = dumps v.
Proof.
  destruct v as [|[]|n|s|l|d]; try reflexivity.
  - apply rstrip_str_of_int.
  - cbn [dumps]. unfold encode_basestring_ascii.
    change (String DQ (escape s ++ dq)) with ((String DQ (escape s)) ++ dq).
    apply rstrip_app; [discriminate | reflexivity].
  - rewrite dumps_list. rewrite <- app_assoc_str.
    apply rstrip_app; [discriminate | reflexivity].
  - rewrite dumps_dict. rewrite <- app_assoc_str.
    apply rstrip_app; [discriminate | reflexivity].
Qed.

Lemma lstrip_dumps : forall v, lstrip (dumps v) = dumps v.
Proof.
  destruct v as [|[]|n|s|l|d]; try reflexivity.
  cbn [dumps]. unfold str_of_int.
  destruct n as [|p|p]; cbn [Z.to_int NilZero.string_of_int]; try reflexivity.
  pose proof (to_uint_head p) as Hh.
  destruct (Pos.to_uint p); try contradiction; reflexivity.
Qed.

Lemma strip_dumps : forall v, strip (dumps v) = dumps v.
Proof. intro v. unfold strip. now rewrite lstrip_dumps, rstrip_dumps. Qed.

Lemma contains_char_app :
  forall c a b,
    contains_char c (a ++ b) = contains_char c a || contains_char c b.
Proof.
  induction a as [|x a IH]; intro b; cbn; [reflexivity|].
  now rewrite IH, orb_assoc.
Qed.

Lemma escape_char_one_line :
  forall c, contains_char "010" (escape_char c) = false.
Proof. intros [[] [] [] [] [] [] [] []]; reflexivity. Qed.

Lemma escape_one_line : forall s, contains_char "010" (escape s) = false.
Proof.
  induction s as [|c s IH]; [reflexivity|].
  cbn [escape]. now rewrite contains_char_app, escape_char_one_line, IH.
Qed.

Lemma digits_one_line :
  forall u, contains_char "010" (NilEmpty.string_of_uint u) = false.
Proof. induction u; cbn; auto. Qed.

Lemma str_of_int_one_line :
  forall n, contains_char "010" (str_of_int n) = false.
Proof.
  intro n. unfold str_of_int.
  destruct n as [|p|p]; cbn [Z.to_int NilZero.string_of_int]; [reflexivity| |];
    unfold NilZero.string_of_uint;
    destruct (Pos.to_uint p) eqn:E; try reflexivity;
      rewrite <- ?E; cbn [contains_char]; try apply digits_one_line;
      rewrite ?E; cbn; apply digits_one_line.
Qed.

Lemma concat_one_line :
  forall l, Forall (fun s => contains_char "010" s = false) l ->
    contains_char "010" (String.concat ", " l) = false.
Proof.
  induction l as [|x l IH]; intro H; [reflexivity|].
  inversion H as [|? ? Hx Hl]; subst. destruct l as [|y l]; [exact Hx|].
  cbn [String.concat]. rewrite contains_char_app, Hx.
  cbn [append contains_char orb]. change (Ascii.eqb "," "010") with false.
  change (Ascii.eqb " " "010") with false. cbn [orb]. now apply IH.
Qed.

Lemma dumps_one_line : forall v, contains_char "010" (dumps v) = false.
Proof.
  induction v as [| b | n | s | l IH | d IH] using pyval_induction.
  - reflexivity.
  - destruct b; reflexivity.
  - apply str_of_int_one_line.
  - cbn [dumps]. unfold encode_basestring_ascii. cbn [contains_char].
    now rewrite contains_char_app, escape_one_line.
  - cbn [dumps]. cbn [append contains_char]. rewrite contains_char_app.
    rewrite concat_one_line; [reflexivity|].
    induction IH; constructor; auto.
  - cbn [dumps]. cbn [append contains_char]. rewrite contains_char_app.
    rewrite concat_one_line; [reflexivity|].
    induction IH as [|kv d Hkv Hd IHd]; constructor; [|exact IHd].
    unfold encode_basestring_ascii, dq. cbn [append contains_char].
    rewrite !contains_char_app, escape_one_line. cbn [contains_char].
    rewrite Hkv. reflexivity.
Qed.

(** ** The scanner has budget enough, and gives dictionaries proper *)

Lemma skip_ws_length :
  forall s, String.length (skip_ws s) <= String.length s.
Proof.
  induction s as [|c s IH]; cbn [skip_ws]; [lia|].
  destruct (is_ws c); cbn [String.length]; lia.
Qed.

Lemma scanstring_sound :
  forall n s, String.length s <= n -> s <> EmptyString ->
    sound (fun _ => True) s (scanstring s).
Proof.
  induction n as [|n IH]; intros s Hn Hne.
  { destruct s; [now elim Hne | cbn in Hn; lia]. }
  destruct s as [|c r]; [now elim Hne|]. cbn [scanstring String.length] in *.
  assert (Tail : forall t, String.length t <= n ->
                   sound (fun _ => True) t (scanstring t)
                   \/ t = EmptyString).
  { intros t Ht. destruct t; [now right | left].
    apply IH; [exact Ht | discriminate]. }
  assert (Push : forall x t, String.length t <= String.length r ->
                   sound (fun _ => True) (String c r) (push x (scanstring t))).
  { intros x t Ht. destruct (Tail t ltac:(lia)) as [H | ->]; [|exact I].
    destruct (scanstring t); cbn in *; try tauto.
    cbn [String.length]. intuition lia. }
  destruct (Ascii.eqb c DQ); [cbn; split; [lia | exact I]|].
  destruct (Ascii.eqb c BSL).
  - destruct r as [|e r1]; [exact I|].
    destruct (Ascii.eqb e "u").
    + destruct r1 as [|h1 [|h2 [|h3 [|h4 r2]]]]; try exact I.
      destruct (hex4 h1 h2 h3 h4) as [m|]; [|exact I].
      destruct (m <? 256)%N; [|exact I].
      apply Push. cbn [String.length]. lia.
    + destruct (backslash e); [|exact I].
      apply Push. cbn [String.length]. lia.
  - destruct (N_of_ascii c <? 32)%N; [exact I|].
    apply Push. lia.
Qed.

Lemma scanstring_sound' :
  forall s, sound (fun _ => True) (String "x" s) (scanstring s).
Proof.
  intro s. destruct s as [|c r]; [exact I|].
  pose proof (scanstring_sound _ (String c r) (le_n _) ltac:(discriminate)) as H.
  destruct (scanstring (String c r)); cbn in *; intuition lia.
Qed.

Lemma startswith_length :
  forall p s, startswith p s = true ->
    String.length s = String.length p + String.length (str_drop (String.length p) s).
Proof.
  induction p as [|a p IH]; intros s H; [reflexivity|].
  destruct s as [|b s]; [discriminate H|]. cbn [startswith] in H.
  apply andb_true_iff in H. destruct H as [_ H].
  cbn [String.length str_drop]. rewrite (IH s H) at 1. reflexivity.
Qed.

Lemma scan_digits_length :
  forall s, String.length (snd (scan_digits s)) <= String.length s.
Proof.
  induction s as [|c s IH]; cbn [scan_digits]; [cbn; lia|].
  destruct (digit c) as [d|]; [|cbn; lia].
  destruct (scan_digits s) as [u r]. cbn [snd String.length] in *. lia.
Qed.

Lemma scan_int_part_length :
  forall s u r, scan_int_part s = Some (u, r) ->
    String.length r < String.length s.
Proof.
  intros [|c s] u r H; [discriminate H|]. cbn [scan_int_part] in H.
  destruct (Ascii.eqb c "0").
  - inversion H; subst. cbn; lia.
  - destruct (is_digit c) eqn:Hc; [|discriminate H].
    cbn [scan_digits] in H. unfold is_digit in Hc.
    destruct (digit c) as [d|]; [|discriminate Hc].
    pose proof (scan_digits_length s) as Hl.
    destruct (scan_digits s) as [u' r']. inversion H; subst.
    cbn [snd String.length] in *. lia.
Qed.

Lemma scan_atom_sound :
  forall s, sound wf s (scan_atom s).
Proof.
  intro s. unfold scan_atom.
  destruct (startswith "null" s) eqn:E1.
  { apply startswith_length in E1. cbn in *. split; [lia | exact I]. }
  destruct (startswith "true" s) eqn:E2.
  { apply startswith_length in E2. cbn in *. split; [lia | exact I]. }
  destruct (startswith "false" s) eqn:E3.
  { apply startswith_length in E3. cbn in *. split; [lia | exact I]. }
  assert (Hbody : forall neg body,
             String.length body <= String.length s ->
             sound wf s
               match scan_int_part body with
               | Some (u, r) =>
                   if float_follows r then Unsup
                   else Ok (PyInt (if neg : bool then - Z.of_uint u
                                   else Z.of_uint u)) r
               | None =>
                   if startswith "NaN" s || startswith "Infinity" s
                      || startswith "-Infinity" s
                   then Unsup else Err
               end).
  { intros neg body Hb. destruct (scan_int_part body) as [[u r]|] eqn:E.
    - apply scan_int_part_length in E.
      destruct (float_follows r); [exact I|]. split; [lia | exact I].
    - destruct (_ || _); exact I. }
  destruct s as [|c r]; [apply (Hbody false); lia|].
  destruct (Ascii.eqb c "-");
    [apply (Hbody true r) | apply (Hbody false (String c r))]; cbn; lia.
Qed.

Lemma sound_longer :
  forall (A : Type) (good : A -> Prop) s t (x : res A),
    sound good t x -> String.length t <= String.length s -> sound good s x.
Proof. intros A good s t [a r| | |] H Hl; cbn in *; intuition lia. Qed.

Lemma wf_snoc :
  forall acc v, wf (PyList acc) -> wf v -> wf (PyList (acc ++ [v])).
Proof.
  induction acc as [|x acc IH]; intros v Ha Hv; cbn in *; [tauto|].
  destruct Ha as [Hx Ha]. split; [exact Hx|]. now apply IH.
Qed.

Lemma dict_set_keys :
  forall acc k v,
    map fst (dict_set acc k v) = map fst acc
    \/ (~ In k (map fst acc)
        /\ map fst (dict_set acc k v) = (map fst acc ++ [k])%list).
Proof.
  induction acc as [|[k' v'] acc IH]; intros k v; cbn [dict_set map fst].
  - right. split; [tauto | reflexivity].
  - destruct (String.eqb_spec k' k) as [E|E]; [now left|].
    cbn [map fst]. destruct (IH k v) as [H | [Hn H]].
    + left. now rewrite H.
    + right. split; [cbn; tauto | cbn; now rewrite H].
Qed.

Lemma wf_dict_set :
  forall acc k v, wf (PyDict acc) -> wf v -> wf (PyDict (dict_set acc k v)).
Proof.
  intros acc k v [Hn Ha] Hv. split.
  - destruct (dict_set_keys acc k v) as [H | [Hk H]]; rewrite H; [exact Hn|].
    clear H Ha. induction (map fst acc) as [|x l IH]; cbn.
    + constructor; [tauto | constructor].
    + inversion Hn; subst. constructor.
      * rewrite in_app_iff. cbn in *. intuition congruence.
      * apply IH; [assumption | cbn in Hk; tauto].
  - clear Hn. induction acc as [|[k' v'] acc IH]; cbn [dict_set].
    + cbn. tauto.
    + cbn in Ha. destruct (String.eqb k' k); cbn; intuition.
Qed.

Lemma scan_sound :
  forall fuel,
    (forall s, 2 * String.length s < fuel -> sound wf s (scan_once fuel s))
    /\ (forall acc s, 2 * String.length s + 1 < fuel -> wf (PyList acc) ->
          sound wf s (parse_items fuel acc s))
    /\ (forall acc s, 2 * String.length s + 1 < fuel -> wf (PyDict acc) ->
          sound wf s (parse_members fuel acc s)).
Proof.
  induction fuel as [|fuel (IHv & IHi & IHm)].
  { repeat split; intros; lia. }
  split; [|split].
  - intros s Hf. cbn [scan_once]. destruct s as [|c r]; [exact I|].
    cbn [String.length] in Hf.
    destruct (Ascii.eqb c DQ).
    { pose proof (scanstring_sound' r) as H.
      destruct (scanstring r); cbn in *; tauto. }
    destruct (Ascii.eqb c "{").
    { pose proof (skip_ws_length r) as Hl.
      destruct (skip_ws r) as [|c1 r1]; [exact I|]. cbn [String.length] in Hl.
      destruct (Ascii.eqb c1 DQ).
      - apply sound_longer with (t := r1); [|cbn; lia].
        apply IHm; [lia | split; [constructor | exact I]].
      - destruct (Ascii.eqb c1 "}"); [|exact I].
        split; [cbn; lia | split; [constructor | exact I]]. }
    destruct (Ascii.eqb c "[").
    { pose proof (skip_ws_length r) as Hl.
      destruct (skip_ws r) as [|c1 r1]; [exact I|]. cbn [String.length] in Hl.
      destruct (Ascii.eqb c1 "]").
      - split; [cbn; lia | exact I].
      - apply sound_longer with (t := String c1 r1); [|cbn; lia].
        apply IHi; [cbn; lia | exact I]. }
    apply scan_atom_sound.
  - intros acc s Hf Hacc. cbn [parse_items].
    pose proof (IHv s ltac:(lia)) as Hv.
    destruct (scan_once fuel s) as [v r| | |]; try exact Hv.
    destruct Hv as [Hr Hv]. pose proof (skip_ws_length r) as Hl.
    destruct (skip_ws r) as [|c r1]; [exact I|]. cbn [String.length] in Hl.
    destruct (Ascii.eqb c "]").
    { split; [lia | now apply wf_snoc]. }
    destruct (Ascii.eqb c ","); [|exact I].
    pose proof (skip_ws_length r1) as Hl1.
    apply sound_longer with (t := skip_ws r1); [|lia].
    apply IHi; [lia | now apply wf_snoc].
  - intros acc s Hf Hacc. cbn [parse_members].
    pose proof (scanstring_sound' s) as Hk.
    destruct (scanstring s) as [k r| | |]; try exact Hk.
    destruct Hk as [Hr _]. cbn [String.length] in Hr.
    pose proof (skip_ws_length r) as Hl.
    destruct (skip_ws r) as [|c r1]; [exact I|]. cbn [String.length] in Hl.
    destruct (Ascii.eqb c ":"); [|exact I].
    pose proof (skip_ws_length r1) as Hl1.
    pose proof (IHv (skip_ws r1) ltac:(lia)) as Hv.
    destruct (scan_once fuel (skip_ws r1)) as [v r2| | |]; try exact Hv.
    destruct Hv as [Hr2 Hv]. pose proof (skip_ws_length r2) as Hl2.
    destruct (skip_ws r2) as [|c2 r3]; [exact I|]. cbn [String.length] in Hl2.
    destruct (Ascii.eqb c2 "}").
    { split; [lia | now apply wf_dict_set]. }
    destruct (Ascii.eqb c2 ","); [|exact I].
    pose proof (skip_ws_length r3) as Hl3.
    destruct (skip_ws r3) as [|c3 r4]; [exact I|]. cbn [String.length] in Hl3.
    destruct (Ascii.eqb c3 DQ); [|exact I].
    apply sound_longer with (t := r4); [|lia].
    apply IHm; [lia | now apply wf_dict_set].
Qed.

Lemma loads_fuel :
  forall s, scan_once (S (2 * String.length s)) (skip_ws s) <> Fuel.
Proof.
  intros s H. pose proof (skip_ws_length s) as Hl.
  pose proof (proj1 (scan_sound (S (2 * String.length s))) (skip_ws s)
                ltac:(lia)) as Hs.
  rewrite H in Hs. exact Hs.
Qed.

Lemma loads_wf : forall s v, loads s = Decoded v -> wf v.
Proof.
  intros s v H. unfold loads in H. pose proof (skip_ws_length s) as Hl.
  pose proof (proj1 (scan_sound (S (2 * String.length s))) (skip_ws s)
                ltac:(lia)) as Hs.
  destruct (scan_once _ (skip_ws s)) as [a r| | |]; try discriminate H.
  - destruct (is_empty (skip_ws r)); inversion H; subst. apply Hs.
  - destruct (skip_once _ (skip_ws s)) as [a r| | |]; try discriminate H.
    destruct (is_empty (skip_ws r)); discriminate H.
Qed.

(** ** The grammar read alone *)

Lemma skip_string_agrees :
  forall s, match scanstring s with
            | Ok _ r => skip_string s = Some r
            | Err => skip_string s = None
            | _ => True
            end.
Proof.
  fix IH 1. intros [|c r]; [reflexivity|]. cbn [scanstring skip_string].
  destruct (Ascii.eqb c DQ); [reflexivity|].
  destruct (Ascii.eqb c BSL).
  - destruct r as [|e r1]; [reflexivity|].
    destruct (Ascii.eqb e "u").
    + destruct r1 as [|h1 [|h2 [|h3 [|h4 r2]]]]; try reflexivity.
      destruct (hex4 h1 h2 h3 h4) as [n|]; [|reflexivity].
      destruct (n <? 256)%N; [|exact I].
      pose proof (IH r2) as H. unfold push.
      destruct (scanstring r2); auto.
    + destruct (backslash e); [|reflexivity].
      pose proof (IH r1) as H. unfold push. destruct (scanstring r1); auto.
  - destruct (N_of_ascii c <? 32)%N; [reflexivity|].
    pose proof (IH r) as H. unfold push. destruct (scanstring r); auto.
Qed.

Lemma skip_tail_plain :
  forall r, float_follows r = false -> skip_exp (skip_frac r) = r.
Proof.
  intros r H. unfold float_follows in H.
  assert (Hf : skip_frac r = r).
  { unfold skip_frac. destruct r as [|c [|d r1]]; try reflexivity.
    destruct (Ascii.eqb c "."); [|reflexivity]. cbn [andb].
    now rewrite H. }
  rewrite Hf. unfold skip_exp. destruct r as [|c r1]; [reflexivity|].
  destruct (Ascii.eqb c ".") eqn:Ec.
  { apply Ascii.eqb_eq in Ec. subst c. reflexivity. }
  destruct (Ascii.eqb c "e" || Ascii.eqb c "E"); [|reflexivity].
  destruct r1 as [|d r2]; [reflexivity|].
  destruct (Ascii.eqb d "+" || Ascii.eqb d "-").
  - destruct r2 as [|x r3]; [reflexivity|]. now rewrite H.
  - now rewrite H.
Qed.

Lemma skip_atom_agrees : forall s, agree (scan_atom s) (skip_atom s).
Proof.
  intro s. unfold scan_atom, skip_atom.
  destruct (startswith "null" s); [reflexivity|].
  destruct (startswith "true" s); [reflexivity|].
  destruct (startswith "false" s); [reflexivity|].
  assert (E : (let '(_, body) :=
                 match s with
                 | String c r => if Ascii.eqb c "-" then (true, r) else (false, s)
                 | EmptyString => (false, s)
                 end in body)
              = match s with
                | String c r => if Ascii.eqb c "-" then r else s
                | EmptyString => s
                end).
  { destruct s as [|c r]; [reflexivity|]. destruct (Ascii.eqb c "-"); reflexivity. }
  destruct (match s with
            | String c r => if Ascii.eqb c "-" then (true, r) else (false, s)
            | EmptyString => (false, s)
            end) as [neg body].
  cbv beta iota zeta in E. rewrite <- E.
  destruct (scan_int_part body) as [[u r]|].
  - destruct (float_follows r) eqn:F; [exact I|].
    cbn [agree]. now rewrite skip_tail_plain.
  - destruct (startswith "NaN" s); [exact I|].
    destruct (startswith "Infinity" s); [exact I|].
    destruct (startswith "-Infinity" s); [exact I|]. reflexivity.
Qed.

Lemma skip_agrees :
  forall fuel,
    (forall s, agree (scan_once fuel s) (skip_once fuel s))
    /\ (forall acc s, agree (parse_items fuel acc s) (skip_items fuel s))
    /\ (forall acc s, agree (parse_members fuel acc s) (skip_members fuel s)).
Proof.
  induction fuel as [|fuel (IHv & IHi & IHm)]; [repeat split|].
  repeat split.
  - intros [|c r]; [reflexivity|]. cbn [scan_once skip_once].
    destruct (Ascii.eqb c DQ).
    { pose proof (skip_string_agrees r) as H.
      destruct (scanstring r); cbn [agree]; try exact I; now rewrite H. }
    destruct (Ascii.eqb c "{").
    { destruct (skip_ws r) as [|c1 r1]; [reflexivity|].
      destruct (Ascii.eqb c1 DQ); [apply IHm|].
      destruct (Ascii.eqb c1 "}"); reflexivity. }
    destruct (Ascii.eqb c "[").
    { destruct (skip_ws r) as [|c1 r1]; [reflexivity|].
      destruct (Ascii.eqb c1 "]"); [reflexivity | apply IHi]. }
    apply skip_atom_agrees.
  - intros acc s. cbn [parse_items skip_items].
    pose proof (IHv s) as H.
    destruct (scan_once fuel s) as [v r| | |]; cbn [agree] in H;
      try exact I; [|now rewrite H].
    rewrite H. destruct (skip_ws r) as [|c r1]; [reflexivity|].
    destruct (Ascii.eqb c "]"); [reflexivity|].
    destruct (Ascii.eqb c ","); [apply IHi | reflexivity].
  - intros acc s. cbn [parse_members skip_members].
    pose proof (skip_string_agrees s) as Hk.
    destruct (scanstring s) as [k r| | |]; try exact I; [|now rewrite Hk].
    rewrite Hk. destruct (skip_ws r) as [|c r1]; [reflexivity|].
    destruct (Ascii.eqb c ":"); [|reflexivity].
    pose proof (IHv (skip_ws r1)) as H.
    destruct (scan_once fuel (skip_ws r1)) as [v r2| | |]; cbn [agree] in H;
      try exact I; [|now rewrite H].
    rewrite H. destruct (skip_ws r2) as [|c2 r3]; [reflexivity|].
    destruct (Ascii.eqb c2 "}"); [reflexivity|].
    destruct (Ascii.eqb c2 ","); [|reflexivity].
    destruct (skip_ws r3) as [|c3 r4]; [reflexivity|].
    destruct (Ascii.eqb c3 DQ); [apply IHm | reflexivity].
Qed.

(** A float is outside the embedding; a float followed by text that
    cannot follow it is not JSON text, and raises. *)
Lemma loads_float_examples :
  loads "1.5" = Unmodelled
  /\ loads "1.5/" = JSONDecodeError
  /\ loads "[NaN, 1" = JSONDecodeError
  /\ loads "NaNaN" = JSONDecodeError.
Proof. repeat split. Qed.

(* ================================================================== *)
(** * The hosts *)
(* ================================================================== *)

(** A line that decodes is not blank. *)
Lemma decoded_not_blank :
  forall line v, loads (strip line) = Decoded v -> is_empty (strip line) = false.
Proof.
  intros line v H. destruct (strip line); [discriminate H | reflexivity].
Qed.

Lemma field_get :
  forall d k default,
    get (PyDict d) k default =
    Return (match dict_get d k with Some v => v | None => default end).
Proof. reflexivity. Qed.

Lemma get_none :
  forall d k, get (PyDict d) k PyNone = Return (field d k).
Proof. reflexivity. Qed.

(** Case analysis on the outcome of the first computation of a [bind]. *)
Ltac break_bind :=
  match goal with
  | H : context [bind ?m _] |- _ => destruct m eqn:?; cbn [bind] in H
  end.

(** ** State of a host across a request *)

Lemma eq_str_true :
  forall v a, eq_str v a = true -> v = PyStr a.
Proof.
  intros v a H. destruct v; try discriminate H.
  apply String.eqb_eq in H. now subst.
Qed.

(** The dispatch of [handle_request], branch by branch; both hosts have the
    same one. *)
Ltac host_request H request :=
  let d := fresh "d" in
  destruct request as [| | | | |d]; try discriminate H;
  rewrite !get_none, field_get in H; cbn [bind] in H;
  exists d; split; [reflexivity|];
  destruct (eq_str (field d "method") "initialize") eqn:E1;
  [ apply eq_str_true in E1; rewrite E1 in *;
    cbn [eq_str String.eqb Ascii.eqb Bool.eqb] in *;
    break_bind; inversion H; subst; rewrite ?orb_false_r;
    repeat split; try discriminate; auto
  | destruct (eq_str (field d "method") "initialized") eqn:E2;
    [ inversion H; subst; cbn; rewrite ?orb_true_r; repeat split; auto
    | rewrite ?orb_false_r;
      destruct (eq_str (field d "method") "tools/list") eqn:E3;
      [ inversion H; subst; repeat split; try discriminate; auto
      | destruct (eq_str (field d "method") "tools/call") eqn:E4;
        [ break_bind; inversion H; subst;
          repeat split; try discriminate; auto
        | inversion H; subst; repeat split; try discriminate; auto ] ] ] ].

(** A request that returns is a dictionary; it leaves the descriptors
    alone, sets the flag exactly when its method is [initialized], and that
    is also the one case without a response. *)
Lemma mock_handle_request_state :
  forall self w request self' r,
    MockMCPServer.handle_request self w request = Return (self', r) ->
    exists d, request = PyDict d
      /\ MockMCPServer.tools self' = MockMCPServer.tools self
      /\ MockMCPServer.initialized self' =
         MockMCPServer.initialized self
         || eq_str (field d "method") "initialized"
      /\ (r = None <-> eq_str (field d "method") "initialized" = true).
Proof.
  intros self w request self' r H. unfold MockMCPServer.handle_request in H.
  host_request H request.
Qed.

Lemma http_handle_request_state :
  forall self w request self' r,
    HttpMCPServer.handle_request self w request = Return (self', r) ->
    exists d, request = PyDict d
      /\ HttpMCPServer.tools self' = HttpMCPServer.tools self
      /\ HttpMCPServer.initialized self' =
         HttpMCPServer.initialized self
         || eq_str (field d "method") "initialized"
      /\ (r = None <-> eq_str (field d "method") "initialized" = true).
Proof.
  intros self w request self' r H. unfold HttpMCPServer.handle_request in H.
  host_request H request.
Qed.

Lemma known_method_false :
  forall m, known_method m = false ->
    String.eqb m "initialize" = false /\ String.eqb m "initialized" = false
    /\ String.eqb m "tools/list" = false /\ String.eqb m "tools/call" = false.
Proof.
  unfold known_method, known_methods. cbn [existsb]. intros m H.
  repeat (apply orb_false_elim in H; destruct H as [? H]). auto.
Qed.

(** ** One line of a host's loop, and a whole run *)

Lemma mock_run_line_state :
  forall self w line self' out,
    MockMCPServer.run_line self w line = Some (self', out) ->
    MockMCPServer.tools self' = MockMCPServer.tools self
    /\ MockMCPServer.initialized self' =
       MockMCPServer.initialized self || handshake_complete line.
Proof.
  intros self w line self' out H.
  unfold MockMCPServer.run_line in H. unfold handshake_complete.
  destruct (is_empty (strip line)) eqn:Hb.
  { destruct (strip line); [|discriminate Hb]. inversion H; subst.
    cbn. now rewrite orb_false_r. }
  destruct (loads (strip line)) as [request| |]; try discriminate H.
  - destruct (MockMCPServer.handle_request self w request) as [[s r]|e] eqn:Hr.
    + apply mock_handle_request_state in Hr.
      destruct Hr as (d & -> & Ht & Hi & _).
      destruct r; inversion H; subst; auto.
    + inversion H; subst. split; [reflexivity|].
      unfold MockMCPServer.handle_request in Hr.
      destruct request; try (now rewrite orb_false_r).
      rewrite !get_none, field_get in Hr. cbn [bind] in Hr.
      destruct (eq_str (field d "method") "initialized") eqn:E2;
        [|now rewrite orb_false_r].
      apply eq_str_true in E2. rewrite E2 in Hr. discriminate Hr.
  - inversion H; subst. now rewrite orb_false_r.
Qed.

Lemma http_run_line_state :
  forall self w line self' out,
    HttpMCPServer.run_line self w line = Some (self', out) ->
    HttpMCPServer.tools self' = HttpMCPServer.tools self
    /\ HttpMCPServer.initialized self' =
       HttpMCPServer.initialized self || handshake_complete line.
Proof.
  intros self w line self' out H.
  unfold HttpMCPServer.run_line in H. unfold handshake_complete.
  destruct (is_empty (strip line)) eqn:Hb.
  { destruct (strip line); [|discriminate Hb]. inversion H; subst.
    cbn. now rewrite orb_false_r. }
  destruct (loads (strip line)) as [request| |]; try discriminate H.
  - destruct (HttpMCPServer.handle_request self w request) as [[s r]|e] eqn:Hr.
    + apply http_handle_request_state in Hr.
      destruct Hr as (d & -> & Ht & Hi & _).
      destruct r; inversion H; subst; auto.
    + inversion H; subst. split; [reflexivity|].
      unfold HttpMCPServer.handle_request in Hr.
      destruct request; try (now rewrite orb_false_r).
      rewrite !get_none, field_get in Hr. cbn [bind] in Hr.
      destruct (eq_str (field d "method") "initialized") eqn:E2;
        [|now rewrite orb_false_r].
      apply eq_str_true in E2. rewrite E2 in Hr. discriminate Hr.
  - inversion H; subst. now rewrite orb_false_r.
Qed.

Lemma mock_run_state :
  forall stdin self self' out,
    MockMCPServer.run self stdin = Some (self', out) ->
    MockMCPServer.tools self' = MockMCPServer.tools self
    /\ MockMCPServer.initialized self' =
       MockMCPServer.initialized self
       || existsb (fun i => handshake_complete (snd i)) stdin.
Proof.
  induction stdin as [|[w line] rest IH]; intros self self' out H.
  - inversion H; subst. cbn. now rewrite orb_false_r.
  - cbn [MockMCPServer.run] in H.
    destruct (MockMCPServer.run_line self w line) as [[s1 o1]|] eqn:H1;
      [|discriminate H].
    destruct (MockMCPServer.run s1 rest) as [[s2 o2]|] eqn:H2;
      [|discriminate H].
    inversion H; subst. apply mock_run_line_state in H1. apply IH in H2.
    destruct H1 as [T1 I1], H2 as [T2 I2]. cbn [existsb snd].
    rewrite T2, T1, I2, I1. now rewrite orb_assoc.
Qed.

Lemma http_run_state :
  forall stdin self self' out,
    HttpMCPServer.run self stdin = Some (self', out) ->
    HttpMCPServer.tools self' = HttpMCPServer.tools self
    /\ HttpMCPServer.initialized self' =
       HttpMCPServer.initialized self
       || existsb (fun i => handshake_complete (snd i)) stdin.
Proof.
  induction stdin as [|[w line] rest IH]; intros self self' out H.
  - inversion H; subst. cbn. now rewrite orb_false_r.
  - cbn [HttpMCPServer.run] in H.
    destruct (HttpMCPServer.run_line self w line) as [[s1 o1]|] eqn:H1;
      [|discriminate H].
    destruct (HttpMCPServer.run s1 rest) as [[s2 o2]|] eqn:H2;
      [|discriminate H].
    inversion H; subst. apply http_run_line_state in H1. apply IH in H2.
    destruct H1 as [T1 I1], H2 as [T2 I2]. cbn [existsb snd].
    rewrite T2, T1, I2, I1. now rewrite orb_assoc.
Qed.

(** A run of the mock host over lines within the embedding has a model. *)
Lemma mock_run_line_total :
  forall self w line, modelled line ->
    exists self' out, MockMCPServer.run_line self w line = Some (self', out).
Proof.
  intros self w line H. unfold modelled in H. unfold MockMCPServer.run_line.
  destruct (is_empty (strip line)); [eauto|].
  destruct (loads (strip line)) as [request| |]; [|eauto|now elim H].
  destruct (MockMCPServer.handle_request self w request) as [[s [r|]]|e];
    eauto.
Qed.

Lemma mock_run_total :
  forall stdin self, Forall (fun i => modelled (snd i)) stdin ->
    exists self' out, MockMCPServer.run self stdin = Some (self', out).
Proof.
  induction stdin as [|[w line] rest IH]; intros self H; [cbn; eauto|].
  inversion H as [|? ? Hl Hr]; subst. cbn [snd] in Hl. cbn [MockMCPServer.run].
  destruct (mock_run_line_total self w line Hl) as (s1 & o1 & ->).
  destruct (IH s1 Hr) as (s2 & o2 & ->). eauto.
Qed.

(* ================================================================== *)
(** * Lemmas on trimming and on the relay *)
(* ================================================================== *)

Lemma rstrip_newline : forall s, rstrip (s ++ newline) = rstrip s.
Proof.
  induction s as [|c r IH]; [reflexivity|].
  cbn [append rstrip]. now rewrite IH.
Qed.

Lemma lstrip_newline :
  forall s, lstrip s <> EmptyString -> lstrip (s ++ newline) = lstrip s ++ newline.
Proof.
  induction s as [|c r IH]; intro H; [now elim H|].
  cbn [append lstrip] in *. destruct (isspace c); auto.
Qed.

Lemma lstrip_newline_blank :
  forall s, lstrip s = EmptyString -> lstrip (s ++ newline) = EmptyString.
Proof.
  induction s as [|c r IH]; intro H; [reflexivity|].
  cbn [append lstrip] in *. destruct (isspace c); [auto | discriminate H].
Qed.

Lemma strip_newline : forall s, strip (s ++ newline) = strip s.
Proof.
  intro s. unfold strip. destruct (lstrip s) eqn:E.
  - now rewrite lstrip_newline_blank.
  - rewrite lstrip_newline by (rewrite E; discriminate).
    rewrite E. apply rstrip_newline.
Qed.

Lemma strip_print_dumps : forall v, strip (print (dumps v)) = dumps v.
Proof. intro v. unfold print. now rewrite strip_newline, strip_dumps. Qed.

Lemma wf_field :
  forall d k v, wf (PyDict d) -> dict_get d k = Some v -> wf v.
Proof.
  intros d k v H. apply wf_dict in H. destruct H as [_ H].
  induction H as [|[k' v'] d Hv Hd IH]; cbn [dict_get]; [discriminate|].
  destruct (String.eqb k' k); [|exact IH].
  intro E. inversion E; subst. exact Hv.
Qed.

(** The error envelope that a host writes is read back unchanged from its
    line, whenever the id it carries came out of a decoded request. *)
Lemma error_response_decodes :
  forall request_id code message,
    wf request_id ->
    loads (strip (print (dumps (MockMCPServer.error_response request_id code
                                  message))))
    = Decoded (MockMCPServer.error_response request_id code message).
Proof.
  intros request_id code message H. rewrite strip_print_dumps.
  apply loads_dumps_plain. cbn. repeat split; auto.
  - repeat constructor; cbn; intuition discriminate.
  - repeat constructor; cbn; intuition discriminate.
Qed.

Lemma registered_false_mock :
  forall v, registered (MockMCPServer.tools MockMCPServer.init) v = false ->
    eq_str v "echo" = false /\ eq_str v "add" = false
    /\ eq_str v "get_time" = false.
Proof.
  intros v H. unfold registered in H. cbn in H.
  repeat (apply orb_false_elim in H; destruct H as [? H]). auto.
Qed.

Lemma registered_false_http :
  forall v, registered (HttpMCPServer.tools HttpMCPServer.init) v = false ->
    eq_str v "fetch_url" = false /\ eq_str v "check_weather" = false
    /\ eq_str v "get_time" = false /\ eq_str v "calculate" = false.
Proof.
  intros v H. unfold registered in H. cbn in H.
  repeat (apply orb_false_elim in H; destruct H as [? H]). auto.
Qed.

Lemma relay_forward_running :
  forall self spawn line d p,
    loads line = Decoded (PyDict d) ->
    child_of self spawn = Some p ->
    MCPToolsClient.handle_request self spawn line =
    let self1 := {| MCPToolsClient.initialized := MCPToolsClient.initialized self;
                    MCPToolsClient.server_process := Some p |} in
    match MCPToolsClient.send_to_server self1 line with
    | None => None
    | Some (self2, Some l) =>
        if is_empty l
        then Some (self2, MCPToolsClient.error_response (field d "id") (-32603)
                            "No response from server")
        else Some (self2, l)
    | Some (self2, None) =>
        Some (self2, MCPToolsClient.error_response (field d "id") (-32603)
                       "No response from server")
    end.
Proof.
  intros self spawn line d p Hdec Hc.
  unfold MCPToolsClient.handle_request, MCPToolsClient.forward. rewrite Hdec.
  rewrite !get_none. cbn [bind]. unfold child_of in Hc.
  destruct self as [ini sp]. cbn [MCPToolsClient.server_process] in *.
  destruct sp as [q|].
  - inversion Hc; subst q. cbn [negb MCPToolsClient.initialized].
    destruct (MCPToolsClient.send_to_server _ line) as [[s2 [l|]]|];
      [destruct (is_empty l)| |]; reflexivity.
  - subst spawn. cbn [MCPToolsClient.start_server negb MCPToolsClient.initialized].
    destruct (MCPToolsClient.send_to_server _ line) as [[s2 [l|]]|];
      [destruct (is_empty l)| |]; reflexivity.
Qed.

(** In the HTTP host the handlers [fetch_url] and [calculate] catch what
    goes wrong inside them and answer with [is_error] true. *)
Lemma calculate_failure_is_soft :
  forall w d e,
    HttpMCPServer.eval_expr w
      (match dict_get d "expression" with Some v => v | None => PyStr "" end)
    = inr e ->
    HttpMCPServer.calculate w (PyDict d)
    = Return (HttpMCPServer.tool_result
                ("Error evaluating expression: " ++ e) true).
Proof.
  intros w d e H. unfold HttpMCPServer.calculate. rewrite field_get.
  cbn [bind]. now rewrite H.
Qed.

(* ================================================================== *)
(** * The properties of the specification *)
(* ================================================================== *)

(** Claim C1, as amended.  A host writes no output line for a decoded
    envelope exactly when the method of the envelope is the
    handshake-complete method [initialized], whether the envelope carries
    an [id] or not; it then sets the flag.  Every other decoded envelope,
    one without [id] included, is answered with exactly one line. *)
Theorem silent_exactly_on_initialized :
  forall (line : string) (d : list (string * pyval)),
    loads (strip line) = Decoded (PyDict d) ->
    (forall self w,
        if eq_str (field d "method") "initialized"
        then MockMCPServer.run_line self w line =
             Some ({| MockMCPServer.initialized := true;
                      MockMCPServer.tools := MockMCPServer.tools self |}, [])
        else exists self' out,
            MockMCPServer.run_line self w line = Some (self', [out]))
    /\
    (forall self w,
        if eq_str (field d "method") "initialized"
        then HttpMCPServer.run_line self w line =
             Some ({| HttpMCPServer.initialized := true;
                      HttpMCPServer.tools := HttpMCPServer.tools self |}, [])
        else exists self' out,
            HttpMCPServer.run_line self w line = Some (self', [out])).
Proof.
  intros line d Hdec. pose proof (decoded_not_blank _ _ Hdec) as Hne.
  split; intros self w.
  - unfold MockMCPServer.run_line. rewrite Hne, Hdec.
    destruct (eq_str (field d "method") "initialized") eqn:E.
    + unfold MockMCPServer.handle_request. rewrite !get_none, field_get.
      cbn [bind]. apply eq_str_true in E. rewrite E. reflexivity.
    + destruct (MockMCPServer.handle_request self w (PyDict d))
        as [[s [r|]]|e] eqn:Hr; eauto.
      apply mock_handle_request_state in Hr.
      destruct Hr as (d' & Hd & _ & _ & Hn). inversion Hd; subst d'.
      destruct Hn as [Hn _]. rewrite Hn in E by reflexivity. discriminate E.
  - unfold HttpMCPServer.run_line. rewrite Hne, Hdec.
    destruct (eq_str (field d "method") "initialized") eqn:E.
    + unfold HttpMCPServer.handle_request. rewrite !get_none, field_get.
      cbn [bind]. apply eq_str_true in E. rewrite E. reflexivity.
    + destruct (HttpMCPServer.handle_request self w (PyDict d))
        as [[s [r|]]|e] eqn:Hr; eauto.
      apply http_handle_request_state in Hr.
      destruct Hr as (d' & Hd & _ & _ & Hn). inversion Hd; subst d'.
      destruct Hn as [Hn _]. rewrite Hn in E by reflexivity. discriminate E.
Qed.

Lemma silent_exactly_on_initialized_witness :
  loads (strip list_without_id)
  = Decoded (PyDict [("jsonrpc", PyStr "2.0"); ("method", PyStr "tools/list")])
  /\ exists self' out,
      MockMCPServer.run_line MockMCPServer.init noon list_without_id
      = Some (self', [out]).
Proof.
  split; [reflexivity|].
  exact (proj1 (silent_exactly_on_initialized list_without_id
                  [("jsonrpc", PyStr "2.0"); ("method", PyStr "tools/list")]
                  eq_refl) MockMCPServer.init noon).
Defined.

(** Claim C1, as stated, fails: a catalog-list envelope that carries no
    [id] is a notification, and the host answers it with one line, whose
    [id] is null. *)
Lemma notification_answered :
  loads (strip list_without_id)
  = Decoded (PyDict [("jsonrpc", PyStr "2.0"); ("method", PyStr "tools/list")])
  /\ dict_get [("jsonrpc", PyStr "2.0"); ("method", PyStr "tools/list")] "id"
     = None
  /\ MockMCPServer.run_line MockMCPServer.init noon list_without_id
     = Some (MockMCPServer.init,
             [print (dumps (PyDict
                [("jsonrpc", PyStr "2.0");
                 ("id", PyNone);
                 ("result",
                   PyDict [("tools",
                            PyList (MockMCPServer.tools MockMCPServer.init))])]))]).
Proof. repeat split. Qed.

(** Claim C2 fails on the code.  A tool call of [get_time] whose
    [timezone] argument is the number 5 fails inside the handler, on
    [timezone.upper()]; nothing in [get_time] catches the exception, and
    the loop of [run] answers with the protocol error -32603 and a null
    id, in place of a success response carrying [is_error] true. *)
Theorem get_time_failure_is_protocol_error :
  forall self w,
    HttpMCPServer.run_line self w get_time_numeric_zone
    = Some (self,
            [print (dumps (error_envelope PyNone (-32603)
                             "'int' object has no attribute 'upper'"))]).
Proof. intros self w. reflexivity. Qed.

(** Claim C3.  For every line that decodes to a request envelope with an
    [id] and with a method that is a string other than the four known
    ones, each host writes exactly one line: the error envelope with code
    -32601, the [id] of the request, and a message that names the method.
    The state of the host is unchanged. *)
Theorem unknown_method_error :
  forall (line : string) (d : list (string * pyval)) (m : string)
         (request_id : pyval),
    loads (strip line) = Decoded (PyDict d) ->
    dict_get d "method" = Some (PyStr m) ->
    dict_get d "id" = Some request_id ->
    known_method m = false ->
    (forall self w,
        MockMCPServer.run_line self w line =
        Some (self,
              [print (dumps (error_envelope request_id (-32601)
                               ("Method not found: " ++ m)))]))
    /\
    (forall self w,
        HttpMCPServer.run_line self w line =
        Some (self,
              [print (dumps (error_envelope request_id (-32601)
                               ("Method not found: " ++ m)))])).
Proof.
  intros line d m request_id Hdec Hm Hid Hk.
  pose proof (decoded_not_blank _ _ Hdec) as Hne.
  destruct (known_method_false _ Hk) as (E1 & E2 & E3 & E4).
  split; intros self w.
  - unfold MockMCPServer.run_line. rewrite Hne, Hdec.
    unfold MockMCPServer.handle_request. rewrite !field_get, Hm, Hid.
    cbn [bind eq_str]. rewrite E1, E2, E3, E4. reflexivity.
  - unfold HttpMCPServer.run_line. rewrite Hne, Hdec.
    unfold HttpMCPServer.handle_request. rewrite !field_get, Hm, Hid.
    cbn [bind eq_str]. rewrite E1, E2, E3, E4. reflexivity.
Qed.

Lemma unknown_method_error_witness :
  known_method "resources/list" = false
  /\ MockMCPServer.run_line MockMCPServer.init noon unknown_method_request
     = Some (MockMCPServer.init,
             [print (js "{'jsonrpc': '2.0', 'id': 7, 'error': {'code': -32601, 'message': 'Method not found: resources/list'}}")])
  /\ HttpMCPServer.run_line HttpMCPServer.init offline unknown_method_request
     = Some (HttpMCPServer.init,
             [print (js "{'jsonrpc': '2.0', 'id': 7, 'error': {'code': -32601, 'message': 'Method not found: resources/list'}}")]).
Proof.
  split; [reflexivity|].
  exact ((fun H => conj (proj1 H MockMCPServer.init noon)
                        (proj2 H HttpMCPServer.init offline))
           (unknown_method_error unknown_method_request
              [("jsonrpc", PyStr "2.0"); ("id", PyInt 7);
               ("method", PyStr "resources/list")]
              "resources/list" (PyInt 7)
              eq_refl eq_refl eq_refl eq_refl)).
Defined.

(** Claim C4.  Decoding the encoding of a value gives the value back, for
    every value in which no dictionary has a key twice, and so for every
    envelope variant.  The encoding holds no line feed, and the value is
    also read back from the printed line the way the run loops read it,
    trimmed first. *)
Theorem decode_encode :
  forall v : pyval,
    wf v ->
    loads (dumps v) = Decoded v
    /\ contains_char "010" (dumps v) = false
    /\ loads (strip (print (dumps v))) = Decoded v.
Proof.
  intros v H. split; [now apply loads_dumps_plain|].
  split; [apply dumps_one_line|].
  rewrite strip_print_dumps. now apply loads_dumps_plain.
Qed.

Lemma envelope_variants_wf : wf envelope_variants.
Proof.
  cbn. repeat split; repeat constructor; cbn; intuition discriminate.
Qed.

Lemma decode_encode_witness :
  loads (dumps envelope_variants) = Decoded envelope_variants
  /\ contains_char "010" (dumps envelope_variants) = false
  /\ loads (strip (print (dumps envelope_variants))) = Decoded envelope_variants.
Proof. exact (decode_encode envelope_variants envelope_variants_wf). Defined.

(** Claim C5, as amended.  While the child runs and takes the request, for
    every line that decodes to a request envelope the relay appends the
    trimmed line and a line feed to the child's input, reads exactly one
    line from the child's output and, when that line is not blank, writes
    it trimmed of the whitespace around it and ended by a line feed.  The
    output is the child's reply line, byte for byte, whenever the reply has
    no whitespace around it besides its final line feed. *)
Theorem relay_forwards_reply :
  forall (self : MCPToolsClient.t) (spawn : option MCPToolsClient.Popen)
         (line : string) (d : list (string * pyval))
         (p : MCPToolsClient.Popen) (reply : string)
         (rest : list MCPToolsClient.read_event),
    loads (strip line) = Decoded (PyDict d) ->
    MCPToolsClient.server_process self = Some p ->
    MCPToolsClient.broken p = false ->
    MCPToolsClient.stdout_data p = MCPToolsClient.Line reply :: rest ->
    is_empty (strip reply) = false ->
    MCPToolsClient.run_line self spawn line =
    Some ({| MCPToolsClient.initialized := MCPToolsClient.initialized self;
             MCPToolsClient.server_process :=
               Some {| MCPToolsClient.stdin_data :=
                         (MCPToolsClient.stdin_data p
                          ++ [(strip line ++ newline)%string])%list;
                       MCPToolsClient.stdout_data := rest;
                       MCPToolsClient.broken := false;
                       MCPToolsClient.terminated :=
                         MCPToolsClient.terminated p |} |},
          [print (strip reply)])
    /\ (forall body,
          reply = body ++ newline -> strip body = body ->
          print (strip reply) = reply).
Proof.
  intros self spawn line d p reply rest Hdec Hp Hb Hout Hne.
  pose proof (decoded_not_blank _ _ Hdec) as Hl.
  split.
  - unfold MCPToolsClient.run_line. rewrite Hl.
    assert (Hc : child_of self spawn = Some p) by (unfold child_of; now rewrite Hp).
    rewrite (relay_forward_running _ _ _ _ _ Hdec Hc). cbv zeta.
    unfold MCPToolsClient.send_to_server.
    cbn [MCPToolsClient.server_process MCPToolsClient.initialized].
    rewrite Hb, Hout.
    destruct (is_empty reply) eqn:Er.
    { destruct reply; [discriminate Hne | discriminate Er]. }
    rewrite Hne. cbv beta iota. rewrite Hne. reflexivity.
  - intros body -> Hbody. rewrite strip_newline, Hbody. reflexivity.
Qed.

Lemma relay_forwards_reply_witness :
  MCPToolsClient.run_line (running [tools_reply ++ newline]) None tools_request
  = Some ({| MCPToolsClient.initialized := false;
             MCPToolsClient.server_process :=
               Some {| MCPToolsClient.stdin_data := [tools_request ++ newline];
                       MCPToolsClient.stdout_data := [];
                       MCPToolsClient.broken := false;
                       MCPToolsClient.terminated := false |} |},
          [tools_reply ++ newline]).
Proof.
  exact (proj1 (relay_forwards_reply (running [tools_reply ++ newline]) None
                  tools_request
                  [("jsonrpc", PyStr "2.0"); ("id", PyInt 1);
                   ("method", PyStr "tools/list"); ("params", PyDict [])]
                  _ (tools_reply ++ newline) []
                  eq_refl eq_refl eq_refl eq_refl eq_refl)).
Defined.

(** Claim C5, as stated, fails: a reply line that starts with a space is
    relayed without the space, so not byte for byte. *)
Lemma relay_trims_reply :
  MCPToolsClient.run_line (running [" " ++ tools_reply ++ newline]) None
    tools_request
  = Some ({| MCPToolsClient.initialized := false;
             MCPToolsClient.server_process :=
               Some {| MCPToolsClient.stdin_data := [tools_request ++ newline];
                       MCPToolsClient.stdout_data := [];
                       MCPToolsClient.broken := false;
                       MCPToolsClient.terminated := false |} |},
          [tools_reply ++ newline])
  /\ tools_reply ++ newline <> " " ++ tools_reply ++ newline.
Proof. split; [reflexivity | discriminate]. Qed.

(** Claim C6, as amended.  Whenever the attempt of the relay to obtain a
    reply for a request envelope returns without one, because there is no
    child and none can be started, or because the child it talks to does
    not take the request, raises on the read, is at the end of its output,
    or gives a blank line, the relay writes the error envelope with code
    -32603 and the [id] of the request.  While the child takes the request,
    prints nothing and keeps its output open, the relay waits in
    [readline]: the turn never returns and nothing is written. *)
Theorem no_reply_internal_error :
  forall (self : MCPToolsClient.t) (spawn : option MCPToolsClient.Popen)
         (line : string) (d : list (string * pyval)),
    loads (strip line) = Decoded (PyDict d) ->
    (match child_of self spawn with
     | Some p => replies p = false /\ silent p = false
     | None => True
     end ->
     exists self',
       MCPToolsClient.run_line self spawn line =
       Some (self',
             [print (dumps (error_envelope (field d "id") (-32603)
                              match child_of self spawn with
                              | Some _ => "No response from server"
                              | None => "Failed to start MCP server"
                              end))]))
    /\
    (forall p,
        child_of self spawn = Some p -> silent p = true ->
        MCPToolsClient.run_line self spawn line = None).
Proof.
  intros self spawn line d Hdec.
  pose proof (decoded_not_blank _ _ Hdec) as Hne.
  unfold MCPToolsClient.run_line. rewrite Hne. split.
  - intro Hno. destruct (child_of self spawn) as [p|] eqn:Hc.
    + rewrite (relay_forward_running _ _ _ _ _ Hdec Hc). cbv zeta.
      unfold MCPToolsClient.send_to_server. cbn [MCPToolsClient.server_process].
      unfold replies, silent in Hno. destruct Hno as [Hno Hs].
      destruct (MCPToolsClient.broken p); [eexists; reflexivity|].
      cbn [negb andb] in Hno, Hs.
      destruct (MCPToolsClient.stdout_data p) as [|[l| |] rest];
        try discriminate Hs; try (eexists; reflexivity).
      apply negb_false_iff in Hno.
      destruct (is_empty l); [eexists; reflexivity|].
      rewrite Hno. eexists; reflexivity.
    + unfold child_of in Hc. destruct self as [ini [q|]]; [discriminate Hc|].
      cbn [MCPToolsClient.server_process] in Hc. subst spawn.
      unfold MCPToolsClient.handle_request, MCPToolsClient.forward.
      rewrite Hdec, !get_none. cbn. eexists; reflexivity.
  - intros p Hc Hs.
    rewrite (relay_forward_running _ _ _ _ _ Hdec Hc). cbv zeta.
    unfold MCPToolsClient.send_to_server. cbn [MCPToolsClient.server_process].
    unfold silent in Hs. apply andb_prop in Hs. destruct Hs as [Hb Hs].
    apply negb_true_iff in Hb. rewrite Hb.
    destruct (MCPToolsClient.stdout_data p); [reflexivity | discriminate Hs].
Qed.

Lemma no_reply_internal_error_witness :
  loads (strip request_five)
  = Decoded (PyDict [("jsonrpc", PyStr "2.0"); ("id", PyInt 5);
                     ("method", PyStr "tools/list"); ("params", PyDict [])])
  /\ child_of MCPToolsClient.init None = None
  /\ exists self',
      MCPToolsClient.run_line MCPToolsClient.init None request_five =
      Some (self',
            [print (js "{'jsonrpc': '2.0', 'id': 5, 'error': {'code': -32603, 'message': 'Failed to start MCP server'}}")]).
Proof.
  split; [reflexivity|]. split; [reflexivity|].
  exact (proj1 (no_reply_internal_error MCPToolsClient.init None request_five
                  [("jsonrpc", PyStr "2.0"); ("id", PyInt 5);
                   ("method", PyStr "tools/list"); ("params", PyDict [])]
                  eq_refl) I).
Defined.

(** Claim C6, as stated, fails: a child that is running, takes the
    request and prints nothing produces no reply line, and the relay
    writes no error envelope for the request with id 5: it waits in
    [readline] and the turn never returns.  This is the relay in front of
    a host that stays silent, as the HTTP host does on a handshake-complete
    envelope. *)
Lemma silent_child_never_answered :
  loads (strip request_five)
  = Decoded (PyDict [("jsonrpc", PyStr "2.0"); ("id", PyInt 5);
                     ("method", PyStr "tools/list"); ("params", PyDict [])])
  /\ MCPToolsClient.server_process (running [])
     = Some {| MCPToolsClient.stdin_data := [];
               MCPToolsClient.stdout_data := [];
               MCPToolsClient.broken := false;
               MCPToolsClient.terminated := false |}
  /\ MCPToolsClient.run_line (running []) None request_five = None
  /\ HttpMCPServer.run_line HttpMCPServer.init offline initialized_notification
     = Some ({| HttpMCPServer.initialized := true;
                HttpMCPServer.tools := HttpMCPServer.tools HttpMCPServer.init |},
             []).
Proof. repeat split. Qed.

(** Claim C7, as amended.  For every input line that is not blank and
    is not JSON text, so that decoding it raises [JSONDecodeError], each of
    the three processes writes exactly one line, the error envelope with
    code -32700 and a null id, keeps its state, and goes on with the lines
    that follow. *)
Theorem parse_error_reported :
  forall (line : string),
    blank line = false ->
    loads (strip line) = JSONDecodeError ->
    (forall self w rest,
        MockMCPServer.run self ((w, line) :: rest) =
        followed_by
          [print (dumps (error_envelope PyNone (-32700) "Parse error"))]
          (MockMCPServer.run self rest))
    /\
    (forall self w rest,
        HttpMCPServer.run self ((w, line) :: rest) =
        followed_by
          [print (dumps (error_envelope PyNone (-32700) "Parse error"))]
          (HttpMCPServer.run self rest))
    /\
    (forall self spawn rest,
        MCPToolsClient.run_loop self ((spawn, line) :: rest) =
        followed_by
          [print (dumps (error_envelope PyNone (-32700) "Parse error"))]
          (MCPToolsClient.run_loop self rest)).
Proof.
  intros line Hb Hdec. unfold blank in Hb. repeat split.
  - intros self w rest. cbn [MockMCPServer.run].
    unfold MockMCPServer.run_line. rewrite Hb, Hdec. reflexivity.
  - intros self w rest. cbn [HttpMCPServer.run].
    unfold HttpMCPServer.run_line. rewrite Hb, Hdec. reflexivity.
  - intros self spawn rest. cbn [MCPToolsClient.run_loop].
    unfold MCPToolsClient.run_line, MCPToolsClient.handle_request.
    rewrite Hb, Hdec. reflexivity.
Qed.

Lemma parse_error_reported_witness :
  blank "{oops" = false
  /\ loads (strip "{oops") = JSONDecodeError
  /\ MockMCPServer.run MockMCPServer.init [(noon, "{oops"); (noon, list_without_id)]
     = followed_by
         [print (js "{'jsonrpc': '2.0', 'id': null, 'error': {'code': -32700, 'message': 'Parse error'}}")]
         (MockMCPServer.run MockMCPServer.init [(noon, list_without_id)])
  /\ HttpMCPServer.run HttpMCPServer.init
       [(offline, "{oops"); (offline, list_without_id)]
     = followed_by
         [print (js "{'jsonrpc': '2.0', 'id': null, 'error': {'code': -32700, 'message': 'Parse error'}}")]
         (HttpMCPServer.run HttpMCPServer.init [(offline, list_without_id)])
  /\ MCPToolsClient.run_loop MCPToolsClient.init
       [(None, "{oops"); (None, request_five)]
     = followed_by
         [print (js "{'jsonrpc': '2.0', 'id': null, 'error': {'code': -32700, 'message': 'Parse error'}}")]
         (MCPToolsClient.run_loop MCPToolsClient.init [(None, request_five)]).
Proof.
  split; [reflexivity|]. split; [reflexivity|].
  exact ((fun H =>
            conj (proj1 H MockMCPServer.init noon [(noon, list_without_id)])
              (conj (proj1 (proj2 H) HttpMCPServer.init offline
                       [(offline, list_without_id)])
                    (proj2 (proj2 H) MCPToolsClient.init None
                       [(None, request_five)])))
           (parse_error_reported "{oops" eq_refl eq_refl)).
Defined.

(** Claim C7, as stated, fails: a blank line cannot be decoded either, and
    the three processes skip it without any output. *)
Lemma blank_line_skipped :
  loads newline = JSONDecodeError
  /\ MockMCPServer.run_line MockMCPServer.init noon newline
     = Some (MockMCPServer.init, [])
  /\ HttpMCPServer.run_line HttpMCPServer.init offline newline
     = Some (HttpMCPServer.init, [])
  /\ MCPToolsClient.run_line MCPToolsClient.init None newline
     = Some (MCPToolsClient.init, []).
Proof. repeat split. Qed.

(** Claim C8.  In every state that a host reaches from its construction,
    initialized or not, a catalog-list request is answered with one line,
    the success response whose [tools] is the list of descriptors built by
    the constructor, in its order; the answer does not depend on the
    state, and the state is unchanged. *)
Theorem tools_list_fixed :
  forall (line : string) (d : list (string * pyval)),
    loads (strip line) = Decoded (PyDict d) ->
    dict_get d "method" = Some (PyStr "tools/list") ->
    (forall stdin self out w,
        MockMCPServer.run MockMCPServer.init stdin = Some (self, out) ->
        MockMCPServer.run_line self w line =
        Some (self,
              [print (dumps (PyDict
                 [("jsonrpc", PyStr "2.0");
                  ("id", field d "id");
                  ("result",
                    PyDict [("tools",
                             PyList (MockMCPServer.tools MockMCPServer.init))])]))]))
    /\
    (forall stdin self out w,
        HttpMCPServer.run HttpMCPServer.init stdin = Some (self, out) ->
        HttpMCPServer.run_line self w line =
        Some (self,
              [print (dumps (PyDict
                 [("jsonrpc", PyStr "2.0");
                  ("id", field d "id");
                  ("result",
                    PyDict [("tools",
                             PyList (HttpMCPServer.tools HttpMCPServer.init))])]))])).
Proof.
  intros line d Hdec Hm. pose proof (decoded_not_blank _ _ Hdec) as Hne.
  split; intros stdin self out w Hrun.
  - apply mock_run_state in Hrun. destruct Hrun as [Ht _].
    unfold MockMCPServer.run_line. rewrite Hne, Hdec.
    unfold MockMCPServer.handle_request. rewrite !field_get, Hm.
    cbn [bind eq_str String.eqb Ascii.eqb Bool.eqb].
    unfold MockMCPServer.handle_tools_list. now rewrite Ht.
  - apply http_run_state in Hrun. destruct Hrun as [Ht _].
    unfold HttpMCPServer.run_line. rewrite Hne, Hdec.
    unfold HttpMCPServer.handle_request. rewrite !field_get, Hm.
    cbn [bind eq_str String.eqb Ascii.eqb Bool.eqb].
    unfold HttpMCPServer.handle_tools_list. now rewrite Ht.
Qed.

Lemma tools_list_fixed_witness :
  MockMCPServer.run MockMCPServer.init [(noon, initialized_notification)]
  = Some ({| MockMCPServer.initialized := true;
             MockMCPServer.tools := MockMCPServer.tools MockMCPServer.init |},
          [])
  /\ MockMCPServer.run_line
       {| MockMCPServer.initialized := true;
          MockMCPServer.tools := MockMCPServer.tools MockMCPServer.init |}
       noon tools_request
     = Some ({| MockMCPServer.initialized := true;
                MockMCPServer.tools := MockMCPServer.tools MockMCPServer.init |},
             [print (dumps (PyDict
                [("jsonrpc", PyStr "2.0");
                 ("id", PyInt 1);
                 ("result",
                   PyDict [("tools",
                            PyList (MockMCPServer.tools MockMCPServer.init))])]))]).
Proof.
  split; [reflexivity|].
  exact (proj1 (tools_list_fixed tools_request
                  [("jsonrpc", PyStr "2.0"); ("id", PyInt 1);
                   ("method", PyStr "tools/list"); ("params", PyDict [])]
                  eq_refl eq_refl)
           [(noon, initialized_notification)] _ [] noon eq_refl).
Defined.

(** Claim C9, as amended.  For every line that decodes to a
    tool-invocation request with an [id], whose [params] is missing or is
    an object, and whose [params.name] (None when the key is missing) is
    not the name of a registered tool, each host writes exactly one line:
    the error envelope with code -32602, the [id] of the request, and a
    message that names the tool.  The state of the host is unchanged. *)
Theorem unknown_tool_error :
  forall (line : string) (d p : list (string * pyval)) (request_id : pyval),
    loads (strip line) = Decoded (PyDict d) ->
    dict_get d "method" = Some (PyStr "tools/call") ->
    dict_get d "id" = Some request_id ->
    dict_get d "params" = Some (PyDict p)
    \/ (dict_get d "params" = None /\ p = []) ->
    (registered (MockMCPServer.tools MockMCPServer.init) (field p "name")
     = false ->
     forall self w,
       MockMCPServer.run_line self w line =
       Some (self,
             [print (dumps (error_envelope request_id (-32602)
                              ("Unknown tool: " ++ str (field p "name"))))]))
    /\
    (registered (HttpMCPServer.tools HttpMCPServer.init) (field p "name")
     = false ->
     forall self w,
       HttpMCPServer.run_line self w line =
       Some (self,
             [print (dumps (error_envelope request_id (-32602)
                              ("Unknown tool: " ++ str (field p "name"))))])).
Proof.
  intros line d p request_id Hdec Hm Hid Hp.
  pose proof (decoded_not_blank _ _ Hdec) as Hne.
  assert (Hparams : match dict_get d "params" with
                    | Some v => v
                    | None => PyDict []
                    end = PyDict p).
  { destruct Hp as [-> | [-> ->]]; reflexivity. }
  split; intros Hreg self w.
  - apply registered_false_mock in Hreg. destruct Hreg as (E1 & E2 & E3).
    unfold MockMCPServer.run_line. rewrite Hne, Hdec.
    unfold MockMCPServer.handle_request.
    rewrite !field_get, Hm, Hid, Hparams.
    cbn [bind eq_str String.eqb Ascii.eqb Bool.eqb].
    unfold MockMCPServer.handle_tool_call. rewrite get_none, field_get.
    cbn [bind]. rewrite E1, E2, E3. reflexivity.
  - apply registered_false_http in Hreg. destruct Hreg as (E1 & E2 & E3 & E4).
    unfold HttpMCPServer.run_line. rewrite Hne, Hdec.
    unfold HttpMCPServer.handle_request.
    rewrite !field_get, Hm, Hid, Hparams.
    cbn [bind eq_str String.eqb Ascii.eqb Bool.eqb].
    unfold HttpMCPServer.handle_tool_call. rewrite get_none, field_get.
    cbn [bind]. rewrite E1, E2, E3, E4. reflexivity.
Qed.

Lemma unknown_tool_error_witness :
  registered (MockMCPServer.tools MockMCPServer.init) (PyStr "multiply") = false
  /\ registered (HttpMCPServer.tools HttpMCPServer.init) (PyStr "multiply")
     = false
  /\ MockMCPServer.run_line MockMCPServer.init noon unknown_tool_request
     = Some (MockMCPServer.init,
             [print (js "{'jsonrpc': '2.0', 'id': 8, 'error': {'code': -32602, 'message': 'Unknown tool: multiply'}}")])
  /\ HttpMCPServer.run_line HttpMCPServer.init offline unknown_tool_request
     = Some (HttpMCPServer.init,
             [print (js "{'jsonrpc': '2.0', 'id': 8, 'error': {'code': -32602, 'message': 'Unknown tool: multiply'}}")]).
Proof.
  split; [reflexivity|]. split; [reflexivity|].
  exact ((fun H => conj (proj1 H eq_refl MockMCPServer.init noon)
                        (proj2 H eq_refl HttpMCPServer.init offline))
           (unknown_tool_error unknown_tool_request
              [("jsonrpc", PyStr "2.0"); ("id", PyInt 8);
               ("method", PyStr "tools/call");
               ("params",
                 PyDict [("name", PyStr "multiply");
                         ("arguments",
                           PyDict [("a", PyInt 2); ("b", PyInt 3)])])]
              [("name", PyStr "multiply");
               ("arguments", PyDict [("a", PyInt 2); ("b", PyInt 3)])]
              (PyInt 8) eq_refl eq_refl eq_refl (or_introl eq_refl))).
Defined.

(** Claim C9, as stated, fails: a tool-invocation request with id 8 whose
    [params] is null names no registered tool, and both hosts answer it
    with code -32603 and a null id, because [params.get] raises. *)
Lemma null_params_internal_error :
  loads (strip null_params_request)
  = Decoded (PyDict [("jsonrpc", PyStr "2.0"); ("id", PyInt 8);
                     ("method", PyStr "tools/call"); ("params", PyNone)])
  /\ MockMCPServer.run_line MockMCPServer.init noon null_params_request
     = Some (MockMCPServer.init,
             [print (dumps (error_envelope PyNone (-32603)
                              "'NoneType' object has no attribute 'get'"))])
  /\ HttpMCPServer.run_line HttpMCPServer.init offline null_params_request
     = Some (HttpMCPServer.init,
             [print (dumps (error_envelope PyNone (-32603)
                              "'NoneType' object has no attribute 'get'"))]).
Proof. repeat split. Qed.

(** Claim C10.  The flag [initialized] is false at construction.  Every
    run over lines within the embedding ends, and after it the flag is
    true exactly when it was true before or some line of the run was an
    envelope with the handshake-complete method: no other line sets it,
    nothing resets it, and a second handshake-complete envelope leaves it
    true. *)
Theorem initialized_flag :
  forall stdin self,
    Forall (fun i => modelled (snd i)) stdin ->
    exists self' out,
      MockMCPServer.run self stdin = Some (self', out)
      /\ MockMCPServer.initialized MockMCPServer.init = false
      /\ MockMCPServer.initialized self' =
         MockMCPServer.initialized self
         || existsb (fun i => handshake_complete (snd i)) stdin.
Proof.
  intros stdin self H.
  destruct (mock_run_total stdin self H) as (self' & out & Hrun).
  exists self', out. split; [exact Hrun|]. split; [reflexivity|].
  now apply mock_run_state in Hrun.
Qed.

Lemma handshake_session_modelled :
  Forall (fun i => modelled (snd i)) handshake_session.
Proof. repeat constructor; discriminate. Qed.

Lemma initialized_flag_witness :
  exists self' out,
    MockMCPServer.run MockMCPServer.init handshake_session = Some (self', out)
    /\ MockMCPServer.initialized MockMCPServer.init = false
    /\ MockMCPServer.initialized self' =
       MockMCPServer.initialized MockMCPServer.init
       || existsb (fun i => handshake_complete (snd i)) handshake_session.
Proof.
  exact (initialized_flag handshake_session MockMCPServer.init
           handshake_session_modelled).
Defined.

(** The flag of the HTTP host behaves the same way. *)
Lemma http_initialized_flag :
  forall stdin self self' out,
    HttpMCPServer.run self stdin = Some (self', out) ->
    HttpMCPServer.initialized HttpMCPServer.init = false
    /\ HttpMCPServer.initialized self' =
       HttpMCPServer.initialized self
       || existsb (fun i => handshake_complete (snd i)) stdin.
Proof.
  intros stdin self self' out H. split; [reflexivity|].
  now apply http_run_state in H.
Qed.

(* ================================================================== *)
(** * Further properties of the code *)
(* ================================================================== *)

(** ** The tools of the mock host *)

(** Reaching the body of a tool in the mock host. *)
Lemma mock_tool_call :
  forall line d p a tool self w,
    calls line d p a tool ->
    MockMCPServer.run_line self w line =
    match MockMCPServer.handle_tool_call w (field d "id") (PyDict p) with
    | Return r => Some (self, [print (dumps r)])
    | Raise e =>
        Some (self, [print (dumps (error_envelope PyNone (-32603)
                                     (exn_str e)))])
    end.
Proof.
  intros line d p a tool self w (Hdec & Hm & Hp & _ & _).
  unfold MockMCPServer.run_line.
  rewrite (decoded_not_blank _ _ Hdec), Hdec.
  unfold MockMCPServer.handle_request. rewrite !field_get, Hm, Hp.
  cbn [bind eq_str String.eqb Ascii.eqb Bool.eqb]. unfold field.
  destruct (MockMCPServer.handle_tool_call w _ (PyDict p)); reflexivity.
Qed.

(** Property X1.  The tool [add] of the mock host, called with integers
    for [a] and [b] (each of them 0 when missing), is answered with one
    line: the success envelope with the request's id, whose text is
    [Result: ] followed by the sum in decimal.  The state is unchanged. *)
Theorem mock_add_integers :
  forall line d p a self w (x y : Z),
    calls line d p a "add" ->
    get_or a "a" (PyInt 0) = PyInt x ->
    get_or a "b" (PyInt 0) = PyInt y ->
    MockMCPServer.run_line self w line =
    Some (self,
          [print (dumps (success_response (field d "id")
                           (tool_output
                              ("Result: " ++ str_of_int (x + y)) false)))]).
Proof.
  intros line d p a self w x y Hc Ha Hb.
  rewrite (mock_tool_call _ _ _ _ _ self w Hc).
  destruct Hc as (_ & _ & _ & Hn & Harg).
  unfold MockMCPServer.handle_tool_call. rewrite !field_get, Hn.
  unfold arguments_of in Harg. rewrite Harg.
  cbn [bind eq_str String.eqb Ascii.eqb Bool.eqb].
  rewrite !field_get. unfold get_or in Ha, Hb. rewrite Ha, Hb. reflexivity.
Qed.

Lemma mock_add_integers_witness :
  MockMCPServer.run_line MockMCPServer.init noon
    (tool_call_line 2 "add" (PyDict two_and_three))
  = Some (MockMCPServer.init,
          [print (js "{'jsonrpc': '2.0', 'id': 2, 'result': {'content': [{'type': 'text', 'text': 'Result: 5'}], 'is_error': false}}")]).
Proof.
  exact (mock_add_integers (tool_call_line 2 "add" (PyDict two_and_three))
           (tool_call 2 "add" (PyDict two_and_three))
           (tool_params "add" (PyDict two_and_three)) two_and_three
           MockMCPServer.init noon 2 3
           (conj eq_refl (conj eq_refl (conj eq_refl (conj eq_refl eq_refl))))
           eq_refl eq_refl).
Defined.

(** Property X2.  When [a + b] raises in the tool [add] of the mock host
    (a text and a number, say), nothing catches the exception before the
    loop of [run]: the answer is the error envelope with code -32603, the
    text of the exception as message, and a null id in place of the
    request's id.  The state is unchanged. *)
Theorem mock_add_failure :
  forall line d p a self w e,
    calls line d p a "add" ->
    add (get_or a "a" (PyInt 0)) (get_or a "b" (PyInt 0)) = Raise e ->
    MockMCPServer.run_line self w line =
    Some (self,
          [print (dumps (error_envelope PyNone (-32603)
                           (exn_str e)))]).
Proof.
  intros line d p a self w e Hc He.
  rewrite (mock_tool_call _ _ _ _ _ self w Hc).
  destruct Hc as (_ & _ & _ & Hn & Harg).
  unfold MockMCPServer.handle_tool_call. rewrite !field_get, Hn.
  unfold arguments_of in Harg. rewrite Harg.
  cbn [bind eq_str String.eqb Ascii.eqb Bool.eqb].
  rewrite !field_get. cbn [bind]. unfold get_or in He. rewrite He.
  reflexivity.
Qed.

Lemma mock_add_failure_witness :
  MockMCPServer.run_line MockMCPServer.init noon
    (tool_call_line 3 "add" (PyDict text_and_three))
  = Some (MockMCPServer.init,
          [print (js "{'jsonrpc': '2.0', 'id': null, 'error': {'code': -32603, 'message': 'can only concatenate str (not \'int\') to str'}}")]).
Proof.
  exact (mock_add_failure (tool_call_line 3 "add" (PyDict text_and_three))
           (tool_call 3 "add" (PyDict text_and_three))
           (tool_params "add" (PyDict text_and_three)) text_and_three
           MockMCPServer.init noon _
           (conj eq_refl (conj eq_refl (conj eq_refl (conj eq_refl eq_refl))))
           eq_refl).
Defined.

(** ** Values of a decoded request *)

Lemma wf_field_default :
  forall d k, wf (PyDict d) -> wf (field d k).
Proof.
  intros d k H. unfold field. destruct (dict_get d k) eqn:E; [|exact I].
  exact (wf_field d k p H E).
Qed.

Lemma wf_success :
  forall request_id result,
    wf request_id -> wf result -> wf (success_response request_id result).
Proof.
  intros request_id result Hi Hr. cbn. repeat split; auto.
  repeat constructor; cbn; intuition discriminate.
Qed.

Lemma wf_error :
  forall request_id code message,
    wf request_id -> wf (error_envelope request_id code message).
Proof.
  intros request_id code message Hi. cbn. repeat split; auto;
    repeat constructor; cbn; intuition discriminate.
Qed.

Lemma wf_text_result : forall text, wf (tool_output text false).
Proof.
  intro text. cbn. repeat split; repeat constructor; cbn; intuition discriminate.
Qed.

Lemma wf_tool_result : forall text flag, wf (tool_output text flag).
Proof.
  intros text flag. cbn.
  repeat split; repeat constructor; cbn; intuition discriminate.
Qed.

Lemma wf_mock_tools : wf (PyList (MockMCPServer.tools MockMCPServer.init)).
Proof.
  cbn. repeat split; repeat constructor; cbn; intuition discriminate.
Qed.

Lemma wf_http_tools : wf (PyList (HttpMCPServer.tools HttpMCPServer.init)).
Proof.
  cbn. repeat split; repeat constructor; cbn; intuition discriminate.
Qed.

(** Property X3.  The tool [echo] of the mock host is answered with one
    line which, trimmed and decoded, is the success envelope with the
    request's id and the text [Echo: ] followed by [str] of the message
    (the empty text when there is none), whatever the message holds. *)
Theorem mock_echo_round_trip :
  forall line d p a self w,
    calls line d p a "echo" ->
    exists out,
      MockMCPServer.run_line self w line = Some (self, [out])
      /\ loads (strip out)
         = Decoded (success_response (field d "id")
                      (tool_output
                         ("Echo: " ++ str (get_or a "message" (PyStr ""))) false)).
Proof.
  intros line d p a self w Hc.
  rewrite (mock_tool_call _ _ _ _ _ self w Hc).
  destruct Hc as (Hdec & _ & _ & Hn & Harg).
  unfold MockMCPServer.handle_tool_call. rewrite !field_get, Hn.
  unfold arguments_of in Harg. rewrite Harg.
  cbn [bind eq_str String.eqb Ascii.eqb Bool.eqb]. rewrite field_get.
  cbn [bind]. eexists. split; [reflexivity|].
  rewrite strip_print_dumps. apply loads_dumps_plain.
  apply wf_success; [|apply wf_text_result].
  apply wf_field_default. exact (loads_wf _ _ Hdec).
Qed.

Lemma mock_echo_round_trip_witness :
  exists out,
    MockMCPServer.run_line MockMCPServer.init noon
      (tool_call_line 4 "echo" (PyDict hello))
    = Some (MockMCPServer.init, [out])
    /\ loads (strip out)
       = Decoded (success_response (PyInt 4)
                    (tool_output "Echo: hello" false)).
Proof.
  exact (mock_echo_round_trip (tool_call_line 4 "echo" (PyDict hello))
           (tool_call 4 "echo" (PyDict hello))
           (tool_params "echo" (PyDict hello)) hello
           MockMCPServer.init noon
           (conj eq_refl (conj eq_refl (conj eq_refl (conj eq_refl eq_refl))))).
Defined.

(** ** The shape of what a host answers *)

Lemma carries_wf : forall r, wf r -> carries (print (dumps r)) r.
Proof.
  intros r H. split; [reflexivity|]. split; [apply dumps_one_line|].
  rewrite strip_print_dumps. now apply loads_dumps_plain.
Qed.

Lemma mock_tool_call_shape :
  forall w request_id params r,
    MockMCPServer.handle_tool_call w request_id params = Return r ->
    response_for request_id r /\ (wf request_id -> wf r).
Proof.
  intros w request_id params r H. unfold MockMCPServer.handle_tool_call in H.
  destruct (get params "name" PyNone) as [tool_name|]; cbn [bind] in H;
    [|discriminate H].
  destruct (get params "arguments" (PyDict [])) as [arguments|];
    cbn [bind] in H; [|discriminate H].
  assert (Good : forall text,
             response_for request_id
               (success_response request_id (tool_output text false))
             /\ (wf request_id ->
                 wf (success_response request_id
                       (tool_output text false)))).
  { intro text. split; [left; eexists; reflexivity|].
    intro Hi. apply wf_success; [exact Hi | apply wf_text_result]. }
  destruct (eq_str tool_name "echo").
  { destruct (get arguments "message" (PyStr "")); cbn [bind] in H;
      [|discriminate H]. inversion H; subst. apply Good. }
  destruct (eq_str tool_name "add").
  { destruct (get arguments "a" (PyInt 0)); cbn [bind] in H; [|discriminate H].
    destruct (get arguments "b" (PyInt 0)); cbn [bind] in H; [|discriminate H].
    destruct (add a a0); cbn [bind] in H; [|discriminate H].
    inversion H; subst. apply Good. }
  destruct (eq_str tool_name "get_time").
  { cbn [bind] in H. inversion H; subst. apply Good. }
  cbn [bind] in H. inversion H; subst. split.
  - right. eexists _, _. reflexivity.
  - intro Hi. now apply wf_error.
Qed.

Lemma mock_response_shape :
  forall self w d self' r,
    MockMCPServer.handle_request self w (PyDict d) = Return (self', Some r) ->
    response_for (field d "id") r
    /\ (wf (PyList (MockMCPServer.tools self)) -> wf (PyDict d) -> wf r).
Proof.
  intros self w d self' r H. unfold MockMCPServer.handle_request in H.
  rewrite !get_none, field_get in H. cbn [bind] in H.
  destruct (eq_str (field d "method") "initialize").
  { unfold MockMCPServer.handle_initialize in H.
    destruct (get _ "client_info" (PyDict [])); cbn [bind] in H;
      [|discriminate H].
    inversion H; subst. split.
    - left. eexists. reflexivity.
    - intros _ Hd. apply wf_success; [now apply wf_field_default|].
      cbn. repeat split; repeat constructor; cbn; intuition discriminate. }
  destruct (eq_str (field d "method") "initialized"); [discriminate H|].
  destruct (eq_str (field d "method") "tools/list").
  { inversion H; subst. split.
    - left. eexists. reflexivity.
    - intros Ht Hd. apply wf_success; [now apply wf_field_default|].
      cbn. repeat split; [repeat constructor; cbn; intuition discriminate|].
      exact Ht. }
  destruct (eq_str (field d "method") "tools/call").
  { destruct (MockMCPServer.handle_tool_call w (field d "id") _) as [x|]
      eqn:E; cbn [bind] in H; [|discriminate H].
    inversion H; subst. apply mock_tool_call_shape in E.
    destruct E as [Hs Hw].
    split; [exact Hs|]. intros _ Hd. apply Hw. now apply wf_field_default. }
  inversion H; subst. split.
  - right. eexists _, _. reflexivity.
  - intros _ Hd. apply wf_error. now apply wf_field_default.
Qed.

Lemma http_tool_call_shape :
  forall w request_id params r,
    HttpMCPServer.handle_tool_call w request_id params = Return r ->
    response_for request_id r /\ (wf request_id -> wf r).
Proof.
  intros w request_id params r H. unfold HttpMCPServer.handle_tool_call in H.
  destruct (get params "name" PyNone) as [tool_name|]; cbn [bind] in H;
    [|discriminate H].
  destruct (get params "arguments" (PyDict [])) as [arguments|];
    cbn [bind] in H; [|discriminate H].
  assert (Good : forall text flag,
             response_for request_id
               (success_response request_id
                  (tool_output text flag))
             /\ (wf request_id ->
                 wf (success_response request_id
                       (tool_output text flag)))).
  { intros text flag. split; [left; eexists; reflexivity|].
    intro Hi. apply wf_success; [exact Hi | apply wf_tool_result]. }
  destruct (eq_str tool_name "fetch_url").
  { unfold HttpMCPServer.fetch_url in H.
    destruct (get arguments "url" (PyStr "")) as [url|]; cbn [bind] in H;
      [|discriminate H].
    destruct (HttpMCPServer.netloc w url) as [host|e];
      [destruct (negb _);
       [|destruct (HttpMCPServer.urlopen w url) as [[status content]|e]]|];
      inversion H; subst; apply Good. }
  destruct (eq_str tool_name "check_weather").
  { unfold HttpMCPServer.check_weather in H.
    destruct (get arguments "city" (PyStr "Unknown")); cbn [bind] in H;
      [|discriminate H]. inversion H; subst. apply Good. }
  destruct (eq_str tool_name "get_time").
  { unfold HttpMCPServer.get_time in H.
    destruct (get arguments "timezone" (PyStr "UTC")) as [tz|];
      cbn [bind] in H; [|discriminate H].
    destruct (HttpMCPServer.call_upper tz); cbn [bind] in H; [|discriminate H].
    inversion H; subst. apply Good. }
  destruct (eq_str tool_name "calculate").
  { unfold HttpMCPServer.calculate in H.
    destruct (get arguments "expression" (PyStr "")) as [ex|];
      cbn [bind] in H; [|discriminate H].
    destruct (HttpMCPServer.eval_expr w ex); inversion H; subst; apply Good. }
  cbn [bind] in H. inversion H; subst. split.
  - right. eexists _, _. reflexivity.
  - intro Hi. now apply wf_error.
Qed.

Lemma http_response_shape :
  forall self w d self' r,
    HttpMCPServer.handle_request self w (PyDict d) = Return (self', Some r) ->
    response_for (field d "id") r
    /\ (wf (PyList (HttpMCPServer.tools self)) -> wf (PyDict d) -> wf r).
Proof.
  intros self w d self' r H. unfold HttpMCPServer.handle_request in H.
  rewrite !get_none, field_get in H. cbn [bind] in H.
  destruct (eq_str (field d "method") "initialize").
  { unfold HttpMCPServer.handle_initialize in H.
    destruct (get _ "client_info" (PyDict [])); cbn [bind] in H;
      [|discriminate H].
    inversion H; subst. split.
    - left. eexists. reflexivity.
    - intros _ Hd. apply wf_success; [now apply wf_field_default|].
      cbn. repeat split; repeat constructor; cbn; intuition discriminate. }
  destruct (eq_str (field d "method") "initialized"); [discriminate H|].
  destruct (eq_str (field d "method") "tools/list").
  { inversion H; subst. split.
    - left. eexists. reflexivity.
    - intros Ht Hd. apply wf_success; [now apply wf_field_default|].
      cbn. repeat split; [repeat constructor; cbn; intuition discriminate|].
      exact Ht. }
  destruct (eq_str (field d "method") "tools/call").
  { destruct (HttpMCPServer.handle_tool_call w (field d "id") _) as [x|]
      eqn:E; cbn [bind] in H; [|discriminate H].
    inversion H; subst. apply http_tool_call_shape in E.
    destruct E as [Hs Hw].
    split; [exact Hs|]. intros _ Hd. apply Hw. now apply wf_field_default. }
  inversion H; subst. split.
  - right. eexists _, _. reflexivity.
  - intros _ Hd. apply wf_error. now apply wf_field_default.
Qed.

(** Property X4.  What a host answers to a line that decodes to an object
    is at most one line, and that line is either a response (success or
    error) carrying the [id] of that object, None when it has none, or the
    internal error with code -32603 and a null id.  No answer carries
    another id. *)
Theorem response_correlated :
  forall (line : string) (d : list (string * pyval)),
    loads (strip line) = Decoded (PyDict d) ->
    (forall self w,
        exists self' out,
          MockMCPServer.run_line self w line = Some (self', out)
          /\ (out = []
              \/ exists r, out = [print (dumps r)]
                   /\ (response_for (field d "id") r \/ internal_error r)))
    /\
    (forall self w,
        exists self' out,
          HttpMCPServer.run_line self w line = Some (self', out)
          /\ (out = []
              \/ exists r, out = [print (dumps r)]
                   /\ (response_for (field d "id") r \/ internal_error r))).
Proof.
  intros line d Hdec. pose proof (decoded_not_blank _ _ Hdec) as Hne.
  split; intros self w.
  - unfold MockMCPServer.run_line. rewrite Hne, Hdec.
    destruct (MockMCPServer.handle_request self w (PyDict d))
      as [[s [r|]]|e] eqn:Hr.
    + apply mock_response_shape in Hr. destruct Hr as [Hs _].
      eexists _, _. split; [reflexivity|]. right. eauto.
    + eexists _, _. split; [reflexivity|]. now left.
    + eexists _, _. split; [reflexivity|]. right. eexists. split; [reflexivity|].
      right. eexists. reflexivity.
  - unfold HttpMCPServer.run_line. rewrite Hne, Hdec.
    destruct (HttpMCPServer.handle_request self w (PyDict d))
      as [[s [r|]]|e] eqn:Hr.
    + apply http_response_shape in Hr. destruct Hr as [Hs _].
      eexists _, _. split; [reflexivity|]. right. eauto.
    + eexists _, _. split; [reflexivity|]. now left.
    + eexists _, _. split; [reflexivity|]. right. eexists. split; [reflexivity|].
      right. eexists. reflexivity.
Qed.

Lemma response_correlated_witness :
  exists self' out,
    HttpMCPServer.run_line HttpMCPServer.init offline unknown_method_request
    = Some (self', out)
    /\ (out = []
        \/ exists r, out = [print (dumps r)]
             /\ (response_for (PyInt 7) r \/ internal_error r)).
Proof.
  exact (proj2 (response_correlated unknown_method_request
                  [("jsonrpc", PyStr "2.0"); ("id", PyInt 7);
                   ("method", PyStr "resources/list")] eq_refl)
           HttpMCPServer.init offline).
Defined.

(** Property X5.  Every chunk that a host writes, whatever the line of
    input, is the encoding of a response envelope followed by one line
    feed, with no line feed inside, and a peer that trims and decodes the
    chunk gets that envelope back.  This is for a host whose list of tools
    is the constructor's, which every run preserves; a line has no output
    in the embedding only when its decoding is outside it. *)
Theorem output_lines_are_json :
  forall (line : string) (ms : MockMCPServer.t) (hs : HttpMCPServer.t),
    MockMCPServer.tools ms = MockMCPServer.tools MockMCPServer.init ->
    HttpMCPServer.tools hs = HttpMCPServer.tools HttpMCPServer.init ->
    (forall w,
        match MockMCPServer.run_line ms w line with
        | Some (_, out) =>
            Forall (fun chunk =>
                      exists request_id r,
                        carries chunk r /\ response_for request_id r) out
        | None => loads (strip line) = Unmodelled
        end)
    /\
    (forall w,
        match HttpMCPServer.run_line hs w line with
        | Some (_, out) =>
            Forall (fun chunk =>
                      exists request_id r,
                        carries chunk r /\ response_for request_id r) out
        | None => loads (strip line) = Unmodelled
        end).
Proof.
  intros line ms hs Hm Hh.
  assert (Err : forall code message,
             exists request_id r,
               carries (print (dumps (error_envelope PyNone code
                                        message))) r
               /\ response_for request_id r).
  { intros code message. eexists _, _. split.
    - apply carries_wf. now apply wf_error.
    - right. eexists _, _. reflexivity. }
  split; intro w.
  - unfold MockMCPServer.run_line.
    destruct (is_empty (strip line)); [constructor|].
    destruct (loads (strip line)) as [request| |] eqn:Hdec;
      [|repeat constructor; apply Err|reflexivity].
    pose proof (loads_wf _ _ Hdec) as Hwf.
    destruct (MockMCPServer.handle_request ms w request) as [[s [r|]]|e] eqn:Hr;
      [| constructor | repeat constructor; apply Err].
    destruct (mock_handle_request_state _ _ _ _ _ Hr) as (d & -> & _).
    apply mock_response_shape in Hr. destruct Hr as [Hs Hw].
    repeat constructor. eexists _, r. split; [|exact Hs].
    apply carries_wf. apply Hw; [|exact Hwf]. rewrite Hm. apply wf_mock_tools.
  - unfold HttpMCPServer.run_line.
    destruct (is_empty (strip line)); [constructor|].
    destruct (loads (strip line)) as [request| |] eqn:Hdec;
      [|repeat constructor; apply Err|reflexivity].
    pose proof (loads_wf _ _ Hdec) as Hwf.
    destruct (HttpMCPServer.handle_request hs w request) as [[s [r|]]|e] eqn:Hr;
      [| constructor | repeat constructor; apply Err].
    destruct (http_handle_request_state _ _ _ _ _ Hr) as (d & -> & _).
    apply http_response_shape in Hr. destruct Hr as [Hs Hw].
    repeat constructor. eexists _, r. split; [|exact Hs].
    apply carries_wf. apply Hw; [|exact Hwf]. rewrite Hh. apply wf_http_tools.
Qed.

Lemma output_lines_are_json_witness :
  match MockMCPServer.run_line MockMCPServer.init noon get_time_numeric_zone with
  | Some (_, out) =>
      Forall (fun chunk =>
                exists request_id r,
                  carries chunk r /\ response_for request_id r) out
  | None => loads (strip get_time_numeric_zone) = Unmodelled
  end.
Proof.
  exact (proj1 (output_lines_are_json get_time_numeric_zone
                  MockMCPServer.init HttpMCPServer.init eq_refl eq_refl) noon).
Defined.

Lemma get_not_dict :
  forall v k default, is_dict v = false ->
    get v k default = Raise (AttributeError (type_name v) "get").
Proof. intros [] k default H; try reflexivity; discriminate H. Qed.

(** Property X6.  A line of valid JSON that is not an object (a number, a
    text, a list, ...) is answered by each of the three processes with the
    error envelope of code -32603 and a null id, whose message is that of
    the AttributeError raised by [request.get].  The state is unchanged:
    the relay neither starts its child nor writes to it. *)
Theorem non_object_json :
  forall (line : string) (v : pyval),
    loads (strip line) = Decoded v ->
    is_dict v = false ->
    (forall self w,
        MockMCPServer.run_line self w line =
        Some (self,
              [print (dumps (error_envelope PyNone (-32603)
                               (no_get v)))]))
    /\
    (forall self w,
        HttpMCPServer.run_line self w line =
        Some (self,
              [print (dumps (error_envelope PyNone (-32603)
                               (no_get v)))]))
    /\
    (forall self spawn,
        MCPToolsClient.run_line self spawn line =
        Some (self,
              [print (dumps (error_envelope PyNone (-32603) (no_get v)))])).
Proof.
  intros line v Hdec Hv. pose proof (decoded_not_blank _ _ Hdec) as Hne.
  repeat split; intros self w.
  - unfold MockMCPServer.run_line, MockMCPServer.handle_request.
    rewrite Hne, Hdec, get_not_dict by exact Hv. reflexivity.
  - unfold HttpMCPServer.run_line, HttpMCPServer.handle_request.
    rewrite Hne, Hdec, get_not_dict by exact Hv. reflexivity.
  - unfold MCPToolsClient.run_line, MCPToolsClient.handle_request,
      MCPToolsClient.forward.
    rewrite Hne, Hdec, get_not_dict by exact Hv. reflexivity.
Qed.

Lemma non_object_json_witness :
  MCPToolsClient.run_line MCPToolsClient.init None "[1, 2]"
  = Some (MCPToolsClient.init,
          [print (dumps (error_envelope PyNone (-32603)
                           "'list' object has no attribute 'get'"))]).
Proof.
  exact (proj2 (proj2 (non_object_json "[1, 2]" (PyList [PyInt 1; PyInt 2])
                         eq_refl eq_refl))
           MCPToolsClient.init None).
Defined.

(** Property X7.  In both hosts the requests [initialize] and [tools/call]
    call [params.get]: when [params] is present and is not an object, the
    answer is the error envelope with code -32603 and a null id, not an
    invalid-params error with the request's id. *)
Theorem params_must_be_object :
  forall (line : string) (d : list (string * pyval)) (m : string) (v : pyval),
    loads (strip line) = Decoded (PyDict d) ->
    dict_get d "method" = Some (PyStr m) ->
    m = "initialize" \/ m = "tools/call" ->
    dict_get d "params" = Some v ->
    is_dict v = false ->
    (forall self w,
        MockMCPServer.run_line self w line =
        Some (self,
              [print (dumps (error_envelope PyNone (-32603)
                               (no_get v)))]))
    /\
    (forall self w,
        HttpMCPServer.run_line self w line =
        Some (self,
              [print (dumps (error_envelope PyNone (-32603)
                               (no_get v)))])).
Proof.
  intros line d m v Hdec Hm Hcase Hp Hv.
  pose proof (decoded_not_blank _ _ Hdec) as Hne.
  split; intros self w.
  - unfold MockMCPServer.run_line, MockMCPServer.handle_request.
    rewrite Hne, Hdec, !field_get, Hm, Hp. cbn [bind eq_str].
    destruct Hcase as [-> | ->]; cbn [String.eqb Ascii.eqb Bool.eqb];
      unfold MockMCPServer.handle_initialize, MockMCPServer.handle_tool_call;
      rewrite get_not_dict by exact Hv; reflexivity.
  - unfold HttpMCPServer.run_line, HttpMCPServer.handle_request.
    rewrite Hne, Hdec, !field_get, Hm, Hp. cbn [bind eq_str].
    destruct Hcase as [-> | ->]; cbn [String.eqb Ascii.eqb Bool.eqb];
      unfold HttpMCPServer.handle_initialize, HttpMCPServer.handle_tool_call;
      rewrite get_not_dict by exact Hv; reflexivity.
Qed.

Lemma params_must_be_object_witness :
  HttpMCPServer.run_line HttpMCPServer.init offline params_list_request
  = Some (HttpMCPServer.init,
          [print (dumps (error_envelope PyNone (-32603)
                           "'list' object has no attribute 'get'"))]).
Proof.
  exact (proj2 (params_must_be_object params_list_request
                  [("jsonrpc", PyStr "2.0"); ("id", PyInt 9);
                   ("method", PyStr "tools/call");
                   ("params", PyList [PyInt 1])]
                  "tools/call" (PyList [PyInt 1])
                  eq_refl eq_refl (or_intror eq_refl) eq_refl eq_refl)
           HttpMCPServer.init offline).
Defined.

(** ** The flag is never read *)

Lemma mock_handle_request_flag :
  forall i1 i2 t w request,
    match MockMCPServer.handle_request (MockMCPServer.mk i1 t) w request,
          MockMCPServer.handle_request (MockMCPServer.mk i2 t) w request with
    | Return (_, r1), Return (_, r2) => r1 = r2
    | Raise e1, Raise e2 => e1 = e2
    | _, _ => False
    end.
Proof.
  intros i1 i2 t w request. unfold MockMCPServer.handle_request.
  destruct (get request "method" PyNone) as [method|]; cbn [bind]; [|reflexivity].
  destruct (get request "params" (PyDict [])) as [params|]; cbn [bind];
    [|reflexivity].
  destruct (get request "id" PyNone) as [request_id|]; cbn [bind];
    [|reflexivity].
  destruct (eq_str method "initialize").
  { destruct (MockMCPServer.handle_initialize request_id params); reflexivity. }
  destruct (eq_str method "initialized"); [reflexivity|].
  destruct (eq_str method "tools/list"); [reflexivity|].
  destruct (eq_str method "tools/call"); [|reflexivity].
  destruct (MockMCPServer.handle_tool_call w request_id params); reflexivity.
Qed.

Lemma http_handle_request_flag :
  forall i1 i2 t w request,
    match HttpMCPServer.handle_request (HttpMCPServer.mk i1 t) w request,
          HttpMCPServer.handle_request (HttpMCPServer.mk i2 t) w request with
    | Return (_, r1), Return (_, r2) => r1 = r2
    | Raise e1, Raise e2 => e1 = e2
    | _, _ => False
    end.
Proof.
  intros i1 i2 t w request. unfold HttpMCPServer.handle_request.
  destruct (get request "method" PyNone) as [method|]; cbn [bind]; [|reflexivity].
  destruct (get request "params" (PyDict [])) as [params|]; cbn [bind];
    [|reflexivity].
  destruct (get request "id" PyNone) as [request_id|]; cbn [bind];
    [|reflexivity].
  destruct (eq_str method "initialize").
  { destruct (HttpMCPServer.handle_initialize request_id params); reflexivity. }
  destruct (eq_str method "initialized"); [reflexivity|].
  destruct (eq_str method "tools/list"); [reflexivity|].
  destruct (eq_str method "tools/call"); [|reflexivity].
  destruct (HttpMCPServer.handle_tool_call w request_id params); reflexivity.
Qed.

(** Property X8.  No host reads its flag [initialized]: two states that
    differ in the flag only give the same output for every line, so no
    request is refused before the handshake is complete. *)
Theorem flag_is_never_read :
  forall (line : string) (i1 i2 : bool),
    (forall t w,
        option_map snd (MockMCPServer.run_line (MockMCPServer.mk i1 t) w line)
        = option_map snd (MockMCPServer.run_line (MockMCPServer.mk i2 t) w line))
    /\
    (forall t w,
        option_map snd (HttpMCPServer.run_line (HttpMCPServer.mk i1 t) w line)
        = option_map snd (HttpMCPServer.run_line (HttpMCPServer.mk i2 t) w line)).
Proof.
  intros line i1 i2. split; intros t w.
  - unfold MockMCPServer.run_line.
    destruct (is_empty (strip line)); [reflexivity|].
    destruct (loads (strip line)) as [request| |]; try reflexivity.
    pose proof (mock_handle_request_flag i1 i2 t w request) as H.
    destruct (MockMCPServer.handle_request (MockMCPServer.mk i1 t) w request)
      as [[s1 r1]|e1],
      (MockMCPServer.handle_request (MockMCPServer.mk i2 t) w request)
      as [[s2 r2]|e2]; try contradiction; subst;
      [destruct r2|]; reflexivity.
  - unfold HttpMCPServer.run_line.
    destruct (is_empty (strip line)); [reflexivity|].
    destruct (loads (strip line)) as [request| |]; try reflexivity.
    pose proof (http_handle_request_flag i1 i2 t w request) as H.
    destruct (HttpMCPServer.handle_request (HttpMCPServer.mk i1 t) w request)
      as [[s1 r1]|e1],
      (HttpMCPServer.handle_request (HttpMCPServer.mk i2 t) w request)
      as [[s2 r2]|e2]; try contradiction; subst;
      [destruct r2|]; reflexivity.
Qed.

(** ** One answer for each line that asks for one *)

Lemma mock_run_line_count :
  forall self w line self' out,
    MockMCPServer.run_line self w line = Some (self', out) ->
    List.length out = if answered line then 1 else 0.
Proof.
  intros self w line self' out H. unfold answered, blank, handshake_complete.
  unfold MockMCPServer.run_line in H.
  destruct (is_empty (strip line)); [now inversion H|]. cbn [negb andb].
  destruct (loads (strip line)) as [request| |]; try discriminate H;
    [|now inversion H].
  destruct (MockMCPServer.handle_request self w request) as [[s r]|e] eqn:Hr.
  - destruct (mock_handle_request_state _ _ _ _ _ Hr) as (d & -> & _ & _ & Hn).
    destruct r as [r|]; inversion H; subst.
    + destruct (eq_str (field d "method") "initialized"); [|reflexivity].
      destruct Hn as [_ Hn]. discriminate (Hn eq_refl).
    + destruct Hn as [Hn _]. now rewrite (Hn eq_refl).
  - inversion H; subst. destruct request; try reflexivity.
    destruct (eq_str (field d "method") "initialized") eqn:E; [|reflexivity].
    unfold MockMCPServer.handle_request in Hr.
    rewrite !get_none, field_get in Hr. cbn [bind] in Hr.
    apply eq_str_true in E. rewrite E in Hr. discriminate Hr.
Qed.

Lemma http_run_line_count :
  forall self w line self' out,
    HttpMCPServer.run_line self w line = Some (self', out) ->
    List.length out = if answered line then 1 else 0.
Proof.
  intros self w line self' out H. unfold answered, blank, handshake_complete.
  unfold HttpMCPServer.run_line in H.
  destruct (is_empty (strip line)); [now inversion H|]. cbn [negb andb].
  destruct (loads (strip line)) as [request| |]; try discriminate H;
    [|now inversion H].
  destruct (HttpMCPServer.handle_request self w request) as [[s r]|e] eqn:Hr.
  - destruct (http_handle_request_state _ _ _ _ _ Hr) as (d & -> & _ & _ & Hn).
    destruct r as [r|]; inversion H; subst.
    + destruct (eq_str (field d "method") "initialized"); [|reflexivity].
      destruct Hn as [_ Hn]. discriminate (Hn eq_refl).
    + destruct Hn as [Hn _]. now rewrite (Hn eq_refl).
  - inversion H; subst. destruct request; try reflexivity.
    destruct (eq_str (field d "method") "initialized") eqn:E; [|reflexivity].
    unfold HttpMCPServer.handle_request in Hr.
    rewrite !get_none, field_get in Hr. cbn [bind] in Hr.
    apply eq_str_true in E. rewrite E in Hr. discriminate Hr.
Qed.

(** Property X9.  A run of a host over lines within the embedding ends, and
    writes as many lines as there are lines of input that are neither blank
    nor a handshake-complete envelope: one answer for each of these, none
    for the others. *)
Theorem one_answer_per_request :
  forall (lines : list string),
    Forall modelled lines ->
    (forall self ws,
        List.length ws = List.length lines ->
        exists self' out,
          MockMCPServer.run self (combine ws lines) = Some (self', out)
          /\ List.length out = List.length (filter answered lines))
    /\
    (forall self ws,
        List.length ws = List.length lines ->
        exists self' out,
          HttpMCPServer.run self (combine ws lines) = Some (self', out)
          /\ List.length out = List.length (filter answered lines)).
Proof.
  intros lines Hm. split.
  - induction Hm as [|line lines Hl Hm IH]; intros self ws Hlen.
    + destruct ws; [|discriminate Hlen]. cbn. eauto.
    + destruct ws as [|w ws]; [discriminate Hlen|]. injection Hlen as Hlen.
      cbn [combine MockMCPServer.run filter].
      destruct (mock_run_line_total self w line Hl) as (s1 & o1 & H1).
      rewrite H1. apply mock_run_line_count in H1.
      destruct (IH s1 ws Hlen) as (s2 & o2 & H2 & Hc). rewrite H2.
      eexists _, _. split; [reflexivity|]. rewrite List.length_app, H1, Hc.
      destruct (answered line); reflexivity.
  - induction Hm as [|line lines Hl Hm IH]; intros self ws Hlen.
    + destruct ws; [|discriminate Hlen]. cbn. eauto.
    + destruct ws as [|w ws]; [discriminate Hlen|]. injection Hlen as Hlen.
      cbn [combine HttpMCPServer.run filter].
      assert (exists s1 o1, HttpMCPServer.run_line self w line = Some (s1, o1))
        as (s1 & o1 & H1).
      { unfold modelled in Hl. unfold HttpMCPServer.run_line.
        destruct (is_empty (strip line)); [eauto|].
        destruct (loads (strip line)) as [request| |]; [|eauto|now elim Hl].
        destruct (HttpMCPServer.handle_request self w request)
          as [[s [r|]]|e]; eauto. }
      rewrite H1. apply http_run_line_count in H1.
      destruct (IH s1 ws Hlen) as (s2 & o2 & H2 & Hc). rewrite H2.
      eexists _, _. split; [reflexivity|]. rewrite List.length_app, H1, Hc.
      destruct (answered line); reflexivity.
Qed.

Lemma one_answer_per_request_witness :
  exists self' out,
    MockMCPServer.run MockMCPServer.init handshake_session = Some (self', out)
    /\ List.length out = 2.
Proof.
  refine (proj1 (one_answer_per_request
                   [tools_request; initialized_notification;
                    initialized_notification; list_without_id] _)
            MockMCPServer.init [noon; noon; noon; noon] eq_refl).
  repeat constructor; discriminate.
Defined.

(** ** Whitespace around a line *)

Lemma lstrip_all_space :
  forall pre s, all_space pre = true -> lstrip (pre ++ s) = lstrip s.
Proof.
  induction pre as [|c r IH]; intros s H; [reflexivity|].
  cbn [all_space] in H. apply andb_prop in H. destruct H as [Hc Hr].
  cbn [append lstrip]. rewrite Hc. auto.
Qed.

Lemma rstrip_all_space_nil :
  forall post, all_space post = true -> rstrip post = EmptyString.
Proof.
  induction post as [|c r IH]; intro H; [reflexivity|].
  cbn [all_space] in H. apply andb_prop in H. destruct H as [Hc Hr].
  cbn [rstrip]. now rewrite (IH Hr), Hc.
Qed.

Lemma rstrip_all_space :
  forall s post, all_space post = true -> rstrip (s ++ post) = rstrip s.
Proof.
  induction s as [|c r IH]; intros post H.
  - now apply rstrip_all_space_nil.
  - cbn [append rstrip]. now rewrite IH.
Qed.

Lemma lstrip_all_space_nil :
  forall post, all_space post = true -> lstrip post = EmptyString.
Proof.
  induction post as [|c r IH]; intro H; [reflexivity|].
  cbn [all_space] in H. apply andb_prop in H. destruct H as [Hc Hr].
  cbn [lstrip]. rewrite Hc. auto.
Qed.

Lemma strip_all_space :
  forall pre s post,
    all_space pre = true -> all_space post = true ->
    strip (pre ++ s ++ post) = strip s.
Proof.
  intros pre s post Hpre Hpost. unfold strip.
  rewrite lstrip_all_space by assumption. clear pre Hpre.
  induction s as [|c r IH].
  - cbn [append]. now rewrite lstrip_all_space_nil.
  - cbn [append lstrip]. destruct (isspace c); [exact IH|].
    change (String c (r ++ post)) with (String c r ++ post).
    now apply rstrip_all_space.
Qed.

Lemma rstrip_idem : forall s, rstrip (rstrip s) = rstrip s.
Proof.
  induction s as [|c r IH]; [reflexivity|].
  cbn [rstrip]. destruct (rstrip r) as [|c' r'] eqn:E.
  - destruct (isspace c) eqn:Ec; [reflexivity|]. cbn [rstrip]. now rewrite Ec.
  - cbn [rstrip] in *. rewrite IH. reflexivity.
Qed.

Lemma lstrip_head :
  forall s c r, lstrip s = String c r -> isspace c = false.
Proof.
  induction s as [|x s IH]; intros c r H; [discriminate H|].
  cbn [lstrip] in H. destruct (isspace x) eqn:E; [eauto|].
  inversion H; subst. exact E.
Qed.

Lemma rstrip_head :
  forall c r, isspace c = false -> exists r', rstrip (String c r) = String c r'.
Proof.
  intros c r H. cbn [rstrip]. destruct (rstrip r); [rewrite H|]; eauto.
Qed.

Lemma strip_idem : forall s, strip (strip s) = strip s.
Proof.
  intro s. unfold strip. destruct (lstrip s) as [|c r] eqn:E; [reflexivity|].
  apply lstrip_head in E. destruct (rstrip_head c r E) as [r' Hr].
  rewrite Hr. cbn [lstrip]. rewrite E. rewrite <- Hr. apply rstrip_idem.
Qed.

(** Property X10.  The three loops trim each line first: whitespace before
    and after a line of input changes neither the output nor the state. *)
Theorem surrounding_whitespace_ignored :
  forall (pre line post : string),
    all_space pre = true -> all_space post = true ->
    (forall self w,
        MockMCPServer.run_line self w (pre ++ line ++ post)
        = MockMCPServer.run_line self w line)
    /\ (forall self w,
        HttpMCPServer.run_line self w (pre ++ line ++ post)
        = HttpMCPServer.run_line self w line)
    /\ (forall self spawn,
        MCPToolsClient.run_line self spawn (pre ++ line ++ post)
        = MCPToolsClient.run_line self spawn line).
Proof.
  intros pre line post Hpre Hpost.
  pose proof (strip_all_space pre line post Hpre Hpost) as H.
  repeat split; intros;
    unfold MockMCPServer.run_line, HttpMCPServer.run_line,
      MCPToolsClient.run_line; now rewrite H.
Qed.

Lemma surrounding_whitespace_ignored_witness :
  HttpMCPServer.run_line HttpMCPServer.init offline
    ("  " ++ tools_request ++ newline)
  = HttpMCPServer.run_line HttpMCPServer.init offline tools_request.
Proof.
  exact (proj1 (proj2 (surrounding_whitespace_ignored "  " tools_request
                         newline eq_refl eq_refl))
           HttpMCPServer.init offline).
Defined.

(** ** The tools of the HTTP host *)

Lemma http_tool_call :
  forall line d p a tool self w,
    calls line d p a tool ->
    HttpMCPServer.run_line self w line =
    match HttpMCPServer.handle_tool_call w (field d "id") (PyDict p) with
    | Return r => Some (self, [print (dumps r)])
    | Raise e =>
        Some (self, [print (dumps (error_envelope PyNone (-32603)
                                     (exn_str e)))])
    end.
Proof.
  intros line d p a tool self w (Hdec & Hm & Hp & _ & _).
  unfold HttpMCPServer.run_line.
  rewrite (decoded_not_blank _ _ Hdec), Hdec.
  unfold HttpMCPServer.handle_request. rewrite !field_get, Hm, Hp.
  cbn [bind eq_str String.eqb Ascii.eqb Bool.eqb]. unfold field.
  destruct (HttpMCPServer.handle_tool_call w _ (PyDict p)); reflexivity.
Qed.

Lemma http_tool_body :
  forall line d p a tool self w,
    calls line d p a tool ->
    HttpMCPServer.run_line self w line =
    match
      (if String.eqb tool "fetch_url" then
         Some (HttpMCPServer.fetch_url w (PyDict a))
       else if String.eqb tool "check_weather" then
         Some (HttpMCPServer.check_weather w (PyDict a))
       else if String.eqb tool "get_time" then
         Some (HttpMCPServer.get_time w (PyDict a))
       else if String.eqb tool "calculate" then
         Some (HttpMCPServer.calculate w (PyDict a))
       else None)
    with
    | Some (Return result) =>
        Some (self, [print (dumps (success_response (field d "id") result))])
    | Some (Raise e) =>
        Some (self, [print (dumps (error_envelope PyNone (-32603)
                                     (exn_str e)))])
    | None =>
        Some (self, [print (dumps (error_envelope (field d "id")
                                     (-32602) ("Unknown tool: " ++ tool)))])
    end.
Proof.
  intros line d p a tool self w Hc.
  rewrite (http_tool_call _ _ _ _ _ self w Hc).
  destruct Hc as (_ & _ & _ & Hn & Harg).
  unfold HttpMCPServer.handle_tool_call. rewrite !field_get, Hn.
  unfold arguments_of in Harg. rewrite Harg. cbn [bind eq_str].
  destruct (String.eqb tool "fetch_url").
  { destruct (HttpMCPServer.fetch_url w (PyDict a)); reflexivity. }
  destruct (String.eqb tool "check_weather").
  { destruct (HttpMCPServer.check_weather w (PyDict a)); reflexivity. }
  destruct (String.eqb tool "get_time").
  { destruct (HttpMCPServer.get_time w (PyDict a)); reflexivity. }
  destruct (String.eqb tool "calculate").
  { destruct (HttpMCPServer.calculate w (PyDict a)); reflexivity. }
  reflexivity.
Qed.

Lemma startswith_app : forall n b, startswith n (n ++ b) = true.
Proof.
  induction n as [|c n IH]; intro b; [reflexivity|].
  cbn [append startswith]. now rewrite Ascii.eqb_refl, IH.
Qed.

Lemma str_in_app : forall a n b, str_in n (a ++ n ++ b) = true.
Proof.
  induction a as [|c a IH]; intros n b.
  - cbn [append]. destruct (n ++ b) eqn:E; cbn [str_in];
      rewrite <- E, startswith_app; reflexivity.
  - cbn [append str_in]. rewrite IH. apply orb_true_r.
Qed.

Lemma str_take_length :
  forall n s, String.length (str_take n s) = Nat.min n (String.length s).
Proof.
  induction n as [|n IH]; intro s; [reflexivity|].
  destruct s as [|c r]; [reflexivity|]. cbn [str_take String.length Nat.min].
  now rewrite IH.
Qed.

Lemma str_take_prefix :
  forall n s, exists rest, s = str_take n s ++ rest.
Proof.
  induction n as [|n IH]; intro s; [exists s; reflexivity|].
  destruct s as [|c r]; [exists EmptyString; reflexivity|].
  destruct (IH r) as [rest H]. exists rest. cbn [str_take append].
  now rewrite <- H.
Qed.

(** Property X11.  [fetch_url] refuses a URL whose network location holds
    none of the three safe domains: the answer is a success envelope whose
    result has [is_error] true and names the location; it does not depend
    on what an exchange would give. *)
Theorem fetch_url_refuses_unsafe :
  forall line d p a self w host,
    calls line d p a "fetch_url" ->
    HttpMCPServer.netloc w (get_or a "url" (PyStr "")) = inl host ->
    (forall domain, In domain HttpMCPServer.safe_domains ->
                    str_in domain host = false) ->
    HttpMCPServer.run_line self w line =
    Some (self,
          [print (dumps (success_response (field d "id")
                           (tool_output
                              ("Error: URL domain " ++ sq ++ host ++ sq
                               ++ " not in safe list for testing") true)))]).
Proof.
  intros line d p a self w host Hc Hn Hs.
  rewrite (http_tool_body _ _ _ _ _ self w Hc). cbn [String.eqb Ascii.eqb Bool.eqb].
  unfold HttpMCPServer.fetch_url. rewrite field_get. cbn [bind].
  unfold get_or in Hn. rewrite Hn.
  assert (existsb (fun domain => str_in domain host) HttpMCPServer.safe_domains
          = false) as ->; [|reflexivity].
  cbn [existsb HttpMCPServer.safe_domains].
  rewrite !Hs by (cbn; auto). reflexivity.
Qed.

Lemma fetch_url_refuses_unsafe_witness :
  HttpMCPServer.run_line HttpMCPServer.init (online "files.example")
    (tool_call_line 5 "fetch_url" (PyDict some_url))
  = Some (HttpMCPServer.init,
          [print (dumps (success_response (PyInt 5)
                           (tool_output
                              "Error: URL domain 'files.example' not in safe list for testing"
                              true)))]).
Proof.
  refine (fetch_url_refuses_unsafe
            (tool_call_line 5 "fetch_url" (PyDict some_url))
            (tool_call 5 "fetch_url" (PyDict some_url))
            (tool_params "fetch_url" (PyDict some_url)) some_url
            HttpMCPServer.init (online "files.example") "files.example"
            (conj eq_refl (conj eq_refl (conj eq_refl (conj eq_refl eq_refl))))
            eq_refl _).
  intros domain [<-|[<-|[<-|[]]]]; reflexivity.
Defined.

(** Property X12.  The safe list of [fetch_url] is tested with [in]: a
    network location that holds a safe domain anywhere inside it passes.
    The exchange then decides the result: a status and a body give
    [is_error] false and a text that shows a prefix of the body of at most
    500 characters; an exception gives [is_error] true and its text. *)
Theorem fetch_url_substring_policy :
  forall line d p a self w domain before after,
    calls line d p a "fetch_url" ->
    In domain HttpMCPServer.safe_domains ->
    HttpMCPServer.netloc w (get_or a "url" (PyStr ""))
    = inl (before ++ domain ++ after) ->
    exists text flag,
      HttpMCPServer.run_line self w line =
      Some (self,
            [print (dumps (success_response (field d "id")
                             (tool_output text flag)))])
      /\ match HttpMCPServer.urlopen w (get_or a "url" (PyStr "")) with
         | inl (status, content) =>
             flag = false
             /\ exists shown rest,
                 text = "Status: " ++ str_of_int status ++ newline
                        ++ "Content (first 500 chars):" ++ newline ++ shown
                 /\ content = shown ++ rest
                 /\ String.length shown = Nat.min 500 (String.length content)
         | inr e => flag = true /\ text = "Error fetching URL: " ++ e
         end.
Proof.
  intros line d p a self w domain before after Hc Hin Hn.
  rewrite (http_tool_body _ _ _ _ _ self w Hc). cbn [String.eqb Ascii.eqb Bool.eqb].
  unfold HttpMCPServer.fetch_url. rewrite field_get. cbn [bind].
  unfold get_or in *. rewrite Hn.
  assert (existsb (fun x => str_in x (before ++ domain ++ after))
            HttpMCPServer.safe_domains = true) as ->.
  { apply List.existsb_exists. exists domain. split; [exact Hin|apply str_in_app]. }
  cbn [negb].
  destruct (HttpMCPServer.urlopen w _) as [[status content]|e].
  - eexists _, _. split; [reflexivity|]. split; [reflexivity|].
    destruct (str_take_prefix 500 content) as [rest Hr].
    exists (str_take 500 content), rest. repeat split; auto.
    apply str_take_length.
  - eexists _, _. split; [reflexivity|]. split; reflexivity.
Qed.

Lemma fetch_url_substring_policy_witness :
  exists text flag,
    HttpMCPServer.run_line HttpMCPServer.init
      (online "not-httpbin.org.files.example")
      (tool_call_line 5 "fetch_url" (PyDict look_alike_url))
    = Some (HttpMCPServer.init,
            [print (dumps (success_response (PyInt 5)
                             (tool_output text flag)))])
    /\ flag = false
    /\ exists shown rest,
         text = "Status: " ++ str_of_int 200 ++ newline
                ++ "Content (first 500 chars):" ++ newline ++ shown
         /\ "ok" = shown ++ rest
         /\ String.length shown = Nat.min 500 (String.length "ok").
Proof.
  exact (fetch_url_substring_policy
           (tool_call_line 5 "fetch_url" (PyDict look_alike_url))
           (tool_call 5 "fetch_url" (PyDict look_alike_url))
           (tool_params "fetch_url" (PyDict look_alike_url)) look_alike_url
           HttpMCPServer.init (online "not-httpbin.org.files.example")
           "httpbin.org" "not-" ".files.example"
           (conj eq_refl (conj eq_refl (conj eq_refl (conj eq_refl eq_refl))))
           (or_introl eq_refl) eq_refl).
Defined.

(** Property X13.  The tools [fetch_url], [check_weather] and [calculate],
    called with an object for [arguments] (or with none), are always
    answered with a success envelope carrying the request's id, whose
    result is one text and the flag [is_error], whatever the outside world
    does: no failure inside them becomes a protocol error. *)
Theorem guarded_tools_always_succeed :
  forall line d p a tool self w,
    calls line d p a tool ->
    In tool ["fetch_url"; "check_weather"; "calculate"] ->
    exists text flag,
      HttpMCPServer.run_line self w line =
      Some (self,
            [print (dumps (success_response (field d "id")
                             (tool_output text flag)))]).
Proof.
  intros line d p a tool self w Hc Hin.
  rewrite (http_tool_body _ _ _ _ _ self w Hc).
  cbn [In] in Hin. destruct Hin as [<-|[<-|[<-|[]]]];
    cbn [String.eqb Ascii.eqb Bool.eqb].
  - unfold HttpMCPServer.fetch_url. rewrite field_get. cbn [bind].
    destruct (HttpMCPServer.netloc w _) as [host|e]; [|eauto].
    destruct (negb _); [eauto|].
    destruct (HttpMCPServer.urlopen w _) as [[status content]|e]; eauto.
  - unfold HttpMCPServer.check_weather. rewrite field_get. cbn [bind]. eauto.
  - unfold HttpMCPServer.calculate. rewrite field_get. cbn [bind].
    destruct (HttpMCPServer.eval_expr w _); eauto.
Qed.

Lemma guarded_tools_always_succeed_witness :
  exists text flag,
    HttpMCPServer.run_line HttpMCPServer.init offline
      (tool_call_line 6 "calculate" (PyDict [("expression", PyStr "1/0")]))
    = Some (HttpMCPServer.init,
            [print (dumps (success_response (PyInt 6)
                             (tool_output text flag)))]).
Proof.
  exact (guarded_tools_always_succeed
           (tool_call_line 6 "calculate" (PyDict [("expression", PyStr "1/0")]))
           (tool_call 6 "calculate" (PyDict [("expression", PyStr "1/0")]))
           (tool_params "calculate" (PyDict [("expression", PyStr "1/0")]))
           [("expression", PyStr "1/0")] "calculate"
           HttpMCPServer.init offline
           (conj eq_refl (conj eq_refl (conj eq_refl (conj eq_refl eq_refl))))
           (or_intror (or_intror (or_introl eq_refl)))).
Defined.

Lemma offsets_get_in :
  forall d k default,
    In (HttpMCPServer.offsets_get d k default) (default :: map snd d).
Proof.
  induction d as [|[k' v] d IH]; intros k default; [left; reflexivity|].
  cbn [HttpMCPServer.offsets_get map snd].
  destruct (String.eqb k' k); [right; left; reflexivity|].
  destruct (IH k default) as [H|H]; [left; exact H|right; right; exact H].
Qed.

(** Property X14.  [get_time] of the HTTP host with a text for the zone (or
    none, which means UTC) is answered with a success envelope.  The text
    shows the zone as it was sent, and the clock is moved by one of the
    five offsets of the table, looked up with the zone in upper case; a
    zone that is not in the table moves it by 0, and is not reported as an
    error. *)
Theorem get_time_zone_lookup :
  forall line d p a self w zone,
    calls line d p a "get_time" ->
    get_or a "timezone" (PyStr "UTC") = PyStr zone ->
    let hours := HttpMCPServer.offsets_get HttpMCPServer.offsets (upper zone) 0%Z in
    HttpMCPServer.run_line self w line =
    Some (self,
          [print (dumps (success_response (field d "id")
                           (tool_output
                              ("Current time in " ++ zone ++ ": "
                               ++ HttpMCPServer.strftime w hours) false)))])
    /\ In hours [0; -5; -8; 1; 9]%Z
    /\ (hours <> 0%Z -> In (upper zone) ["EST"; "PST"; "CET"; "JST"]).
Proof.
  intros line d p a self w zone Hc Hz hours. repeat split.
  - rewrite (http_tool_body _ _ _ _ _ self w Hc).
    cbn [String.eqb Ascii.eqb Bool.eqb].
    unfold HttpMCPServer.get_time. rewrite field_get. cbn [bind].
    unfold get_or in Hz. rewrite Hz. reflexivity.
  - pose proof (offsets_get_in HttpMCPServer.offsets (upper zone) 0%Z) as H.
    cbn [map snd HttpMCPServer.offsets In] in H. cbn [In]. fold hours in H.
    intuition.
  - subst hours. unfold HttpMCPServer.offsets. cbn [HttpMCPServer.offsets_get].
    destruct (String.eqb "UTC" (upper zone)) eqn:E0; [intros H; now elim H|].
    destruct (String.eqb "EST" (upper zone)) eqn:E1.
    { apply String.eqb_eq in E1. rewrite <- E1. cbn; auto. }
    destruct (String.eqb "PST" (upper zone)) eqn:E2.
    { apply String.eqb_eq in E2. rewrite <- E2. cbn; auto. }
    destruct (String.eqb "CET" (upper zone)) eqn:E3.
    { apply String.eqb_eq in E3. rewrite <- E3. cbn; auto. }
    destruct (String.eqb "JST" (upper zone)) eqn:E4.
    { apply String.eqb_eq in E4. rewrite <- E4. cbn; auto. }
    intro H. now elim H.
Qed.

Lemma get_time_zone_lookup_witness :
  HttpMCPServer.run_line HttpMCPServer.init offline
    (tool_call_line 7 "get_time" (PyDict pacific))
  = Some (HttpMCPServer.init,
          [print (dumps (success_response (PyInt 7)
                           (tool_output
                              ("Current time in pst: "
                               ++ HttpMCPServer.strftime offline (-8)) false)))])
  /\ In (-8)%Z [0; -5; -8; 1; 9]%Z
  /\ ((-8)%Z <> 0%Z -> In "PST" ["EST"; "PST"; "CET"; "JST"]).
Proof.
  exact (get_time_zone_lookup
           (tool_call_line 7 "get_time" (PyDict pacific))
           (tool_call 7 "get_time" (PyDict pacific))
           (tool_params "get_time" (PyDict pacific)) pacific
           HttpMCPServer.init offline "pst"
           (conj eq_refl (conj eq_refl (conj eq_refl (conj eq_refl eq_refl))))
           eq_refl).
Defined.

(** Property X15.  [get_time] of the mock host never looks at [arguments]:
    whatever it is, an object or not, the answer is the success envelope
    with the request's id and the clock reading. *)
Theorem mock_get_time_ignores_arguments :
  forall line d p self w,
    loads (strip line) = Decoded (PyDict d) ->
    dict_get d "method" = Some (PyStr "tools/call") ->
    dict_get d "params" = Some (PyDict p) ->
    dict_get p "name" = Some (PyStr "get_time") ->
    MockMCPServer.run_line self w line =
    Some (self,
          [print (dumps (success_response (field d "id")
                           (tool_output
                              ("Current time: "
                               ++ MockMCPServer.now_isoformat w) false)))]).
Proof.
  intros line d p self w Hdec Hm Hp Hn.
  unfold MockMCPServer.run_line.
  rewrite (decoded_not_blank _ _ Hdec), Hdec.
  unfold MockMCPServer.handle_request. rewrite !field_get, Hm, Hp.
  cbn [bind eq_str String.eqb Ascii.eqb Bool.eqb].
  unfold MockMCPServer.handle_tool_call. rewrite !field_get, Hn.
  cbn [bind eq_str String.eqb Ascii.eqb Bool.eqb]. reflexivity.
Qed.

Lemma mock_get_time_ignores_arguments_witness :
  MockMCPServer.run_line MockMCPServer.init noon
    (tool_call_line 8 "get_time" (PyInt 5))
  = Some (MockMCPServer.init,
          [print (dumps (success_response (PyInt 8)
                           (tool_output
                              "Current time: 2024-01-01T12:00:00" false)))]).
Proof.
  exact (mock_get_time_ignores_arguments
           (tool_call_line 8 "get_time" (PyInt 5))
           (tool_call 8 "get_time" (PyInt 5))
           (tool_params "get_time" (PyInt 5))
           MockMCPServer.init noon eq_refl eq_refl eq_refl eq_refl).
Defined.

(** ** The relay and its child *)

Lemma dumps_not_empty : forall v, is_empty (dumps v) = false.
Proof.
  intro v. destruct (dumps_head v EmptyString) as (c & r & E & _).
  destruct (dumps v); [discriminate E | reflexivity].
Qed.

Lemma relay_error_not_empty :
  forall request_id code message,
    is_empty (MCPToolsClient.error_response request_id code message) = false.
Proof. intros. apply dumps_not_empty. Qed.

Lemma blank_not_forwarded :
  forall line, blank line = true -> forwarded line = false.
Proof.
  intros line H. unfold blank in H. unfold forwarded.
  destruct (strip line); [reflexivity | discriminate H].
Qed.

(** One call of [readline], then the others. *)
Lemma after_reads_S :
  forall n events,
    after_reads (S n) events =
    match after_reads 1 events with
    | Some rest => after_reads n rest
    | None => None
    end.
Proof.
  intros n events. destruct events as [|[l| |] rest]; reflexivity.
Qed.

(** One turn of the relay's loop, as seen from the child. *)
Lemma relay_run_line_child :
  forall self spawn line,
    modelled line ->
    if forwarded line then
      match child_of self spawn with
      | None =>
          exists out, MCPToolsClient.run_line self spawn line = Some (self, [out])
      | Some p =>
          if MCPToolsClient.broken p then
            exists out,
              MCPToolsClient.run_line self spawn line =
              Some ({| MCPToolsClient.initialized :=
                         MCPToolsClient.initialized self;
                       MCPToolsClient.server_process := Some p |}, [out])
          else
            match after_reads 1 (MCPToolsClient.stdout_data p) with
            | Some rest =>
                exists out,
                  MCPToolsClient.run_line self spawn line =
                  Some ({| MCPToolsClient.initialized :=
                             MCPToolsClient.initialized self;
                           MCPToolsClient.server_process :=
                             Some {| MCPToolsClient.stdin_data :=
                                       (MCPToolsClient.stdin_data p
                                        ++ [sent line])%list;
                                     MCPToolsClient.stdout_data := rest;
                                     MCPToolsClient.broken := false;
                                     MCPToolsClient.terminated :=
                                       MCPToolsClient.terminated p |} |},
                        [out])
            | None => MCPToolsClient.run_line self spawn line = None
            end
      end
    else
      exists out,
        MCPToolsClient.run_line self spawn line = Some (self, out)
        /\ List.length out = (if blank line then 0 else 1).
Proof.
  intros self spawn line Hm. unfold modelled in Hm.
  unfold MCPToolsClient.run_line, blank, forwarded.
  destruct (is_empty (strip line)) eqn:Hb.
  { destruct (strip line); [|discriminate Hb]. eexists. split; reflexivity. }
  destruct (loads (strip line)) as [request| |] eqn:Hdec; [| |now elim Hm].
  - destruct request as [|b|n|s|l|d];
      try (unfold MCPToolsClient.handle_request; rewrite Hdec;
           cbn [MCPToolsClient.forward get bind];
           rewrite relay_error_not_empty; eexists; split; reflexivity).
    destruct (child_of self spawn) as [p|] eqn:Hc.
    + rewrite (relay_forward_running _ _ _ _ _ Hdec Hc). cbv zeta.
      unfold MCPToolsClient.send_to_server, sent.
      cbn [MCPToolsClient.server_process MCPToolsClient.initialized].
      destruct (MCPToolsClient.broken p) eqn:Hbr.
      { rewrite relay_error_not_empty. eexists. reflexivity. }
      destruct (MCPToolsClient.stdout_data p) as [|[reply| |] rest];
        cbn [after_reads]; [reflexivity| | |];
        try (rewrite relay_error_not_empty; eexists; reflexivity).
      destruct (is_empty reply).
      { rewrite relay_error_not_empty. eexists. reflexivity. }
      destruct (is_empty (strip reply)) eqn:Hr.
      { rewrite relay_error_not_empty. eexists. reflexivity. }
      rewrite Hr. eexists. reflexivity.
    + unfold child_of in Hc.
      destruct (MCPToolsClient.server_process self) eqn:Hs; [discriminate Hc|].
      subst spawn. unfold MCPToolsClient.handle_request. rewrite Hdec.
      unfold MCPToolsClient.forward. rewrite !get_none. cbn [bind].
      rewrite Hs. cbn [MCPToolsClient.start_server negb bind].
      rewrite relay_error_not_empty. eexists. reflexivity.
  - unfold MCPToolsClient.handle_request. rewrite Hdec.
    rewrite relay_error_not_empty. eexists. split; reflexivity.
Qed.

(** Property X16.  A relay whose child is running and takes input passes
    on to it, in order and trimmed, exactly the lines that decode to an
    object, and calls [readline] once for each.  When each of these calls
    returns, the run of the loop returns: the relay has written one line
    of output for each line of input that is not blank, has not replaced
    the child nor consulted a spawn, and has left its own flag alone.
    When one of the calls waits for ever, because the child prints
    nothing, the loop never returns. *)
Theorem relay_forwards_in_order :
  forall (stdin : list (option MCPToolsClient.Popen * string))
         (self : MCPToolsClient.t) (p : MCPToolsClient.Popen),
    Forall (fun i => modelled (snd i)) stdin ->
    MCPToolsClient.server_process self = Some p ->
    MCPToolsClient.broken p = false ->
    match after_reads (List.length (filter forwarded (map snd stdin)))
                      (MCPToolsClient.stdout_data p) with
    | Some rest =>
        exists self' out,
          MCPToolsClient.run_loop self stdin = Some (self', out)
          /\ MCPToolsClient.initialized self' = MCPToolsClient.initialized self
          /\ MCPToolsClient.server_process self' =
             Some {| MCPToolsClient.stdin_data :=
                       (MCPToolsClient.stdin_data p
                        ++ map sent (filter forwarded (map snd stdin)))%list;
                     MCPToolsClient.stdout_data := rest;
                     MCPToolsClient.broken := false;
                     MCPToolsClient.terminated := MCPToolsClient.terminated p |}
          /\ List.length out
             = List.length (filter (fun l => negb (blank l)) (map snd stdin))
    | None => MCPToolsClient.run_loop self stdin = None
    end.
Proof.
  induction stdin as [|[spawn line] stdin IH]; intros self p Hm Hp Hb.
  - cbn [map filter List.length after_reads].
    eexists _, _. split; [reflexivity|]. split; [reflexivity|].
    split; [|reflexivity]. rewrite List.app_nil_r, Hp.
    destruct p; cbn in *. now subst.
  - inversion Hm as [|x l Hl Hm']; subst. cbn [snd] in Hl.
    pose proof (relay_run_line_child self spawn line Hl) as H1.
    assert (Hch : child_of self spawn = Some p)
      by (unfold child_of; now rewrite Hp).
    rewrite Hch, Hb in H1.
    cbn [MCPToolsClient.run_loop map snd filter].
    destruct (forwarded line) eqn:Hf; [|clear Hch].
    + cbn [List.length]. rewrite after_reads_S.
      destruct (after_reads 1 (MCPToolsClient.stdout_data p)) as [r1|];
        [|now rewrite H1].
      destruct H1 as [out1 H1]. rewrite H1.
      match type of H1 with
      | _ = Some ({| MCPToolsClient.initialized := _;
                     MCPToolsClient.server_process := Some ?q |}, _) =>
          pose proof (IH {| MCPToolsClient.initialized :=
                              MCPToolsClient.initialized self;
                            MCPToolsClient.server_process := Some q |}
                         q Hm' eq_refl eq_refl) as IH'
      end.
      cbn [MCPToolsClient.stdin_data MCPToolsClient.stdout_data
           MCPToolsClient.terminated MCPToolsClient.initialized] in IH'.
      destruct (after_reads _ r1) as [rest|]; [|now rewrite IH'].
      destruct IH' as (self' & out & H & Hi & Hs & Hc). rewrite H.
      eexists _, _. split; [reflexivity|]. split; [exact Hi|]. split.
      * rewrite Hs. cbn [map]. now rewrite <- List.app_assoc.
      * cbn [List.length List.app]. rewrite Hc.
        destruct (blank line) eqn:E; [|reflexivity].
        now rewrite (blank_not_forwarded _ E) in Hf.
    + destruct H1 as (out1 & H1 & Hc1). rewrite H1.
      specialize (IH self p Hm' Hp Hb).
      destruct (after_reads _ (MCPToolsClient.stdout_data p)) as [rest|];
        [|now rewrite IH].
      destruct IH as (self' & out & H & Hi & Hs & Hc). rewrite H.
      eexists _, _. split; [reflexivity|]. split; [exact Hi|].
      split; [exact Hs|].
      rewrite List.length_app, Hc1, Hc. destruct (blank line); reflexivity.
Qed.

Lemma relayed_session_modelled :
  Forall (fun i => modelled (snd i)) relayed_session.
Proof. repeat constructor; discriminate. Qed.

Lemma relay_forwards_in_order_witness :
  (exists self' out,
      MCPToolsClient.run_loop
        (running [tools_reply ++ newline; tools_reply ++ newline; tools_reply])
        relayed_session
      = Some (self', out)
      /\ MCPToolsClient.initialized self' = false
      /\ MCPToolsClient.server_process self' =
         Some {| MCPToolsClient.stdin_data :=
                   [tools_request ++ newline; request_five ++ newline];
                 MCPToolsClient.stdout_data := [MCPToolsClient.Line tools_reply];
                 MCPToolsClient.broken := false;
                 MCPToolsClient.terminated := false |}
      /\ List.length out = 3)
  /\ MCPToolsClient.run_loop (running [tools_reply ++ newline]) relayed_session
     = None.
Proof.
  split.
  - exact (relay_forwards_in_order relayed_session
             (running [tools_reply ++ newline; tools_reply ++ newline;
                       tools_reply])
             _ relayed_session_modelled eq_refl eq_refl).
  - exact (relay_forwards_in_order relayed_session
             (running [tools_reply ++ newline])
             _ relayed_session_modelled eq_refl eq_refl).
Defined.

(** A child that never keeps the relay waiting answers one more call of
    [readline], and is such a child afterwards. *)
Lemma never_waits_read :
  forall p,
    MCPToolsClient.broken p = false -> never_waits p = true ->
    exists rest,
      after_reads 1 (MCPToolsClient.stdout_data p) = Some rest
      /\ forall written terminated,
          never_waits {| MCPToolsClient.stdin_data := written;
                         MCPToolsClient.stdout_data := rest;
                         MCPToolsClient.broken := false;
                         MCPToolsClient.terminated := terminated |} = true.
Proof.
  intros p Hb Hn. unfold never_waits in *. rewrite Hb in Hn.
  cbn [orb MCPToolsClient.broken MCPToolsClient.stdout_data] in *.
  destruct (MCPToolsClient.stdout_data p) as [|[l| |] rest];
    [discriminate Hn| | |]; eexists; (split; [reflexivity|]); intros;
    exact Hn.
Qed.

Lemma relay_run_loop_returns :
  forall (stdin : list (option MCPToolsClient.Popen * string))
         (self : MCPToolsClient.t),
    Forall (fun i => modelled (snd i)) stdin ->
    (forall p, MCPToolsClient.server_process self = Some p ->
               never_waits p = true) ->
    Forall (fun i => forall p, fst i = Some p -> never_waits p = true) stdin ->
    exists self' out, MCPToolsClient.run_loop self stdin = Some (self', out).
Proof.
  induction stdin as [|[spawn line] stdin IH]; intros self Hm Hself Hsp.
  - eexists _, _. reflexivity.
  - inversion Hm as [|x l Hl Hm']; subst. cbn [snd] in Hl.
    inversion Hsp as [|x l Hs Hsp']; subst. cbn [fst] in Hs.
    pose proof (relay_run_line_child self spawn line Hl) as H1.
    cbn [MCPToolsClient.run_loop].
    assert (Hchild : forall p, child_of self spawn = Some p ->
                               never_waits p = true).
    { intros p Hc. unfold child_of in Hc.
      destruct (MCPToolsClient.server_process self); [inversion Hc; subst|];
        auto. }
    assert (Hnext : forall self1 out1,
               MCPToolsClient.run_line self spawn line = Some (self1, out1) ->
               (forall p, MCPToolsClient.server_process self1 = Some p ->
                          never_waits p = true) ->
               exists self' out,
                 match MCPToolsClient.run_line self spawn line with
                 | Some (self', out) =>
                     match MCPToolsClient.run_loop self' stdin with
                     | Some (self'', out') => Some (self'', (out ++ out')%list)
                     | None => None
                     end
                 | None => None
                 end = Some (self', out)).
    { intros self1 out1 E Hn. rewrite E.
      destruct (IH self1 Hm' Hn Hsp') as (self' & out & H). rewrite H.
      eexists _, _. reflexivity. }
    destruct (forwarded line).
    + destruct (child_of self spawn) as [p|] eqn:Hc.
      * pose proof (Hchild p eq_refl) as Hp.
        destruct (MCPToolsClient.broken p) eqn:Hb.
        { destruct H1 as [out1 H1]. apply (Hnext _ _ H1).
          intros q Hq. inversion Hq; subst. exact Hp. }
        destruct (never_waits_read p Hb Hp) as (rest & Hr & Hrest).
        rewrite Hr in H1. destruct H1 as [out1 H1]. apply (Hnext _ _ H1).
        intros q Hq. inversion Hq; subst. apply Hrest.
      * destruct H1 as [out1 H1]. apply (Hnext _ _ H1). exact Hself.
    + destruct H1 as (out1 & H1 & _). apply (Hnext _ _ H1). exact Hself.
Qed.

Lemma relay_run_loop_child :
  forall (stdin : list (option MCPToolsClient.Popen * string))
         (self self' : MCPToolsClient.t) (out : list string),
    Forall (fun i => modelled (snd i)) stdin ->
    MCPToolsClient.run_loop self stdin = Some (self', out) ->
    (MCPToolsClient.server_process self' = None <->
     MCPToolsClient.server_process self = None
     /\ Forall (fun i => forwarded (snd i) = true -> fst i = None) stdin).
Proof.
  induction stdin as [|[spawn line] stdin IH]; intros self self' out Hm Hrun.
  - inversion Hrun; subst. cbn. intuition.
  - inversion Hm as [|x l Hl Hm']; subst. cbn [snd] in Hl.
    pose proof (relay_run_line_child self spawn line Hl) as H1.
    cbn [MCPToolsClient.run_loop] in Hrun.
    destruct (MCPToolsClient.run_line self spawn line) as [[self1 out1]|] eqn:E;
      [|discriminate Hrun].
    destruct (MCPToolsClient.run_loop self1 stdin) as [[self2 out2]|] eqn:E2;
      [|discriminate Hrun].
    inversion Hrun; subst self2 out. clear Hrun.
    rewrite (IH _ _ _ Hm' E2). rewrite List.Forall_cons_iff. cbn [fst snd].
    assert (Hstep : MCPToolsClient.server_process self1 = None <->
                    MCPToolsClient.server_process self = None
                    /\ (forwarded line = true -> spawn = None)).
    { unfold child_of in H1.
      destruct (forwarded line).
      - destruct (MCPToolsClient.server_process self) as [q|] eqn:Hq.
        + destruct (MCPToolsClient.broken q).
          * destruct H1 as [o H1]. inversion H1; subst.
            cbn [MCPToolsClient.server_process].
            split; [discriminate | intros [H _]; discriminate H].
          * destruct (after_reads 1 _); [|discriminate H1].
            destruct H1 as [o H1]. inversion H1; subst.
            cbn [MCPToolsClient.server_process].
            split; [discriminate | intros [H _]; discriminate H].
        + destruct spawn as [q|].
          * destruct (MCPToolsClient.broken q).
            -- destruct H1 as [o H1]. inversion H1; subst.
               cbn [MCPToolsClient.server_process].
               split; [discriminate | intros [_ H]; discriminate (H eq_refl)].
            -- destruct (after_reads 1 _); [|discriminate H1].
               destruct H1 as [o H1]. inversion H1; subst.
               cbn [MCPToolsClient.server_process].
               split; [discriminate | intros [_ H]; discriminate (H eq_refl)].
          * destruct H1 as [o H1]. inversion H1; subst. rewrite Hq. tauto.
      - destruct H1 as (o & H1 & _). inversion H1; subst.
        split; [intro H; split; [exact H | discriminate] | tauto]. }
    rewrite Hstep. tauto.
Qed.

(** Property X17.  The child of the relay is started lazily and is
    terminated at the end.  Whenever a run of the relay returns, the relay
    has no child at the end exactly when it had none at the start and the
    spawn failed at every line that decodes to an object, so a failed spawn
    is tried again at the next request; and a child that the relay has at
    the end was terminated.  The run returns when the lines are within the
    embedding and no child it has or starts keeps it waiting: writing to
    the child raises, or the child's output comes to an end. *)
Theorem relay_child_lifecycle :
  forall (stdin : list (option MCPToolsClient.Popen * string))
         (self : MCPToolsClient.t),
    Forall (fun i => modelled (snd i)) stdin ->
    ((forall p, MCPToolsClient.server_process self = Some p ->
                never_waits p = true) ->
     Forall (fun i => forall p, fst i = Some p -> never_waits p = true) stdin ->
     exists self' out, MCPToolsClient.run self stdin = Some (self', out))
    /\
    (forall self' out,
        MCPToolsClient.run self stdin = Some (self', out) ->
        (forall p, MCPToolsClient.server_process self' = Some p ->
                   MCPToolsClient.terminated p = true)
        /\ (MCPToolsClient.server_process self' = None <->
            MCPToolsClient.server_process self = None
            /\ Forall (fun i => forwarded (snd i) = true -> fst i = None)
                      stdin)).
Proof.
  intros stdin self Hm. unfold MCPToolsClient.run. split.
  - intros Hself Hsp.
    destruct (relay_run_loop_returns stdin self Hm Hself Hsp)
      as (self1 & out & H).
    rewrite H. eexists _, _. reflexivity.
  - intros self' out Hrun.
    destruct (MCPToolsClient.run_loop self stdin) as [[self1 out1]|] eqn:H;
      [|discriminate Hrun].
    inversion Hrun; subst self' out. clear Hrun.
    pose proof (relay_run_loop_child stdin self self1 out1 Hm H) as Hiff.
    unfold MCPToolsClient.shutdown.
    destruct (MCPToolsClient.server_process self1) as [q|] eqn:Hq.
    + cbn [MCPToolsClient.server_process]. split.
      * intros p Hp. inversion Hp; subst. reflexivity.
      * rewrite <- Hiff. split; discriminate.
    + rewrite Hq. split; [discriminate | exact Hiff].
Qed.

Lemma late_start_modelled : Forall (fun i => modelled (snd i)) late_start.
Proof. repeat constructor; discriminate. Qed.

Lemma relay_child_lifecycle_witness :
  exists self' out,
    MCPToolsClient.run MCPToolsClient.init late_start = Some (self', out)
    /\ (forall p, MCPToolsClient.server_process self' = Some p ->
                  MCPToolsClient.terminated p = true)
    /\ (MCPToolsClient.server_process self' = None <->
        MCPToolsClient.server_process MCPToolsClient.init = None
        /\ Forall (fun i => forwarded (snd i) = true -> fst i = None)
                  late_start).
Proof.
  destruct (relay_child_lifecycle late_start MCPToolsClient.init
              late_start_modelled) as [Hreturns Hchild].
  destruct Hreturns as (self' & out & Hrun).
  - intros p Hp. discriminate Hp.
  - repeat constructor; intros p Hp; try discriminate Hp.
    inversion Hp; subst. reflexivity.
  - exists self', out. split; [exact Hrun|]. exact (Hchild self' out Hrun).
Defined.

(** ** The relay in front of the HTTP host *)

Lemma http_run_line_strip :
  forall self w line,
    HttpMCPServer.run_line self w (sent line) = HttpMCPServer.run_line self w line.
Proof.
  intros self w line. unfold HttpMCPServer.run_line, sent.
  now rewrite strip_newline, strip_idem.
Qed.

Lemma http_run_line_answer :
  forall self w line,
    forwarded line = true -> handshake_complete line = false ->
    exists self' r,
      HttpMCPServer.run_line self w line = Some (self', [print (dumps r)]).
Proof.
  intros self w line Hf Hh. unfold forwarded in Hf.
  unfold handshake_complete in Hh. unfold HttpMCPServer.run_line.
  destruct (loads (strip line)) as [[| | | | |d]| |] eqn:Hdec;
    try discriminate Hf.
  rewrite (decoded_not_blank _ _ Hdec).
  destruct (HttpMCPServer.handle_request self w (PyDict d))
    as [[s [r|]]|e] eqn:Hr; eauto.
  destruct (http_handle_request_state _ _ _ _ _ Hr) as (d' & E & _ & _ & Hn).
  inversion E; subst d'. destruct Hn as [Hn _]. rewrite (Hn eq_refl) in Hh.
  discriminate Hh.
Qed.

(** Property X18.  The relay in front of the HTTP host: when every line
    decodes to an object other than a handshake-complete envelope, and the
    child prints what the HTTP host prints for the lines written to it,
    the output of the relay is, chunk for chunk, the output of the host
    run directly on the lines. *)
Theorem relay_transparent :
  forall (lines : list string) (ws : list HttpMCPServer.env)
         (spawns : list (option MCPToolsClient.Popen))
         (hs hs' : HttpMCPServer.t) (outs : list string)
         (self : MCPToolsClient.t) (p : MCPToolsClient.Popen),
    List.length ws = List.length lines ->
    List.length spawns = List.length lines ->
    Forall (fun l => forwarded l = true /\ handshake_complete l = false) lines ->
    child_of self (hd None spawns) = Some p ->
    MCPToolsClient.broken p = false ->
    HttpMCPServer.run hs (combine ws (map sent lines)) = Some (hs', outs) ->
    MCPToolsClient.stdout_data p = lines_of outs ->
    HttpMCPServer.run hs (combine ws lines) = Some (hs', outs)
    /\ exists self',
        MCPToolsClient.run_loop self (combine spawns lines) = Some (self', outs).
Proof.
  induction lines as [|line lines IH];
    intros ws spawns hs hs' outs self p Hw Hsp Hl Hc Hb Hrun Hout.
  - destruct ws; [|discriminate Hw]. destruct spawns; [|discriminate Hsp].
    cbn in *. inversion Hrun; subst. eauto.
  - destruct ws as [|w ws]; [discriminate Hw|]. injection Hw as Hw.
    destruct spawns as [|spawn spawns]; [discriminate Hsp|].
    injection Hsp as Hsp. inversion Hl as [|x l [Hf Hh] Hl']; subst.
    cbn [map combine HttpMCPServer.run MCPToolsClient.run_loop hd] in *.
    rewrite http_run_line_strip in Hrun.
    destruct (http_run_line_answer hs w line Hf Hh) as (hs1 & r & H1).
    rewrite H1 in Hrun |- *.
    destruct (HttpMCPServer.run hs1 (combine ws (map sent lines)))
      as [[hs2 outs2]|] eqn:Hrest; [|discriminate Hrun].
    inversion Hrun; subst hs' outs. clear Hrun.
    cbn [lines_of map app] in Hout.
    unfold forwarded in Hf.
    destruct (loads (strip line)) as [[| | | | |d]| |] eqn:Hdec;
      try discriminate Hf.
    assert (Hstep :
      MCPToolsClient.run_line self spawn line =
      Some ({| MCPToolsClient.initialized := MCPToolsClient.initialized self;
               MCPToolsClient.server_process :=
                 Some {| MCPToolsClient.stdin_data :=
                           (MCPToolsClient.stdin_data p ++ [sent line])%list;
                         MCPToolsClient.stdout_data := lines_of outs2;
                         MCPToolsClient.broken := false;
                         MCPToolsClient.terminated :=
                           MCPToolsClient.terminated p |} |},
            [print (dumps r)])).
    { unfold MCPToolsClient.run_line. rewrite (decoded_not_blank _ _ Hdec).
      rewrite (relay_forward_running _ _ _ _ _ Hdec Hc). cbv zeta.
      unfold MCPToolsClient.send_to_server.
      cbn [MCPToolsClient.server_process MCPToolsClient.initialized].
      rewrite Hb, Hout.
      assert (E : is_empty (print (dumps r)) = false).
      { unfold print. destruct (dumps r); reflexivity. }
      rewrite E, strip_print_dumps, !dumps_not_empty. reflexivity. }
    rewrite Hstep.
    edestruct (IH ws spawns hs1 hs2 outs2) as (Hhost & self' & Hrelay);
      [exact Hw | exact Hsp | exact Hl' | | | exact Hrest | | ].
    4: { rewrite Hhost, Hrelay. split; [reflexivity|]. eexists. reflexivity. }
    + unfold child_of. cbn [MCPToolsClient.server_process]. reflexivity.
    + reflexivity.
    + reflexivity.
Qed.

Lemma relay_transparent_witness :
  HttpMCPServer.run HttpMCPServer.init (combine [offline; offline] two_requests)
  = Some (HttpMCPServer.init, http_child_output [offline; offline] two_requests)
  /\ exists self',
      MCPToolsClient.run_loop MCPToolsClient.init
        (combine [Some (fresh_child
                          (http_child_output [offline; offline] two_requests));
                  None]
                 two_requests)
      = Some (self', http_child_output [offline; offline] two_requests).
Proof.
  refine (relay_transparent two_requests [offline; offline]
            [Some (fresh_child
                     (http_child_output [offline; offline] two_requests));
             None]
            HttpMCPServer.init HttpMCPServer.init
            (http_child_output [offline; offline] two_requests)
            MCPToolsClient.init _ eq_refl eq_refl _ eq_refl eq_refl eq_refl
            eq_refl).
  repeat constructor.
Defined.

(** ** The handshake *)

(** Property X19.  The answer to [initialize] does not depend on what the
    client sends in [params], on the state or on the world: whenever
    [params] is an object (or is missing) it is the answer to an
    [initialize] with empty [params] and the same id, a success envelope
    with that id and the version 2024-11-05 of the protocol, which is not
    negotiated; the state is unchanged, the flag included. *)
Theorem initialize_reply_fixed :
  forall (line : string) (d : list (string * pyval)),
    loads (strip line) = Decoded (PyDict d) ->
    dict_get d "method" = Some (PyStr "initialize") ->
    is_dict (get_or d "params" (PyDict [])) = true ->
    exists r h,
      MockMCPServer.handle_initialize (field d "id") (PyDict []) = Return r
      /\ HttpMCPServer.handle_initialize (field d "id") (PyDict []) = Return h
      /\ (exists result,
            r = success_response (field d "id") (PyDict result)
            /\ dict_get result "protocolVersion" = Some (PyStr "2024-11-05"))
      /\ (exists result,
            h = success_response (field d "id") (PyDict result)
            /\ dict_get result "protocol_version" = Some (PyStr "2024-11-05"))
      /\ (forall self w,
             MockMCPServer.run_line self w line
             = Some (self, [print (dumps r)]))
      /\ (forall self w,
             HttpMCPServer.run_line self w line
             = Some (self, [print (dumps h)])).
Proof.
  intros line d Hdec Hm Hp. pose proof (decoded_not_blank _ _ Hdec) as Hne.
  unfold get_or in Hp.
  eexists _, _. split; [reflexivity|]. split; [reflexivity|].
  split; [eexists; split; reflexivity|].
  split; [eexists; split; reflexivity|].
  split; intros self w.
  - unfold MockMCPServer.run_line, MockMCPServer.handle_request.
    rewrite Hne, Hdec, !field_get, Hm. cbn [bind eq_str String.eqb Ascii.eqb Bool.eqb].
    destruct (match dict_get d "params" with Some v => v | None => PyDict [] end);
      try discriminate Hp. reflexivity.
  - unfold HttpMCPServer.run_line, HttpMCPServer.handle_request.
    rewrite Hne, Hdec, !field_get, Hm. cbn [bind eq_str String.eqb Ascii.eqb Bool.eqb].
    destruct (match dict_get d "params" with Some v => v | None => PyDict [] end);
      try discriminate Hp. reflexivity.
Qed.

Lemma initialize_reply_fixed_witness :
  exists r h,
    MockMCPServer.handle_initialize (PyInt 1) (PyDict []) = Return r
    /\ HttpMCPServer.handle_initialize (PyInt 1) (PyDict []) = Return h
    /\ (exists result,
          r = success_response (PyInt 1) (PyDict result)
          /\ dict_get result "protocolVersion" = Some (PyStr "2024-11-05"))
    /\ (exists result,
          h = success_response (PyInt 1) (PyDict result)
          /\ dict_get result "protocol_version" = Some (PyStr "2024-11-05"))
    /\ (forall self w,
           MockMCPServer.run_line self w initialize_request
           = Some (self, [print (dumps r)]))
    /\ (forall self w,
           HttpMCPServer.run_line self w initialize_request
           = Some (self, [print (dumps h)])).
Proof.
  exact (initialize_reply_fixed initialize_request
           [("jsonrpc", PyStr "2.0"); ("id", PyInt 1);
            ("method", PyStr "initialize");
            ("params",
              PyDict [("protocolVersion", PyStr "2025-06-18");
                      ("client_info",
                        PyDict [("name", PyStr "replicante")])])]
           eq_refl eq_refl eq_refl).
Defined.
